(** * YaesuTool: memory-image codec and clone transport of the FT-60R and VX-2

    A shallow embedding of [ft-60.c] and [vx-2.c].  The global byte array
    [radio_mem] is a map from addresses to bytes that every operation
    threads explicitly; a call that ends in [exit(-1)] yields [Halt] with
    the diagnostic it wrote; the unbounded polling and retry loops of the
    clone protocol run on fuel.  The two radios share function names, so
    each lives in a module of its own ([FT60], [VX2]). *)

From Stdlib Require Import ZArith List String Ascii Bool Lia DecimalString.
From Stdlib Require Import Uint63 Floats.PrimFloat Floats.FloatOps Floats.SpecFloat.
Import ListNotations.

Set Warnings "-inexact-float".
Open Scope string_scope.
Open Scope Z_scope.

(** ** The C runtime the two drivers rely on *)

Module Libc.

(** *** Integer types *)

Definition uint8 (v : Z) : Z := v mod 256.
Definition uint16 (v : Z) : Z := v mod 65536.
Definition uint32 (v : Z) : Z := v mod 4294967296.

(** Conversion to [int]: two's complement wrap-around on 32 bits. *)
Definition int32 (v : Z) : Z :=
let u := uint32 v in if u <? 2147483648 then u else u - 4294967296.

Definition ULONG_MAX : Z := 18446744073709551615.
Definition LONG_MAX : Z := 9223372036854775807.
Definition LONG_MIN : Z := -9223372036854775808.
Definition INT_MIN : Z := -2147483648.

(** C truth value of a condition. *)
Definition c_bool (b : bool) : Z := if b then 1 else 0.

(** *** Memory: [unsigned char radio_mem[]]

    An array element is eight bits wide: a store truncates, a load yields
    [0..255].  Pointers into the array are addresses. *)

Definition memory : Type := Z -> Z.

Definition load (m : memory) (a : Z) : Z := uint8 (m a).

Definition store (m : memory) (a v : Z) : memory :=
fun x => if x =? a then uint8 v else m x.

(** [memset(&m[a], c, n)] *)
Definition memset (m : memory) (a c n : Z) : memory :=
fun x => if (a <=? x) && (x <? a + n) then uint8 c else m x.

(** Copy [bytes] to [&m[a]], as a read from a device into a buffer does. *)
Definition store_bytes (m : memory) (a : Z) (bytes : list Z) : memory :=
fun x =>
  if (a <=? x) && (x <? a + Z.of_nat (List.length bytes))
  then uint8 (nth (Z.to_nat (x - a)) bytes 0)
  else m x.

(** The bytes [m[a] .. m[a+n-1]]. *)
Definition load_bytes (m : memory) (a : Z) (n : nat) : list Z :=
map (fun k => load m (a + Z.of_nat k)) (seq 0 n).

(** [*(uint16_t* ) &m[a]] on a little-endian host. *)
Definition load_u16 (m : memory) (a : Z) : Z :=
load m a + 256 * load m (a + 1).

Definition store_u16 (m : memory) (a v : Z) : memory :=
store (store m a (uint16 v mod 256)) (a + 1) (uint16 v / 256).

(** Sum of [m[a] .. m[a+n-1]] as the [for] loops of the checksum compute it. *)
Fixpoint sum_bytes (m : memory) (a : Z) (n : nat) : Z :=
match n with
| O => 0
| S n' => load m a + sum_bytes m (a + 1) n'
end.

(** The image of [size] payload bytes carries their checksum: the byte at
    index [size] is the sum of the bytes before it, modulo 256. *)
Definition checksum_ok (m : memory) (size : Z) : Prop :=
load m size = sum_bytes m 0 (Z.to_nat size) mod 256.

(** [fread(&m[a], 1, n, img)] on a file that holds the bytes [img] from
    its position on: the number of bytes read, at most [n], and the buffer
    with them. *)
Definition fread (m : memory) (a n : Z) (img : list Z) : Z * memory :=
let got := firstn (Z.to_nat n) img in
(Z.of_nat (List.length got), store_bytes m a got).

(** The integers [lo, lo+1, ..., hi-1]: the values a [for (c=lo; c<hi; c++)]
    loop runs through. *)
Definition Z_range (lo hi : Z) : list Z :=
map (fun k => lo + Z.of_nat k) (seq 0 (Z.to_nat (hi - lo))).

(** *** Outcome of a call that may stop the process or loop for ever *)

Inductive result (A : Type) : Type :=
| Done (a : A)
| Halt (status : Z) (diagnostic : string)
| Spin.

Arguments Done {A} a.
Arguments Halt {A} status diagnostic.
Arguments Spin {A}.

(** Whether the call returned. *)
Definition is_done {A : Type} (r : result A) : bool :=
match r with
| Done _ => true
| _ => false
end.

Definition bind {A B : Type} (r : result A) (k : A -> result B) : result B :=
match r with
| Done a => k a
| Halt s d => Halt s d
| Spin => Spin
end.

Notation "x <- r ;; k" := (bind r (fun x => k))
  (at level 61, r at next level, right associativity).

(** *** Characters and strings

    A [string] stands for a NUL-terminated C string; a NUL character, if
    any, ends it. *)

Definition code (c : ascii) : Z := Z.of_N (N_of_ascii c).

Definition isspace (c : ascii) : bool :=
let n := code c in (n =? 32) || ((9 <=? n) && (n <=? 13)).

Definition isdigit (c : ascii) : bool :=
let n := code c in (48 <=? n) && (n <=? 57).

Definition is_nul (c : ascii) : bool := code c =? 0.

Definition tolower (c : ascii) : Z :=
let n := code c in if (65 <=? n) && (n <=? 90) then n + 32 else n.

(** [s[i]], with the terminating NUL past the end. *)
Fixpoint char_at (s : string) (i : nat) : Z :=
match s with
| EmptyString => 0
| String c r =>
    if is_nul c then 0
    else match i with
         | O => code c
         | S i' => char_at r i'
         end
end.

(** The contents of the C string: everything before the first NUL. *)
Fixpoint c_str (s : string) : string :=
match s with
| EmptyString => EmptyString
| String c r => if is_nul c then EmptyString else String c (c_str r)
end.

Fixpoint strcmp (a b : string) : Z :=
match a, b with
| EmptyString, EmptyString => 0
| EmptyString, String d _ => 0 - code d
| String c _, EmptyString => code c
| String c a', String d b' =>
    if code c =? code d then strcmp a' b' else code c - code d
end.

Fixpoint strcasecmp (a b : string) : Z :=
match a, b with
| EmptyString, EmptyString => 0
| EmptyString, String d _ => 0 - tolower d
| String c _, EmptyString => tolower c
| String c a', String d b' =>
    if tolower c =? tolower d then strcasecmp a' b' else tolower c - tolower d
end.

(** [strncasecmp(a, b, n)] *)
Fixpoint strncasecmp (a b : string) (n : nat) : Z :=
match n with
| O => 0
| S n' =>
    match a, b with
    | EmptyString, EmptyString => 0
    | EmptyString, String d _ => 0 - tolower d
    | String c _, EmptyString => tolower c
    | String c a', String d b' =>
        if tolower c =? tolower d
        then if is_nul c then 0 else strncasecmp a' b' n'
        else tolower c - tolower d
    end
end.

(** [strncmp(s1, s2, n)] where [s1] and [s2] give the character at each
    index (a literal through [char_at], a buffer through [load]). *)
Fixpoint strncmp_at (s1 s2 : Z -> Z) (i : Z) (n : nat) : Z :=
match n with
| O => 0
| S n' =>
    let c1 := s1 i in
    let c2 := s2 i in
    if c1 =? c2
    then if c1 =? 0 then 0 else strncmp_at s1 s2 (i + 1) n'
    else c1 - c2
end.

Definition strncmp (s1 s2 : Z -> Z) (n : nat) : Z := strncmp_at s1 s2 0 n.

Definition literal (s : string) : Z -> Z :=
fun i => if i <? 0 then 0 else char_at s (Z.to_nat i).

(** *** Scanning: [sscanf], [atoi], [strtoul] *)

Fixpoint skip_space (s : string) : string :=
match s with
| String c r => if isspace c then skip_space r else s
| EmptyString => s
end.

(** One [%s] conversion after the white space is skipped: the longest run
    of characters that are neither white space nor the end of the string. *)
Fixpoint take_word (s : string) : string * string :=
match s with
| String c r =>
    if isspace c || is_nul c then (EmptyString, s)
    else let (w, t) := take_word r in (String c w, t)
| EmptyString => (EmptyString, EmptyString)
end.

(** [sscanf(line, "%s %s ... %s", ...)] with [k] conversions: the words
    assigned, in order; their number is what [sscanf] returns when at
    least one is assigned. *)
Fixpoint scan_words (k : nat) (s : string) : list string :=
match k with
| O => []
| S k' =>
    let (w, t) := take_word (skip_space s) in
    match w with
    | EmptyString => []
    | _ => w :: scan_words k' t
    end
end.

Fixpoint digits_val (acc : Z) (s : string) : Z * string :=
match s with
| String c r =>
    if isdigit c then digits_val (acc * 10 + (code c - 48)) r else (acc, s)
| EmptyString => (acc, s)
end.

(** Optional sign of a number: [(negative, rest)]. *)
Definition take_sign (s : string) : bool * string :=
match s with
| String c r =>
    if code c =? 45 then (true, r)
    else if code c =? 43 then (false, r)
    else (false, s)
| EmptyString => (false, s)
end.

Definition starts_with_digit (s : string) : bool :=
match s with
| String c _ => isdigit c
| EmptyString => false
end.

(** [strtoul(str, &eptr, 10)]: [None] when no digits are found
    ([eptr == str]), else the value and the text [eptr] points to.  The
    value saturates at [ULONG_MAX]; a minus sign negates modulo 2^64. *)
Definition strtoul (str : string) : option (Z * string) :=
let (neg, s) := take_sign (skip_space str) in
if starts_with_digit s then
  let (v, eptr) := digits_val 0 s in
  let v' := if ULONG_MAX <? v then ULONG_MAX
            else if neg then (- v) mod (ULONG_MAX + 1) else v in
  Some (v', eptr)
else None.

(** [atoi(str)], that is [(int) strtol(str, NULL, 10)]. *)
Definition atoi (str : string) : Z :=
let (neg, s) := take_sign (skip_space str) in
if starts_with_digit s then
  let (v, _) := digits_val 0 s in
  let v' := if neg then - v else v in
  int32 (Z.max LONG_MIN (Z.min LONG_MAX v'))
else 0.

(** [sscanf(str, "%u", &val) == 1] and the value assigned. *)
Definition scan_unsigned (str : string) : option Z :=
match strtoul str with
| Some (v, _) => Some (uint32 v)
| None => None
end.

(** The value of a hexadecimal digit. *)
Definition hex_value (c : ascii) : option Z :=
let n := code c in
if (48 <=? n) && (n <=? 57) then Some (n - 48)
else if (97 <=? n) && (n <=? 102) then Some (n - 87)
else if (65 <=? n) && (n <=? 70) then Some (n - 55)
else None.

Fixpoint hex_val (acc : Z) (s : string) : Z * string :=
match s with
| String c r =>
    match hex_value c with
    | Some d => hex_val (acc * 16 + d) r
    | None => (acc, s)
    end
| EmptyString => (acc, s)
end.

(** One [%x] conversion of [sscanf]: white space, an optional sign, an
    optional [0x], then hexadecimal digits, at least one ([None] is a
    matching failure); the value assigned to the [int] and the text that
    follows. *)
Definition scan_x (str : string) : option (Z * string) :=
let (neg, s) := take_sign (skip_space str) in
let s := match s with
         | String c0 (String c1 r) =>
             if (code c0 =? 48) && ((code c1 =? 120) || (code c1 =? 88)) then r else s
         | _ => s
         end in
match s with
| String c _ =>
    match hex_value c with
    | Some _ =>
        let (v, rest) := hex_val 0 s in
        let v' := if ULONG_MAX <? v then ULONG_MAX
                  else if neg then (- v) mod (ULONG_MAX + 1) else v in
        Some (uint32 v', rest)
    | None => None
    end
| EmptyString => None
end.

(** [sscanf(value, "%x %x %x %x", &a, &b, &c, &d) == 4] and the four
    values. *)
Definition scan_4x (value : string) : option (Z * Z * Z * Z) :=
match scan_x value with
| None => None
| Some (a, r) =>
  match scan_x r with
  | None => None
  | Some (b, r) =>
    match scan_x r with
    | None => None
    | Some (c, r) =>
      match scan_x r with
      | None => None
      | Some (d, _) => Some (a, b, c, d)
      end
    end
  end
end.

(** *** Formatting: the conversions of [fprintf] the drivers use *)

Definition fmt_d (v : Z) : string := NilZero.string_of_int (Z.to_int v).

Fixpoint pad_to (fuel width : nat) (fill : ascii) (s : string) : string :=
match fuel with
| O => s
| S f => if Nat.ltb (String.length s) width
         then pad_to f width fill (String fill s) else s
end.

(** Right-justify [s] in a field of [width] characters. *)
Definition pad_left (width : nat) (fill : ascii) (s : string) : string :=
pad_to width width fill s.

Definition hex_char (d : Z) : ascii :=
ascii_of_N (Z.to_N (if d <? 10 then 48 + d else 87 + d)).

Fixpoint hex_digits (fuel : nat) (v : Z) (acc : string) : string :=
match fuel with
| O => acc
| S f =>
    let acc' := String (hex_char (v mod 16)) acc in
    if v / 16 =? 0 then acc' else hex_digits f (v / 16) acc'
end.

(** [%x] of an [int] (printed as [unsigned]). *)
Definition fmt_x (v : Z) : string := hex_digits 8 (uint32 v) EmptyString.

(** [%04x], [%02x] and [%4d]. *)
Definition fmt_04x (v : Z) : string := pad_left 4 "0"%char (fmt_x v).
Definition fmt_02x (v : Z) : string := pad_left 2 "0"%char (fmt_x v).
Definition fmt_4d (v : Z) : string := pad_left 4 " "%char (fmt_d v).

Definition newline : string := String (ascii_of_N 10) EmptyString.

(** *** [double]

    IEEE 754 binary64, as the kernel's primitive floats. *)

Definition double : Set := float.

(** The integer part of a finite value (rounded towards zero). *)
Definition truncate (x : double) : option Z :=
match Prim2SF x with
| S754_zero _ => Some 0
| S754_finite s m e =>
    let mag := if 0 <=? e then Z.shiftl (Z.pos m) e
               else Z.shiftr (Z.pos m) (- e) in
    Some (if s then - mag else mag)
| S754_infinity _ => None
| S754_nan => None
end.

(** [(int) x].  Outside the range of [int] the conversion is undefined in
    C; the value given is the one x86-64 produces ([INT_MIN]). *)
Definition int_of_double (x : double) : Z :=
match truncate x with
| Some z => if (INT_MIN <=? z) && (z <? - INT_MIN) then z else INT_MIN
| None => INT_MIN
end.

(** [(unsigned) x], through a 64-bit conversion as x86-64 compilers do. *)
Definition unsigned_of_double (x : double) : Z :=
match truncate x with
| Some z => if (LONG_MIN <=? z) && (z <=? LONG_MAX) then uint32 z else 0
| None => 0
end.

(** A reader of plain decimal literals ([-12.5], [146.520], [+0.6]) for
    the "%lf" and "%f" conversions: the digits as an integer divided by
    the power of ten, which is the correctly rounded value whenever both
    are below 2^53.  It reads no exponent, and it gives a "%f"
    conversion the double value, which is the one of [sscanf] for a
    literal that a [float] holds exactly (88.5, 100.0).  The parsers take
    the conversion as a parameter; this instance runs them on concrete
    rows. *)
Definition scan_decimal (str : string) : option double :=
let (neg, s) := take_sign (skip_space str) in
let (ip, r) := digits_val 0 s in
let '(n, frac) :=
  match r with
  | String c r2 =>
      if code c =? 46
      then let (n, r3) := digits_val ip r2 in
           (n, (String.length r2 - String.length r3)%nat)
      else (ip, O)
  | EmptyString => (ip, O)
  end in
let ndigits := (String.length s - String.length r + frac)%nat in
if Nat.eqb ndigits 0 then None
else
  let x := (of_uint63 (Uint63.of_Z n)
            / of_uint63 (Uint63.of_Z (10 ^ Z.of_nat frac)))%float in
  Some (if neg then (- x)%float else x).

(** *** Bit-fields

    A [uint8_t f : w] member occupies [w] bits of its byte, the first
    member from bit 0 upwards (the allocation of GCC and Clang on
    little-endian targets; the byte dumps in the comments of [vx-2.c]
    show this order). *)

Definition get_bits (byte shift width : Z) : Z :=
Z.land (Z.shiftr byte shift) (Z.ones width).

Definition set_bits (byte shift width v : Z) : Z :=
Z.lor (Z.land byte (Z.lnot (Z.shiftl (Z.ones width) shift)))
      (Z.shiftl (Z.land v (Z.ones width)) shift).

Definition load_field (m : memory) (a shift width : Z) : Z :=
get_bits (load m a) shift width.

Definition store_field (m : memory) (a shift width v : Z) : memory :=
store m a (set_bits (load m a) shift width v).

(** *** What a table-row parser hands back

    [status] is the value returned (0 on failure), [message] what was
    written to [stderr], [image] the memory image afterwards. *)

Record row_result : Type := mk_row {
  status : Z;
  message : string;
  image : memory
}.

Definition reject (msg : string) (m : memory) : row_result := mk_row 0 msg m.
Definition accept (m : memory) : row_result := mk_row 1 EmptyString m.

(** Index of the first element equal to [v], or -1: the search loops over
    the tone and code tables. *)
Fixpoint index_from (i : Z) (v : Z) (table : list Z) : Z :=
match table with
| [] => -1
| x :: rest => if x =? v then i else index_from (i + 1) v rest
end.

(** [table[i]]; reading past the end of the table is undefined in C and
    gives 0 here. *)
Definition table_at (table : list Z) (i : Z) : Z :=
if i <? 0 then 0 else nth (Z.to_nat i) table 0.

End Libc.

(** ** The serial link and the globals of the clone transport *)

Module Serial.

Import Libc.

(** Modelled from the spec: the half-duplex serial link behind
    [serial_read] and [serial_write] of [util.c].  What the radio sends is
    a script of bytes and of silences, a silence being a read time-out
    that elapses with nothing more on the line; after the script the line
    stays silent. *)
Inductive event : Type :=
| Byte (b : Z)
| Silence.

Record port : Type := mk_port {
  incoming : list event;
  outgoing : list Z
}.

(** Modelled from the spec: a read "blocks until its fixed byte count is
    read [...] or until a bounded OS-level read timeout elapses"; the bytes
    that arrived before the time-out are delivered. *)
Fixpoint receive (n : nat) (script : list event) : list Z * list event :=
match n with
| O => ([], script)
| S n' =>
    match script with
    | [] => ([], [])
    | Silence :: rest => ([], rest)
    | Byte b :: rest => let (bs, rest') := receive n' rest in (b :: bs, rest')
    end
end.

(** Modelled from the spec: [serial_read(fd, data, len)] of [util.c]; the
    bytes delivered (their number is the value returned) and the port
    afterwards.  The caller copies them to [data]. *)
Definition serial_read (p : port) (len : Z) : list Z * port :=
let (bytes, rest) := receive (Z.to_nat len) (incoming p) in
(bytes, mk_port rest (outgoing p)).

(** Modelled from the spec: [serial_write(fd, data, len)] of [util.c]. *)
Definition serial_write (p : port) (bytes : list Z) : port :=
mk_port (incoming p) (app (outgoing p) bytes).

(** The globals [radio_mem], [radio_port], [radio_progress] and
    [serial_verbose]. *)
Record world : Type := mk_world {
  radio_mem : memory;
  radio_port : port;
  radio_progress : Z;
  serial_verbose : bool
}.

Definition with_mem (w : world) (m : memory) : world :=
mk_world m (radio_port w) (radio_progress w) (serial_verbose w).

Definition with_port (w : world) (p : port) : world :=
mk_world (radio_mem w) p (radio_progress w) (serial_verbose w).

(** The progress tick of a block transfer (nothing is counted in verbose
    mode, where the block is printed instead). *)
Definition tick (w : world) : world :=
if serial_verbose w then w
else mk_world (radio_mem w) (radio_port w) (radio_progress w + 1) (serial_verbose w).

(** [while (read(...) == 0) continue;] *)
Fixpoint poll (fuel : nat) (read : world -> result (Z * world)) (w : world)
  : result world :=
match fuel with
| O => Spin
| S fuel' =>
    r <- read w ;;
    if fst r =? 0 then poll fuel' read (snd r) else Done (snd r)
end.

(** A [for] loop over block addresses whose body may stop the process. *)
Fixpoint for_each (addrs : list Z) (body : Z -> world -> result world) (w : world)
  : result world :=
match addrs with
| [] => Done w
| a :: rest => w' <- body a w ;; for_each rest body w'
end.

(** A [for] loop over block addresses that is left at the first block
    whose transfer fails: 0 on failure, 1 when every block went through. *)
Fixpoint for_all (addrs : list Z) (body : Z -> world -> Z * world) (w : world)
  : Z * world :=
match addrs with
| [] => (1, w)
| a :: rest =>
    let (ok, w') := body a w in
    if ok =? 0 then (0, w') else for_all rest body w'
end.

(** The addresses [first, first+64, ...] below [stop]. *)
Definition blocks (first stop : Z) : list Z :=
map (fun k => first + 64 * k) (Z_range 0 ((stop - first + 63) / 64)).

(** The diagnostic of a short read: [fprintf(stderr, "Reading block
    0x%04x: got only %d bytes.\n", start, len)]. *)
Definition short_read_message (start len : Z) : string :=
"Reading block 0x" ++ fmt_04x start ++ ": got only " ++ fmt_d len ++ " bytes." ++ newline.

End Serial.

Import Libc Serial.

(** ** Yaesu FT-60R ([ft-60.c]) *)

Module FT60.

Definition NCHAN : Z := 1000.
Definition NBANKS : Z := 10.
Definition NPMS : Z := 50.
Definition MEMSZ : Z := 0x6fc8.

Definition OFFSET_VFO : Z := 0x0048.
Definition OFFSET_HOME : Z := 0x01c8.
Definition OFFSET_CHANNELS : Z := 0x0248.
Definition OFFSET_PMS : Z := 0x40c8.
Definition OFFSET_NAMES : Z := 0x4708.
Definition OFFSET_BANKS : Z := 0x69c8.
Definition OFFSET_SCAN : Z := 0x6ec8.

Definition CHARSET : string :=
"0123456789ABCDEFGHIJKLMNOPQRSTUVWXYZ !`o$%&'()*+,-./|;/=>?@[~]^__".
Definition NCHARS : Z := 65.
Definition SPACE : Z := 36.
Definition OPENBOX : Z := 64.

(** The band column of the Home table of [ft60_print_config], by record. *)
Definition BAND_NAME : list string := ["144"; "250"; "350"; "430"; "850"].

(** The power column of [ft60_print_config], by power level. *)
Definition POWER_NAME : list string := ["High"; "Med"; "Low"; "??"].

Definition STEP_5 : Z := 0.
Definition STEP_12_5 : Z := 2.

Definition D_SIMPLEX : Z := 0.
Definition D_NEG_OFFSET : Z := 2.
Definition D_POS_OFFSET : Z := 3.
Definition D_CROSS_BAND : Z := 4.

Definition T_OFF : Z := 0.
Definition T_TONE : Z := 1.
Definition T_TSQL : Z := 2.
Definition T_TSQL_REV : Z := 3.
Definition T_DTCS : Z := 4.
Definition T_D : Z := 5.
Definition T_T_DCS : Z := 6.
Definition T_D_TSQL : Z := 7.
Definition TONE_DEFAULT : Z := 12.

(** *** [memory_channel_t]: 16 bytes, addressed from the record's base [ch] *)

Definition sizeof_channel : Z := 16.

Definition ch_duplex (m : memory) (ch : Z) : Z := load_field m ch 0 4.
Definition ch_isam (m : memory) (ch : Z) : Z := load_field m ch 4 1.
Definition ch_isnarrow (m : memory) (ch : Z) : Z := load_field m ch 5 1.
Definition ch_used (m : memory) (ch : Z) : Z := load_field m ch 7 1.
Definition ch_rxfreq (ch : Z) : Z := ch + 1.
Definition ch_tmode (m : memory) (ch : Z) : Z := load_field m (ch + 4) 0 3.
Definition ch_step (m : memory) (ch : Z) : Z := load_field m (ch + 4) 3 3.
Definition ch_txfreq (ch : Z) : Z := ch + 5.
Definition ch_tone (m : memory) (ch : Z) : Z := load_field m (ch + 8) 0 6.
Definition ch_power (m : memory) (ch : Z) : Z := load_field m (ch + 8) 6 2.
Definition ch_dtcs (m : memory) (ch : Z) : Z := load_field m (ch + 9) 0 7.
Definition ch_offset (m : memory) (ch : Z) : Z := load m (ch + 12).

Definition set_duplex (m : memory) (ch v : Z) : memory := store_field m ch 0 4 v.
Definition set_isam (m : memory) (ch v : Z) : memory := store_field m ch 4 1 v.
Definition set_isnarrow (m : memory) (ch v : Z) : memory := store_field m ch 5 1 v.
Definition set_u1 (m : memory) (ch v : Z) : memory := store_field m ch 6 1 v.
Definition set_used (m : memory) (ch v : Z) : memory := store_field m ch 7 1 v.
Definition set_tmode (m : memory) (ch v : Z) : memory := store_field m (ch + 4) 0 3 v.
Definition set_step (m : memory) (ch v : Z) : memory := store_field m (ch + 4) 3 3 v.
Definition set_u2 (m : memory) (ch v : Z) : memory := store_field m (ch + 4) 6 2 v.
Definition set_tone (m : memory) (ch v : Z) : memory := store_field m (ch + 8) 0 6 v.
Definition set_power (m : memory) (ch v : Z) : memory := store_field m (ch + 8) 6 2 v.
Definition set_dtcs (m : memory) (ch v : Z) : memory := store_field m (ch + 9) 0 7 v.
Definition set_u3 (m : memory) (ch v : Z) : memory := store_field m (ch + 9) 7 1 v.
Definition set_offset (m : memory) (ch v : Z) : memory := store m (ch + 12) v.

(** *** [memory_name_t]: 8 bytes *)

Definition nm_used (m : memory) (nm : Z) : Z := load_field m (nm + 6) 7 1.
Definition nm_valid (m : memory) (nm : Z) : Z := load_field m (nm + 7) 7 1.

(** *** Frequencies *)

(** [freq_to_hz(bcd)]: [bcd] is the address of the three bytes. *)
Definition freq_to_hz (m : memory) (bcd : Z) : Z :=
let b0 := load m bcd in
let b1 := load m (bcd + 1) in
let b2 := load m (bcd + 2) in
let hz := Z.land b0 15 * 100000000 +
          Z.land (Z.shiftr b1 4) 15 * 10000000 +
          Z.land b1 15 * 1000000 +
          Z.land (Z.shiftr b2 4) 15 * 100000 +
          Z.land b2 15 * 10000 in
hz + Z.shiftr b0 6 * 2500.

(** [hz_to_freq(hz, bcd)]; [/] and [%] of C are [Z.quot] and [Z.rem]. *)
Definition hz_to_freq (hz : Z) (m : memory) (bcd : Z) : memory :=
let m := store m bcd
  (Z.lor (Z.shiftl (Z.rem (Z.quot hz 2500) 4) 6)
         (Z.rem (Z.quot hz 100000000) 10)) in
let m := store m (bcd + 1)
  (Z.lor (Z.shiftl (Z.rem (Z.quot hz 10000000) 10) 4)
         (Z.rem (Z.quot hz 1000000) 10)) in
store m (bcd + 2)
  (Z.lor (Z.shiftl (Z.rem (Z.quot hz 100000) 10) 4)
         (Z.rem (Z.quot hz 10000) 10)).

(** *** Banks: one bit per channel, 0x80 bytes per bank *)

Definition have_bank (m : memory) (b : Z) : Z :=
let data := OFFSET_BANKS + b * 0x80 in
c_bool (existsb (fun c => negb (load m (data + c) =? 0))
                (Z_range 0 (Z.quot NCHAN 8))).

Definition have_banks (m : memory) : Z :=
c_bool (existsb (fun b => negb (have_bank m b =? 0)) (Z_range 0 NBANKS)).

(** State of the loop of [print_bank]: [last], [range] and the text
    written so far. *)
Record bank_printer : Type := mk_printer {
  last : Z;
  range : Z;
  out : string
}.

(** [data[n/8] & (1 << (n & 7))]: not 0 when channel index [n] is in the
    bank whose bitmap starts at [data]. *)
Definition chan_in_bank (m : memory) (data n : Z) : Z :=
Z.land (load m (data + Z.quot n 8)) (Z.shiftl 1 (Z.land n 7)).

Definition print_bank_step (m : memory) (data : Z) (st : bank_printer) (n : Z)
  : bank_printer :=
let cnum := n + 1 in
if chan_in_bank m data n =? 0 then st
else if cnum =? last st + 1 then mk_printer cnum 1 (out st)
else
  let o := if negb (range st =? 0) then out st ++ "-" ++ fmt_d (last st) else out st in
  let o := if last st >=? 0 then o ++ "," else o in
  mk_printer cnum 0 (o ++ fmt_d cnum).

(** [print_bank(out, i)]: the line written. *)
Definition print_bank (m : memory) (i : Z) : string :=
let data := OFFSET_BANKS + i * 0x80 in
let st := fold_left (print_bank_step m data) (Z_range 0 NCHAN)
                    (mk_printer (-1) 0 (fmt_4d (i + 1) ++ "    ")) in
let o := if negb (range st =? 0) then out st ++ "-" ++ fmt_d (last st) else out st in
o ++ newline.

(** The channel numbers (from 1) that [print_bank] finds in bank [i]. *)
Definition bank_members (m : memory) (i : Z) : list Z :=
map (fun n => n + 1)
    (filter (fun n => negb (chan_in_bank m (OFFSET_BANKS + i * 0x80) n =? 0))
            (Z_range 0 NCHAN)).

Definition setup_bank (m : memory) (bank_index chan_index : Z) : memory :=
let data := OFFSET_BANKS + bank_index * 0x80 + Z.quot chan_index 8 in
store m data (Z.lor (load m data) (Z.shiftl 1 (Z.land chan_index 7))).

(** *** Channel names *)

Definition underscore : ascii := ascii_of_N 95.

Fixpoint drop_underscores (l : list ascii) : list ascii :=
match l with
| c :: r => if code c =? 95 then drop_underscores r else l
| [] => []
end.

(** One character of a decoded name, spaces already replaced. *)
Definition name_char (c : Z) : ascii :=
let a := if c <? NCHARS
         then nth (Z.to_nat c) (list_ascii_of_string CHARSET) Space
         else Space in
if code a =? 32 then underscore else a.

(** [decode_name(i, name)]: [name] is the text the buffer holds on entry,
    the result the text it holds on return. *)
Definition decode_name (m : memory) (i : Z) (name : string) : string :=
let nm := OFFSET_NAMES + i * 8 in
if negb (nm_valid m nm =? 0) && negb (nm_used m nm =? 0) then
  let chars := map (fun n => name_char (load m (nm + n))) (Z_range 0 6) in
  string_of_list_ascii (rev (drop_underscores (rev chars)))
else name.

Definition encode_char (c : Z) : Z :=
let c := if c =? 95 then 32 else c in
let c := if (97 <=? c) && (c <=? 122) then c + (65 - 97) else c in
let i := index_from 0 c (map code (list_ascii_of_string CHARSET)) in
if i <? 0 then OPENBOX else i.

(** [encode_name(i, name)]; [None] is the null pointer. *)
Definition encode_name (m : memory) (i : Z) (name : option string) : memory :=
let nm := OFFSET_NAMES + i * 8 in
let text := match name with Some s => c_str s | None => EmptyString end in
if negb (char_at text 0 =? 0) && negb (char_at text 0 =? 45) then
  let m := store_field m (nm + 7) 7 1 1 in
  let m := store_field m (nm + 6) 7 1 1 in
  let len := Z.min 6 (Z.of_nat (String.length text)) in
  let m := fold_left
    (fun m n => store m (nm + n) (encode_char (char_at text (Z.to_nat n))))
    (Z_range 0 len) m in
  fold_left (fun m n => store m (nm + n) SPACE) (Z_range len 6) m
else
  let m := store_field m (nm + 7) 7 1 0 in
  let m := store_field m (nm + 6) 7 1 0 in
  fold_left (fun m n => store m (nm + n) 0xff) (Z_range 0 6) m.

(** *** Channels *)

(** What [decode_channel] stores through its pointer arguments; [name] is
    [None] when the caller passes no buffer. *)
Record channel : Type := mk_channel {
  name : option string;
  rx_hz : Z;
  tx_hz : Z;
  rx_ctcs : Z;
  tx_ctcs : Z;
  rx_dcs : Z;
  tx_dcs : Z;
  power : Z;
  wide : Z;
  scan : Z;
  isam : Z;
  step : Z
}.

Section Tables.

(** The tone and code tables of [util.c], and the floating-point
    conversions of [sscanf] ("%f" and "%lf"; [None] when nothing is
    converted). *)
Variables CTCSS_TONES DCS_CODES : list Z.
Variables scan_float scan_double : string -> option double.

Definition decode_channel (m : memory) (i seek : Z) (with_name : bool) : channel :=
let ch := seek + i * sizeof_channel in
let scan_data := load m (OFFSET_SCAN + Z.quot i 4) in
let name0 := if with_name then Some EmptyString else None in
if (ch_used m ch =? 0) && ((seek =? OFFSET_CHANNELS) || (seek =? OFFSET_PMS))
then mk_channel name0 0 0 0 0 0 0 0 0 0 0 0
else
  let name1 := if seek =? OFFSET_CHANNELS
               then option_map (decode_name m i) name0 else name0 in
  let rx := freq_to_hz m (ch_rxfreq ch) in
  let duplex := ch_duplex m ch in
  let tx :=
    if duplex =? D_NEG_OFFSET then rx - ch_offset m ch * 50000
    else if duplex =? D_POS_OFFSET then rx + ch_offset m ch * 50000
    else if duplex =? D_CROSS_BAND then freq_to_hz m (ch_txfreq ch)
    else rx in
  let tmode := ch_tmode m ch in
  let tone := table_at CTCSS_TONES (ch_tone m ch) in
  let dcs := table_at DCS_CODES (ch_dtcs m ch) in
  let '(rx_ctcs, tx_ctcs, rx_dcs, tx_dcs) :=
    if tmode =? T_TONE then (0, tone, 0, 0)
    else if tmode =? T_TSQL then (tone, tone, 0, 0)
    else if tmode =? T_TSQL_REV then (- tone, tone, 0, 0)
    else if tmode =? T_DTCS then (0, 0, dcs, dcs)
    else if tmode =? T_D then (0, 0, 0, dcs)
    else if tmode =? T_T_DCS then (0, tone, dcs, 0)
    else if tmode =? T_D_TSQL then (tone, 0, 0, dcs)
    else (0, 0, 0, 0) in
  mk_channel name1 rx tx rx_ctcs tx_ctcs rx_dcs tx_dcs
    (ch_power m ch)
    (c_bool (ch_isnarrow m ch =? 0))
    (Z.land (Z.shiftr (Z.shiftl scan_data (Z.land i 3 * 2)) 6) 3)
    (ch_isam m ch)
    (ch_step m ch).

Definition setup_channel (m : memory) (i : Z) (name : option string)
  (rx_mhz tx_mhz : double) (tmode tone dtcs power wide scan isam : Z) : memory :=
let ch := OFFSET_CHANNELS + i * sizeof_channel in
let m := hz_to_freq (int_of_double (rx_mhz * 1000000)%float) m (ch_rxfreq ch) in
let offset_mhz := (tx_mhz - rx_mhz)%float in
let m := set_offset m ch 0 in
let m := store (store (store m (ch_txfreq ch + 2) 0) (ch_txfreq ch + 1) 0)
               (ch_txfreq ch) 0 in
let m :=
  if (offset_mhz =? 0)%float then set_duplex m ch D_SIMPLEX
  else if (0 <? offset_mhz)%float && (offset_mhz <? 256 * 0.05)%float then
    let m := set_duplex m ch D_POS_OFFSET in
    set_offset m ch (int_of_double (offset_mhz / 0.05 + 0.5)%float)
  else if (offset_mhz <? 0)%float && (-256 * 0.05 <? offset_mhz)%float then
    let m := set_duplex m ch D_NEG_OFFSET in
    set_offset m ch (int_of_double (- offset_mhz / 0.05 + 0.5)%float)
  else
    let m := set_duplex m ch D_CROSS_BAND in
    hz_to_freq (int_of_double (tx_mhz * 1000000)%float) m (ch_txfreq ch) in
let m := set_used m ch (c_bool (0 <? rx_mhz)%float) in
let m := set_tmode m ch tmode in
let m := set_tone m ch tone in
let m := set_dtcs m ch dtcs in
let m := set_power m ch power in
let m := set_isnarrow m ch (c_bool (wide =? 0)) in
let m := set_isam m ch isam in
let m := set_step m ch (if (400 <=? rx_mhz)%float then STEP_12_5 else STEP_5) in
let m := set_u1 m ch 0 in
let m := set_u2 m ch (c_bool (400 <=? rx_mhz)%float) in
let m := set_u3 m ch 0 in
let m := store m (ch + 10) 15 in
let m := store m (ch + 11) 0 in
let m := store (store (store m (ch + 15) 0) (ch + 14) 0) (ch + 13) 0 in
let scan_data := OFFSET_SCAN + Z.quot i 4 in
let scan_shift := Z.land i 3 * 2 in
let m := store m scan_data (Z.land (load m scan_data) (Z.lnot (Z.shiftl 3 scan_shift))) in
let m := store m scan_data (Z.lor (load m scan_data) (Z.shiftl scan scan_shift)) in
encode_name m i name.

(** [setup_home(band, ...)]: the [switch] on [band] picks one of the five
    records at [OFFSET_HOME]. *)
Definition setup_home (m : memory) (band : Z) (rx_mhz tx_mhz : double)
  (tmode tone dtcs power wide isam : Z) : memory :=
let ch := OFFSET_HOME +
          (if band =? 250 then 1
           else if band =? 350 then 2
           else if band =? 430 then 3
           else if band =? 850 then 4
           else 0) * sizeof_channel in
let m := hz_to_freq (int_of_double (rx_mhz * 1000000)%float) m (ch_rxfreq ch) in
let offset_mhz := (tx_mhz - rx_mhz)%float in
let m := set_offset m ch 0 in
let m := store (store (store m (ch_txfreq ch + 2) 0) (ch_txfreq ch + 1) 0)
               (ch_txfreq ch) 0 in
let m :=
  if (offset_mhz =? 0)%float then set_duplex m ch D_SIMPLEX
  else if (0 <? offset_mhz)%float && (offset_mhz <? 256 * 0.05)%float then
    let m := set_duplex m ch D_POS_OFFSET in
    set_offset m ch (int_of_double (offset_mhz / 0.05 + 0.5)%float)
  else if (offset_mhz <? 0)%float && (-256 * 0.05 <? offset_mhz)%float then
    let m := set_duplex m ch D_NEG_OFFSET in
    set_offset m ch (int_of_double (- offset_mhz / 0.05 + 0.5)%float)
  else
    let m := set_duplex m ch D_CROSS_BAND in
    hz_to_freq (int_of_double (tx_mhz * 1000000)%float) m (ch_txfreq ch) in
let m := set_used m ch (c_bool (0 <? rx_mhz)%float) in
let m := set_tmode m ch tmode in
let m := set_tone m ch tone in
let m := set_dtcs m ch dtcs in
let m := set_power m ch power in
let m := set_isnarrow m ch (c_bool (wide =? 0)) in
let m := set_isam m ch isam in
let m := set_step m ch (if (400 <=? rx_mhz)%float then STEP_12_5 else STEP_5) in
let m := set_u1 m ch 0 in
let m := set_u2 m ch (c_bool (400 <=? rx_mhz)%float) in
let m := set_u3 m ch 0 in
let m := store m (ch + 10) 15 in
let m := store m (ch + 11) 0 in
store (store (store m (ch + 15) 0) (ch + 14) 0) (ch + 13) 0.

(** [setup_pms(i, lower_mhz, upper_mhz)]: the pair [i] is the records
    [2*i] and [2*i+1] at [OFFSET_PMS]. *)
Definition setup_pms (m : memory) (i : Z) (lower_mhz upper_mhz : double) : memory :=
let ch0 := OFFSET_PMS + (i * 2) * sizeof_channel in
let ch1 := ch0 + sizeof_channel in
if (lower_mhz =? 0)%float then set_used (set_used m ch0 0) ch1 0
else
  let m := hz_to_freq (int_of_double (lower_mhz * 1000000)%float) m (ch_rxfreq ch0) in
  let m := set_used m ch0 1 in
  let m := hz_to_freq (int_of_double (upper_mhz * 1000000)%float) m (ch_rxfreq ch1) in
  set_used m ch1 1.

(** *** Squelch columns *)

Definition encode_tone (str : string) : Z :=
match scan_float str with
| None => -1
| Some hz =>
    let val := unsigned_of_double (hz * 10.0 + 0.5)%float in
    if val <? 0x0258 then -1 else index_from 0 val CTCSS_TONES
end.

(** [encode_dcs(str)]: the pointer is advanced past the leading [D]. *)
Definition encode_dcs (str : string) : Z :=
match scan_unsigned (match str with String _ r => r | EmptyString => str end) with
| None => -1
| Some val => index_from 0 val DCS_CODES
end.

(** [encode_squelch(rx, tx, &tone, &dtcs)]: the value returned, then
    [*tone] and [*dtcs]. *)
Definition encode_squelch (rx tx : string) : Z * Z * Z :=
let r0 := char_at rx 0 in
let r1 := char_at rx 1 in
let t0 := char_at tx 0 in
let '(rx_dcs, rx_tone, rx_rev) :=
  if (r0 =? 68) || (r0 =? 100) then (encode_dcs rx, -1, 0)
  else if (48 <=? r0) && (r0 <=? 57) then (-1, encode_tone rx, 0)
  else if (r0 =? 45) && (48 <=? r1) && (r1 <=? 57)
       then (-1, encode_tone (match rx with String _ r => r | EmptyString => rx end), 1)
  else (-1, -1, 0) in
let '(tx_dcs, tx_tone) :=
  if (t0 =? 68) || (t0 =? 100) then (encode_dcs tx, -1)
  else if (48 <=? t0) && (t0 <=? 57) then (-1, encode_tone tx)
  else (-1, -1) in
if rx_dcs >=? 0 then
  if tx_tone >=? 0 then (T_T_DCS, tx_tone, rx_dcs) else (T_DTCS, TONE_DEFAULT, rx_dcs)
else if tx_dcs >=? 0 then
  if rx_tone >=? 0 then (T_D_TSQL, rx_tone, tx_dcs) else (T_D, TONE_DEFAULT, tx_dcs)
else if tx_tone >=? 0 then
  if rx_tone <? 0 then (T_TONE, tx_tone, 0)
  else if negb (rx_rev =? 0) then (T_TSQL_REV, tx_tone, 0)
  else (T_TSQL, tx_tone, 0)
else (T_OFF, TONE_DEFAULT, 0).

(** *** Table rows *)

Definition is_valid_frequency (mhz : Z) : Z :=
if (108 <=? mhz) && (mhz <=? 520) then 1
else if (700 <=? mhz) && (mhz <=? 999) then 1
else 0.

(** [parse_channel(first_row, line)] *)
Definition parse_channel (m : memory) (first_row : Z) (line : string) : row_result :=
match scan_words 9 line with
| [num_str; name_str; rxfreq_str; offset_str; rq_str; tq_str;
   power_str; wide_str; scan_str] =>
  let num := atoi num_str in
  if (num <? 1) || (num >? NCHAN) then reject ("Bad channel number." ++ newline) m else
  match scan_double rxfreq_str with
  | None => reject ("Bad receive frequency." ++ newline) m
  | Some rx_mhz =>
  if is_valid_frequency (int_of_double rx_mhz) =? 0
  then reject ("Bad receive frequency." ++ newline) m else
  match scan_double offset_str with
  | None => reject ("Bad transmit frequency." ++ newline) m
  | Some tx0 =>
  let tx_mhz := if (char_at offset_str 0 =? 45) || (char_at offset_str 0 =? 43)
                then (tx0 + rx_mhz)%float else tx0 in
  if is_valid_frequency (int_of_double tx_mhz) =? 0
  then reject ("Bad transmit frequency." ++ newline) m else
  let '(tmode, tone, dtcs) := encode_squelch rq_str tq_str in
  match (if strcasecmp "High" power_str =? 0 then Some 0
         else if strcasecmp "Mid" power_str =? 0 then Some 1
         else if strcasecmp "Low" power_str =? 0 then Some 2
         else None) with
  | None => reject ("Bad power level." ++ newline) m
  | Some power =>
  match (if strcasecmp "Wide" wide_str =? 0 then Some (1, 0)
         else if strcasecmp "Narrow" wide_str =? 0 then Some (0, 0)
         else if strcasecmp "AM" wide_str =? 0 then Some (1, 1)
         else None) with
  | None => reject ("Bad modulation width." ++ newline) m
  | Some (wide, isam) =>
  match (if char_at scan_str 0 =? 43 then Some 0
         else if char_at scan_str 0 =? 45 then Some 1
         else if strcasecmp "Only" scan_str =? 0 then Some 2
         else None) with
  | None => reject ("Bad scan flag." ++ newline) m
  | Some scan =>
  let m := if negb (first_row =? 0)
           then fold_left
                  (fun m i => setup_channel m i None 0%float 0%float 0 TONE_DEFAULT 0 0 1 0 0)
                  (Z_range 0 NCHAN) m
           else m in
  accept (setup_channel m (num - 1) (Some name_str) rx_mhz tx_mhz
            tmode tone dtcs power wide scan isam)
  end end end end end
| _ => reject EmptyString m
end.

(** [parse_home(first_row, line)] *)
Definition parse_home (m : memory) (first_row : Z) (line : string) : row_result :=
match scan_words 7 line with
| [band_str; rxfreq_str; offset_str; rq_str; tq_str; power_str; wide_str] =>
  let band := atoi band_str in
  if negb (band =? 144) && negb (band =? 250) && negb (band =? 350)
     && negb (band =? 430) && negb (band =? 850)
  then reject ("Incorrect band." ++ newline) m else
  match scan_double rxfreq_str with
  | None => reject ("Bad receive frequency." ++ newline) m
  | Some rx_mhz =>
  if is_valid_frequency (int_of_double rx_mhz) =? 0
  then reject ("Bad receive frequency." ++ newline) m else
  match scan_double offset_str with
  | None => reject ("Bad transmit frequency." ++ newline) m
  | Some tx0 =>
  let tx_mhz := if (char_at offset_str 0 =? 45) || (char_at offset_str 0 =? 43)
                then (tx0 + rx_mhz)%float else tx0 in
  if is_valid_frequency (int_of_double tx_mhz) =? 0
  then reject ("Bad transmit frequency." ++ newline) m else
  let '(tmode, tone, dtcs) := encode_squelch rq_str tq_str in
  match (if strcasecmp "High" power_str =? 0 then Some 0
         else if strcasecmp "Mid" power_str =? 0 then Some 1
         else if strcasecmp "Low" power_str =? 0 then Some 2
         else None) with
  | None => reject ("Bad power level." ++ newline) m
  | Some power =>
  match (if strcasecmp "Wide" wide_str =? 0 then Some (1, 0)
         else if strcasecmp "Narrow" wide_str =? 0 then Some (0, 0)
         else if strcasecmp "AM" wide_str =? 0 then Some (1, 1)
         else None) with
  | None => reject ("Bad modulation width." ++ newline) m
  | Some (wide, isam) =>
  accept (setup_home m band rx_mhz tx_mhz tmode tone dtcs power wide isam)
  end end end end
| _ => reject EmptyString m
end.

(** [parse_pms(first_row, line)] *)
Definition parse_pms (m : memory) (first_row : Z) (line : string) : row_result :=
match scan_words 3 line with
| [num_str; lower_str; upper_str] =>
  let num := atoi num_str in
  if (num <? 1) || (num >? NPMS) then reject ("Bad PMS number." ++ newline) m else
  match scan_double lower_str with
  | None => reject ("Bad lower frequency." ++ newline) m
  | Some lower_mhz =>
  if is_valid_frequency (int_of_double lower_mhz) =? 0
  then reject ("Bad lower frequency." ++ newline) m else
  match scan_double upper_str with
  | None => reject ("Bad upper frequency." ++ newline) m
  | Some upper_mhz =>
  if is_valid_frequency (int_of_double upper_mhz) =? 0
  then reject ("Bad upper frequency." ++ newline) m else
  let m := if negb (first_row =? 0)
           then fold_left (fun m i => setup_pms m i 0%float 0%float) (Z_range 0 NPMS) m
           else m in
  accept (setup_pms m (num - 1) lower_mhz upper_mhz)
  end end
| _ => reject EmptyString m
end.

End Tables.

(** The loop of [parse_banks] over the channel list; every round consumes
    at least one character of [str], which bounds the rounds by [fuel]. *)
Fixpoint bank_list (fuel : nat) (bnum : Z) (str : string) (range last : Z)
  (m : memory) : result row_result :=
match fuel with
| O => Spin
| S fuel' =>
  match strtoul str with
  | None =>
      Done (reject ("Bank " ++ fmt_d bnum ++ ": wrong channel list '" ++ str
                    ++ "'." ++ newline) m)
  | Some (v, eptr) =>
    let cnum := int32 v in
    if (cnum <? 1) || (cnum >? NCHAN) then
      Done (reject ("Bank " ++ fmt_d bnum ++ ": wrong channel number "
                    ++ fmt_d cnum ++ "." ++ newline) m)
    else
      let m := if negb (range =? 0)
               then fold_left (fun m c => setup_bank m (bnum - 1) c)
                              (Z_range last cnum) m
               else setup_bank m (bnum - 1) (cnum - 1) in
      match eptr with
      | EmptyString => Done (accept m)
      | String c rest =>
          if negb (code c =? 44) && negb (code c =? 45) then
            Done (reject ("Bank " ++ fmt_d bnum ++ ": wrong channel list '" ++ eptr
                          ++ "'." ++ newline) m)
          else bank_list fuel' bnum rest (c_bool (code c =? 45)) cnum m
      end
  end
end.

(** [parse_banks(first_row, line)] *)
Definition parse_banks (m : memory) (first_row : Z) (line : string)
  : result row_result :=
match scan_words 2 line with
| [num_str; chan_str] =>
  let bnum := atoi num_str in
  if (bnum <? 1) || (bnum >? NBANKS) then Done (reject ("Bad bank number." ++ newline) m) else
  let m := if negb (first_row =? 0)
           then memset m OFFSET_BANKS 0 (NBANKS * 0x80) else m in
  if char_at chan_str 0 =? 45 then Done (accept m)
  else bank_list (S (String.length chan_str)) bnum chan_str 0 0 m
| _ => Done (reject EmptyString m)
end.

(** [ft60_parse_header(line)]: the table id, a character code. *)
Definition ft60_parse_header (line : string) : Z :=
if strncasecmp line "Channel" 7 =? 0 then 67
else if strncasecmp line "Home" 4 =? 0 then 72
else if strncasecmp line "PMS" 3 =? 0 then 80
else if strncasecmp line "Bank" 4 =? 0 then 66
else 0.

Section Rows.

Variables CTCSS_TONES DCS_CODES : list Z.
Variables scan_float scan_double : string -> option double.

(** [ft60_parse_row(table_id, first_row, line)] *)
Definition ft60_parse_row (m : memory) (table_id first_row : Z) (line : string)
  : result row_result :=
if table_id =? 67
then Done (parse_channel CTCSS_TONES DCS_CODES scan_float scan_double m first_row line)
else if table_id =? 72
then Done (parse_home CTCSS_TONES DCS_CODES scan_float scan_double m first_row line)
else if table_id =? 80 then Done (parse_pms scan_double m first_row line)
else if table_id =? 66 then parse_banks m first_row line
else Done (reject EmptyString m).

End Rows.

(** [ft60_parse_parameter(param, value)] *)
Definition ft60_parse_parameter (param value : string) : result unit :=
if strcasecmp "Radio" param =? 0 then
  if negb (strcasecmp "Yaesu FT-60R" value =? 0)
  then Halt (-1) ("Bad value for " ++ param ++ ": " ++ value ++ newline)
  else Done tt
else Halt (-1) ("Unknown parameter: " ++ param ++ " = " ++ value ++ newline).

(** *** Image files: the bytes of the file *)

(** [ft60_read_image(img)] *)
Definition ft60_read_image (m : memory) (img : list Z) : result memory :=
let (n, m) := fread m 0 MEMSZ img in
if negb (n =? MEMSZ) then Halt (-1) ("Error reading image data." ++ newline)
else Done m.

(** [ft60_save_image(img)]: what is written to the file. *)
Definition ft60_save_image (m : memory) : list Z :=
load_bytes m 0 (Z.to_nat (MEMSZ + 1)).

(** *** Compatibility *)

Definition ft60_is_compatible (m : memory) : Z :=
c_bool (strncmp (literal "AH017$") (load m) 6 =? 0).

(** *** Clone transport *)

(** [read_block(fd, start, data, nbytes)]; [data] is an address of
    [radio_mem]. *)
Definition read_block (w : world) (start data nbytes : Z) : result (Z * world) :=
let (got, p) := serial_read (radio_port w) nbytes in
let w := with_port (with_mem w (store_bytes (radio_mem w) data got)) p in
let len := Z.of_nat (List.length got) in
if negb (len =? nbytes) then
  if start =? 0 then Done (0, w)
  else Halt (-1) (short_read_message start len)
else
  let (reply, p) := serial_read (serial_write (radio_port w) [0x06]) 1 in
  let w := with_port w p in
  match reply with
  | [] => Halt (-1) ("No acknowledge after block 0x" ++ fmt_04x start ++ "." ++ newline)
  | r :: _ =>
      if negb (uint8 r =? 0x06) then
        Halt (-1) ("Bad acknowledge after block 0x" ++ fmt_04x start ++ ": "
                   ++ fmt_02x (uint8 r) ++ newline)
      else Done (1, tick w)
  end.

(** [write_block(fd, start, data, nbytes)] *)
Definition write_block (w : world) (start data nbytes : Z) : Z * world :=
let p := serial_write (radio_port w) (load_bytes (radio_mem w) data (Z.to_nat nbytes)) in
let (echo, p) := serial_read p nbytes in
let w := with_port w p in
if negb (Z.of_nat (List.length echo) =? nbytes) then (0, w)
else
  let (reply, p) := serial_read (radio_port w) 1 in
  let w := with_port w p in
  match reply with
  | [] => (0, w)
  | r :: _ => if negb (uint8 r =? 0x06) then (0, w) else (1, tick w)
  end.

(** [ft60_download()]: every round of [fuel] is one pass from the label
    [again], and bounds the polls for the first block of that pass. *)
Fixpoint ft60_download (fuel : nat) (w : world) : result world :=
match fuel with
| O => Spin
| S fuel' =>
    w <- poll fuel (fun w => read_block w 0 0 8) w ;;
    w <- for_each (blocks 8 MEMSZ)
           (fun addr w => r <- read_block w addr addr 64 ;; Done (snd r)) w ;;
    r <- read_block w MEMSZ MEMSZ 1 ;;
    let w := snd r in
    let sum := Z.land (sum_bytes (radio_mem w) 0 (Z.to_nat MEMSZ)) 0xff in
    if negb (sum =? load (radio_mem w) MEMSZ) then ft60_download fuel' w
    else Done w
end.

(** The statement [radio_mem[MEMSZ] = sum] of [ft60_upload] with the loop
    that computes [sum]. *)
Definition upload_checksum (w : world) : world :=
with_mem w (store (radio_mem w) MEMSZ (sum_bytes (radio_mem w) 0 (Z.to_nat MEMSZ))).

(** [ft60_upload(cont_flag)]: every round of [fuel] is one pass from the
    label [again].  The prompts differ with [cont_flag], the transfer does
    not; the line read from the operator is ignored, and [serial_flush]
    drops what the line delivered before the pass, so that the script
    holds what arrives after it. *)
Fixpoint ft60_upload (fuel : nat) (w : world) : result world :=
match fuel with
| O => Spin
| S fuel' =>
    let (ok, w) := write_block w 0 0 8 in
    if ok =? 0 then ft60_upload fuel' w else
    let (ok, w) := for_all (blocks 8 MEMSZ)
                     (fun addr w => write_block w addr addr 64) w in
    if ok =? 0 then ft60_upload fuel' w else
    let w := upload_checksum w in
    let (ok, w) := write_block w MEMSZ MEMSZ 1 in
    if ok =? 0 then ft60_upload fuel' w else Done w
end.

End FT60.

(** ** Yaesu VX-2 ([vx-2.c]) *)

Module VX2.

Definition NCHAN : Z := 1000.
Definition NBANKS : Z := 20.
Definition NPMS : Z := 50.
Definition MEMSZ : Z := 32594.

Definition OFFSET_BUSE1 : Z := 0x005a.
Definition OFFSET_BUSE2 : Z := 0x00da.
Definition OFFSET_BNCHAN : Z := 0x016a.
Definition OFFSET_HOME : Z := 0x03d2.
Definition OFFSET_VFO : Z := 0x04e2.
Definition OFFSET_BANKS : Z := 0x05c2.
Definition OFFSET_FLAGS : Z := 0x1562.
Definition OFFSET_CHANNELS : Z := 0x17c2.
Definition OFFSET_PMS : Z := 0x5e12.

Definition CHARSET : string := "0123456789ABCDEFGHIJKLMNOPQRSTUVWXYZ +-/[]".
Definition NCHARS : Z := 42.
Definition SPACE : Z := 36.

Definition STEP_5 : Z := 0.
Definition STEP_10 : Z := 1.
Definition STEP_12_5 : Z := 2.
Definition STEP_15 : Z := 3.
Definition STEP_20 : Z := 4.
Definition STEP_25 : Z := 5.
Definition STEP_50 : Z := 6.
Definition STEP_100 : Z := 7.
Definition STEP_9 : Z := 8.

Definition FLAG_UNMASKED : Z := 1.
Definition FLAG_VALID : Z := 2.
Definition FLAG_SKIP : Z := 4.
Definition FLAG_PSKIP : Z := 8.

Definition SCAN_NORMAL : Z := 0.
Definition SCAN_SKIP : Z := 1.
Definition SCAN_PREFERENTIAL : Z := 2.

Definition D_SIMPLEX : Z := 0.
Definition D_NEG_OFFSET : Z := 1.
Definition D_POS_OFFSET : Z := 2.
Definition D_DUPLEX : Z := 3.

Definition MOD_FM : Z := 0.
Definition MOD_AM : Z := 1.
Definition MOD_WFM : Z := 2.
Definition MOD_AUTO : Z := 3.
Definition MOD_NFM : Z := 4.

Definition T_OFF : Z := 0.
Definition T_TONE : Z := 1.
Definition T_TSQL : Z := 2.
Definition T_DTCS : Z := 3.
Definition PWR_HIGH : Z := 0.
Definition PWR_LOW : Z := 3.
Definition TONE_DEFAULT : Z := 12.

(** *** [memory_channel_t]: 18 bytes *)

Definition sizeof_channel : Z := 18.

Definition ch_isnarrow (m : memory) (ch : Z) : Z := load_field m ch 5 1.
Definition ch_step (m : memory) (ch : Z) : Z := load_field m (ch + 1) 0 4.
Definition ch_duplex (m : memory) (ch : Z) : Z := load_field m (ch + 1) 4 2.
Definition ch_amfm (m : memory) (ch : Z) : Z := load_field m (ch + 1) 6 2.
Definition ch_rxfreq (ch : Z) : Z := ch + 2.
Definition ch_tmode (m : memory) (ch : Z) : Z := load_field m (ch + 5) 0 2.
Definition ch_power (m : memory) (ch : Z) : Z := load_field m (ch + 5) 6 2.
Definition ch_name (ch : Z) : Z := ch + 6.
Definition ch_offset (ch : Z) : Z := ch + 12.
Definition ch_tone (m : memory) (ch : Z) : Z := load_field m (ch + 15) 0 6.
Definition ch_dcs (m : memory) (ch : Z) : Z := load_field m (ch + 16) 0 7.

Definition set_u1 (m : memory) (ch v : Z) : memory := store_field m ch 0 4 v.
Definition set_clk (m : memory) (ch v : Z) : memory := store_field m ch 4 1 v.
Definition set_isnarrow (m : memory) (ch v : Z) : memory := store_field m ch 5 1 v.
Definition set_u2 (m : memory) (ch v : Z) : memory := store_field m ch 6 2 v.
Definition set_step (m : memory) (ch v : Z) : memory := store_field m (ch + 1) 0 4 v.
Definition set_duplex (m : memory) (ch v : Z) : memory := store_field m (ch + 1) 4 2 v.
Definition set_amfm (m : memory) (ch v : Z) : memory := store_field m (ch + 1) 6 2 v.
Definition set_tmode (m : memory) (ch v : Z) : memory := store_field m (ch + 5) 0 2 v.
Definition set_u3 (m : memory) (ch v : Z) : memory := store_field m (ch + 5) 2 4 v.
Definition set_power (m : memory) (ch v : Z) : memory := store_field m (ch + 5) 6 2 v.
Definition set_tone (m : memory) (ch v : Z) : memory := store_field m (ch + 15) 0 6 v.
Definition set_u4 (m : memory) (ch v : Z) : memory := store_field m (ch + 15) 6 2 v.
Definition set_dcs (m : memory) (ch v : Z) : memory := store_field m (ch + 16) 0 7 v.
Definition set_u5 (m : memory) (ch v : Z) : memory := store_field m (ch + 16) 7 1 v.

(** *** Clone transport *)

(** The loop of [read_block] from the label [again]: one round per chunk
    of at most 64 bytes. *)
Fixpoint read_chunks (chunks : nat) (need_ack : bool) (w : world)
  (start data datalen : Z) : result (Z * world) :=
match chunks with
| O => Spin
| S chunks' =>
  let nbytes := if datalen <? 64 then datalen else 64 in
  let (got, p) := serial_read (radio_port w) nbytes in
  let w := with_port (with_mem w (store_bytes (radio_mem w) data got)) p in
  let len := Z.of_nat (List.length got) in
  if negb (len =? nbytes) then
    if start =? 0 then Done (0, w)
    else Halt (-1) (short_read_message start len)
  else
    w <- (if need_ack then
            let (reply, p) := serial_read (serial_write (radio_port w) [0x06]) 1 in
            let w := with_port w p in
            match reply with
            | [] => Halt (-1) ("No acknowledge after block 0x" ++ fmt_04x start
                               ++ "." ++ newline)
            | r :: _ =>
                if negb (uint8 r =? 0x06) then
                  Halt (-1) ("Bad acknowledge after block 0x" ++ fmt_04x start
                             ++ ": " ++ fmt_02x (uint8 r) ++ newline)
                else Done w
            end
          else Done w) ;;
    let w := tick w in
    if nbytes <? datalen
    then read_chunks chunks' need_ack w (start + nbytes) (data + nbytes) (datalen - nbytes)
    else Done (1, w)
end.

(** [read_block(fd, start, data, datalen)] *)
Definition read_block (w : world) (start data datalen : Z) : result (Z * world) :=
read_chunks (S (Z.to_nat (datalen / 64))) (datalen <=? 16) w start data datalen.

(** The loop of [write_block] from the label [again]; the pause between
    two chunks ([usleep]) is not modelled. *)
Fixpoint write_chunks (chunks : nat) (need_ack : bool) (w : world)
  (start data datalen : Z) : result (Z * world) :=
match chunks with
| O => Spin
| S chunks' =>
  let nbytes := if datalen <? 64 then datalen else 64 in
  let p := serial_write (radio_port w)
             (load_bytes (radio_mem w) data (Z.to_nat nbytes)) in
  let (echo, p) := serial_read p nbytes in
  let w := with_port w p in
  if negb (Z.of_nat (List.length echo) =? nbytes) then Done (0, w)
  else
    let acked :=
      if need_ack then
        let (reply, p) := serial_read (radio_port w) 1 in
        match reply with
        | [] => (false, with_port w p)
        | r :: _ => (uint8 r =? 0x06, with_port w p)
        end
      else (true, w) in
    if negb (fst acked) then Done (0, snd acked)
    else
      let w := tick (snd acked) in
      if nbytes <? datalen
      then write_chunks chunks' need_ack w (start + nbytes) (data + nbytes)
                        (datalen - nbytes)
      else Done (1, w)
end.

(** [write_block(fd, start, data, datalen)] *)
Definition write_block (w : world) (start data datalen : Z) : result (Z * world) :=
write_chunks (S (Z.to_nat (datalen / 64))) (datalen <=? 16) w start data datalen.

(** [vx2_download()]: fuel as for the FT-60. *)
Fixpoint vx2_download (fuel : nat) (w : world) : result world :=
match fuel with
| O => Spin
| S fuel' =>
    w <- poll fuel (fun w => read_block w 0 0 10) w ;;
    w <- poll fuel (fun w => read_block w 10 10 8) w ;;
    r <- read_block w 18 18 (MEMSZ - 18 + 1) ;;
    let w := snd r in
    let sum := Z.land (sum_bytes (radio_mem w) 0 (Z.to_nat MEMSZ)) 0xff in
    if negb (sum =? load (radio_mem w) MEMSZ) then vx2_download fuel' w
    else Done w
end.

(** The statement [radio_mem[MEMSZ] = sum] of [vx2_upload] with the loop
    that computes [sum]. *)
Definition upload_checksum (w : world) : world :=
with_mem w (store (radio_mem w) MEMSZ (sum_bytes (radio_mem w) 0 (Z.to_nat MEMSZ))).

(** [vx2_upload(cont_flag)]: fuel, prompts and [serial_flush] as for the
    FT-60; the pauses ([usleep]) between the blocks are not modelled. *)
Fixpoint vx2_upload (fuel : nat) (w : world) : result world :=
match fuel with
| O => Spin
| S fuel' =>
    r <- write_block w 0 0 10 ;;
    if fst r =? 0 then vx2_upload fuel' (snd r) else
    r <- write_block (snd r) 10 10 8 ;;
    if fst r =? 0 then vx2_upload fuel' (snd r) else
    let w := upload_checksum (snd r) in
    r <- write_block w 18 18 (MEMSZ - 18 + 1) ;;
    if fst r =? 0 then vx2_upload fuel' (snd r) else Done (snd r)
end.

Definition vx2_is_compatible (m : memory) : Z :=
c_bool (strncmp (literal "AH015$") (load m) 6 =? 0).

(** *** Frequencies *)

(** [iround(x)]: to the nearest integer, halves away from zero.  The
    negation is one of [int]: that of [INT_MIN] is [INT_MIN]. *)
Definition iround (x : double) : Z :=
if (0 <=? x)%float then int_of_double (x + 0.5)%float
else int32 (- int_of_double (- x + 0.5)%float).

Definition freq_to_hz (m : memory) (bcd : Z) : Z :=
let a := Z.shiftr (load m bcd) 4 in
let b := Z.land (load m bcd) 15 in
let c := Z.shiftr (load m (bcd + 1)) 4 in
let d := Z.land (load m (bcd + 1)) 15 in
let e := Z.shiftr (load m (bcd + 2)) 4 in
let f := Z.land (load m (bcd + 2)) 15 in
let hz := (((((a * 10 + b) * 10 + c) * 10 + d) * 10 + e) * 10 + f) * 1000 in
if (f =? 2) || (f =? 7) then hz + 500 else hz.

Definition hz_to_freq (hz : Z) (m : memory) (bcd : Z) : memory :=
if hz =? 0 then
  store (store (store m (bcd + 2) 0xff) (bcd + 1) 0xff) bcd 0xff
else
  let m := store m bcd
    (Z.lor (Z.shiftl (Z.rem (Z.quot hz 100000000) 10) 4)
           (Z.rem (Z.quot hz 10000000) 10)) in
  let m := store m (bcd + 1)
    (Z.lor (Z.shiftl (Z.rem (Z.quot hz 1000000) 10) 4)
           (Z.rem (Z.quot hz 100000) 10)) in
  store m (bcd + 2)
    (Z.lor (Z.shiftl (Z.rem (Z.quot hz 10000) 10) 4)
           (Z.rem (Z.quot hz 1000) 10)).

(** *** Banks: a list of channel indices per bank, 200 bytes per bank *)

(** [big_endian_16(x)] as compiled for a little-endian host. *)
Definition big_endian_16 (x : Z) : Z :=
let x := uint16 x in
uint16 (Z.lor (Z.shiftr x 8) (Z.shiftl x 8)).

Record bank_printer : Type := mk_printer {
  last : Z;
  range : Z;
  out : string
}.

Definition print_bank_step (m : memory) (data : Z) (st : bank_printer) (n : Z)
  : bank_printer :=
let cnum := 1 + big_endian_16 (load_u16 m (data + 2 * n)) in
if cnum =? last st + 1 then mk_printer cnum 1 (out st)
else
  let o := if negb (range st =? 0) then out st ++ "-" ++ fmt_d (last st) else out st in
  let o := if n >? 0 then o ++ "," else o in
  mk_printer cnum 0 (o ++ fmt_d cnum).

(** [print_bank(out, i)]: the text written, none for a bank that is not
    in use. *)
Definition print_bank (m : memory) (i : Z) : string :=
let nchan := big_endian_16 (load_u16 m (OFFSET_BNCHAN + i * 2)) in
let data := OFFSET_BANKS + i * 200 in
if nchan <? 100 then
  let st := fold_left (print_bank_step m data) (Z_range 0 (nchan + 1))
                      (mk_printer (-1) 0 (fmt_4d (i + 1) ++ "    ")) in
  let o := if negb (range st =? 0) then out st ++ "-" ++ fmt_d (last st) else out st in
  o ++ newline
else EmptyString.

(** The channel numbers (from 1) that [print_bank] reads from the list of
    bank [i], in the order of the list. *)
Definition bank_members (m : memory) (i : Z) : list Z :=
let nchan := big_endian_16 (load_u16 m (OFFSET_BNCHAN + i * 2)) in
if nchan <? 100 then
  map (fun n => 1 + big_endian_16 (load_u16 m (OFFSET_BANKS + i * 200 + 2 * n)))
      (Z_range 0 (nchan + 1))
else [].


(** The search of [setup_bank] for the first free slot among [slots]. *)
Fixpoint first_free (m : memory) (data : Z) (slots : list Z) : option Z :=
match slots with
| [] => None
| n :: rest =>
    if load_u16 m (data + 2 * n) =? 0xffff then Some n else first_free m data rest
end.

Definition setup_bank (m : memory) (bank_index chan_index : Z) : result memory :=
let data := OFFSET_BANKS + bank_index * 200 in
match first_free m data (Z_range 0 100) with
| Some n => Done (store_u16 m (data + 2 * n) (big_endian_16 chan_index))
| None => Halt (-1) ("Bank " ++ fmt_d (bank_index + 1) ++ ": too many channels."
                     ++ newline)
end.

(** *** Channel names *)

Definition underscore : ascii := ascii_of_N 95.

Fixpoint drop_underscores (l : list ascii) : list ascii :=
match l with
| c :: r => if code c =? 95 then drop_underscores r else l
| [] => []
end.

Definition name_char (c : Z) : ascii :=
let a := if c <? NCHARS
         then nth (Z.to_nat c) (list_ascii_of_string CHARSET) Space
         else Space in
if code a =? 32 then underscore else a.

(** [decode_name(internal, name)] *)
Definition decode_name (m : memory) (internal : Z) (name : string) : string :=
if Z.land (load m internal) 0x7f <? NCHARS then
  let chars := map (fun n => name_char (Z.land (load m (internal + n)) 0x7f))
                   (Z_range 0 6) in
  string_of_list_ascii (rev (drop_underscores (rev chars)))
else name.

Definition encode_char (c : Z) : Z :=
let c := if c =? 95 then 32 else c in
let c := if (97 <=? c) && (c <=? 122) then c + (65 - 97) else c in
let i := index_from 0 c (map code (list_ascii_of_string CHARSET)) in
if i <? 0 then SPACE else i.

(** [encode_name(internal, name)]; [None] is the null pointer. *)
Definition encode_name (m : memory) (internal : Z) (name : option string) : memory :=
let text := match name with Some s => c_str s | None => EmptyString end in
let text := if (char_at text 0 =? 0) || (char_at text 0 =? 45)
            then "      " else text in
let len := Z.min 6 (Z.of_nat (String.length text)) in
let m := fold_left
  (fun m n => store m (internal + n) (encode_char (char_at text (Z.to_nat n))))
  (Z_range 0 len) m in
let m := fold_left (fun m n => store m (internal + n) SPACE) (Z_range len 6) m in
if negb (load m internal =? SPACE)
then store m internal (Z.lor (load m internal) 0x80)
else m.

(** *** Channel flags: four bits per channel *)

Definition get_flags (m : memory) (i : Z) : Z :=
let flags := load m (OFFSET_FLAGS + Z.quot i 2) in
let flags := if negb (Z.land i 1 =? 0) then Z.shiftr flags 4 else flags in
Z.land flags 0xf.

Definition set_flags (m : memory) (i flags : Z) : memory :=
let ptr := OFFSET_FLAGS + Z.quot i 2 in
let shift := Z.land i 1 * 4 in
let m := store m ptr (Z.land (load m ptr) (Z.lnot (Z.shiftl 0xf shift))) in
store m ptr (Z.lor (load m ptr) (Z.shiftl flags shift)).

(** *** Channels *)

Record channel : Type := mk_channel {
  name : option string;
  rx_hz : Z;
  tx_hz : Z;
  rx_ctcs : Z;
  tx_ctcs : Z;
  rx_dcs : Z;
  tx_dcs : Z;
  power : Z;
  scan : Z;
  amfm : Z;
  step : Z
}.

Section Tables.

Variables CTCSS_TONES DCS_CODES : list Z.
Variables scan_float scan_double : string -> option double.

(** [decode_channel(i, seek, name, ...)].  The transmit frequency is the
    sum or the difference of two [int]s, which wraps on 32 bits as in the
    compiled code. *)
Definition decode_channel (m : memory) (i seek : Z) (with_name : bool) : channel :=
let ch := seek + i * sizeof_channel in
let flags := get_flags m (i + (if seek =? OFFSET_PMS then NCHAN else 0)) in
let name0 := if with_name then Some EmptyString else None in
if ((seek =? OFFSET_CHANNELS) || (seek =? OFFSET_PMS))
   && (Z.land flags FLAG_VALID =? 0)
then mk_channel name0 0 0 0 0 0 0 0 0 0 0
else
  let name1 := if seek =? OFFSET_CHANNELS
               then option_map (decode_name m (ch_name ch)) name0 else name0 in
  let rx := freq_to_hz m (ch_rxfreq ch) in
  let duplex := ch_duplex m ch in
  let tx :=
    if duplex =? D_NEG_OFFSET then int32 (rx - freq_to_hz m (ch_offset ch))
    else if duplex =? D_POS_OFFSET then int32 (rx + freq_to_hz m (ch_offset ch))
    else if duplex =? D_DUPLEX then freq_to_hz m (ch_offset ch)
    else rx in
  let tmode := ch_tmode m ch in
  let tone := table_at CTCSS_TONES (ch_tone m ch) in
  let dcs := table_at DCS_CODES (ch_dcs m ch) in
  let '(rx_ctcs, tx_ctcs, rx_dcs, tx_dcs) :=
    if tmode =? T_TONE then (0, tone, 0, 0)
    else if tmode =? T_TSQL then (tone, tone, 0, 0)
    else if tmode =? T_DTCS then (0, 0, dcs, dcs)
    else (0, 0, 0, 0) in
  mk_channel name1 rx tx rx_ctcs tx_ctcs rx_dcs tx_dcs
    (ch_power m ch)
    (if negb (Z.land flags FLAG_PSKIP =? 0) then SCAN_PREFERENTIAL
     else if negb (Z.land flags FLAG_SKIP =? 0) then SCAN_SKIP
     else SCAN_NORMAL)
    (if negb (ch_isnarrow m ch =? 0) then MOD_NFM else ch_amfm m ch)
    (ch_step m ch).

Definition setup_channel (m : memory) (i : Z) (name : option string)
  (rx_mhz tx_mhz : double) (tmode tone dcs power scan amfm : Z) : memory :=
let ch := OFFSET_CHANNELS + i * sizeof_channel in
let flags := Z.lor FLAG_VALID FLAG_UNMASKED in
let m := hz_to_freq (iround (rx_mhz * 1000000.0)%float) m (ch_rxfreq ch) in
let offset_khz := iround ((tx_mhz - rx_mhz) * 1000.0)%float in
let m := store (store (store m (ch_offset ch + 2) 0) (ch_offset ch + 1) 0)
               (ch_offset ch) 0 in
let m :=
  if offset_khz =? 0 then set_duplex m ch D_SIMPLEX
  else if (offset_khz >? 0) && (offset_khz <? 100000) then
    hz_to_freq (offset_khz * 1000) (set_duplex m ch D_POS_OFFSET) (ch_offset ch)
  else if (offset_khz <? 0) && (- offset_khz <? 100000) then
    hz_to_freq (- offset_khz * 1000) (set_duplex m ch D_NEG_OFFSET) (ch_offset ch)
  else
    hz_to_freq (iround (tx_mhz * 1000000.0)%float) (set_duplex m ch D_DUPLEX)
               (ch_offset ch) in
let m := set_tmode m ch tmode in
let m := set_tone m ch tone in
let m := set_dcs m ch dcs in
let m := set_power m ch power in
let m := set_isnarrow m ch (c_bool (amfm =? MOD_NFM)) in
let m := set_amfm m ch amfm in
let m := set_step m ch STEP_12_5 in
let m := set_clk m ch 0 in
let m := set_u1 m ch (if (rx_mhz <? 1.8)%float then 2
                      else if (rx_mhz <? 88)%float then 0 else 5) in
let m := set_u2 m ch 0 in
let m := set_u3 m ch 0 in
let m := set_u4 m ch 0 in
let m := set_u5 m ch 0 in
let m := store m (ch + 17) 0 in
let m := encode_name m (ch_name ch) name in
let flags := if scan =? SCAN_SKIP then Z.lor flags FLAG_SKIP
             else if scan =? SCAN_PREFERENTIAL then Z.lor flags FLAG_PSKIP
             else flags in
set_flags m i flags.

(** The band column of the VFO and Home tables of [vx2_print_config] for
    the record [i]: [int band = (i < 4) ? i+1 : i;], in loops over the
    twelve records that skip [i == 4]. *)
Definition band_of_index (i : Z) : Z := if i <? 4 then i + 1 else i.

(** [setup_home(band, ...)]: bands 1 to 4 are the records 0 to 3 at
    [OFFSET_HOME], bands 5 to 11 the records 5 to 11. *)
Definition setup_home (m : memory) (band : Z) (rx_mhz tx_mhz : double)
  (tmode tone dcs power amfm step : Z) : memory :=
let index := if band <=? 4 then band - 1 else band in
let ch := OFFSET_HOME + index * sizeof_channel in
let m := hz_to_freq (iround (rx_mhz * 1000000.0)%float) m (ch_rxfreq ch) in
let offset_khz := iround ((tx_mhz - rx_mhz) * 1000.0)%float in
let m := store (store (store m (ch_offset ch + 2) 0) (ch_offset ch + 1) 0)
               (ch_offset ch) 0 in
let m :=
  if offset_khz =? 0 then set_duplex m ch D_SIMPLEX
  else if (offset_khz >? 0) && (offset_khz <? 100000) then
    hz_to_freq (offset_khz * 1000) (set_duplex m ch D_POS_OFFSET) (ch_offset ch)
  else if (offset_khz <? 0) && (- offset_khz <? 100000) then
    hz_to_freq (- offset_khz * 1000) (set_duplex m ch D_NEG_OFFSET) (ch_offset ch)
  else
    hz_to_freq (iround (tx_mhz * 1000000.0)%float) (set_duplex m ch D_DUPLEX)
               (ch_offset ch) in
let m := set_tmode m ch tmode in
let m := set_tone m ch tone in
let m := set_dcs m ch dcs in
let m := set_power m ch power in
let m := set_isnarrow m ch (c_bool (amfm =? MOD_NFM)) in
let m := set_amfm m ch amfm in
let m := set_step m ch step in
let m := set_clk m ch 0 in
let m := set_u1 m ch (if (rx_mhz <? 1.8)%float then 2
                      else if (rx_mhz <? 88)%float then 0 else 5) in
let m := set_u2 m ch 0 in
let m := set_u3 m ch 0 in
let m := set_u4 m ch 0 in
let m := set_u5 m ch 0 in
let m := store m (ch + 17) 0 in
encode_name m (ch_name ch) (Some "      ").

(** [setup_vfo(band, ...)] *)
Definition setup_vfo (m : memory) (band : Z) (rx_mhz tx_mhz : double)
  (tmode tone dcs power amfm step : Z) : memory :=
let index := if band <=? 4 then band - 1 else band in
let ch := OFFSET_VFO + index * sizeof_channel in
let m := hz_to_freq (iround (rx_mhz * 1000000.0)%float) m (ch_rxfreq ch) in
let offset_khz := iround ((tx_mhz - rx_mhz) * 1000.0)%float in
let m := store (store (store m (ch_offset ch + 2) 0) (ch_offset ch + 1) 0)
               (ch_offset ch) 0 in
let m :=
  if offset_khz =? 0 then set_duplex m ch D_SIMPLEX
  else if (offset_khz >? 0) && (offset_khz <? 100000) then
    hz_to_freq (offset_khz * 1000) (set_duplex m ch D_POS_OFFSET) (ch_offset ch)
  else if (offset_khz <? 0) && (- offset_khz <? 100000) then
    hz_to_freq (- offset_khz * 1000) (set_duplex m ch D_NEG_OFFSET) (ch_offset ch)
  else
    hz_to_freq (iround (tx_mhz * 1000000.0)%float) (set_duplex m ch D_DUPLEX)
               (ch_offset ch) in
let m := set_tmode m ch tmode in
let m := set_tone m ch tone in
let m := set_dcs m ch dcs in
let m := set_power m ch power in
let m := set_isnarrow m ch (c_bool (amfm =? MOD_NFM)) in
let m := set_amfm m ch amfm in
let m := set_step m ch step in
let m := set_clk m ch 0 in
let m := set_u1 m ch (if (rx_mhz <? 1.8)%float then 2
                      else if (rx_mhz <? 88)%float then 0 else 5) in
let m := set_u2 m ch 0 in
let m := set_u3 m ch 0 in
let m := set_u4 m ch 0 in
let m := set_u5 m ch 0 in
let m := store m (ch + 17) 0 in
encode_name m (ch_name ch) (Some "      ").

(** [setup_pms(i, mhz)]: one limit of a pair, the record [i] at
    [OFFSET_PMS]. *)
Definition setup_pms (m : memory) (i : Z) (mhz : double) : memory :=
let ch := OFFSET_PMS + i * sizeof_channel in
let m := hz_to_freq (iround (mhz * 1000000.0)%float) m (ch_rxfreq ch) in
let m := store (store (store m (ch_offset ch + 2) 0) (ch_offset ch + 1) 0)
               (ch_offset ch) 0 in
let m := set_duplex m ch D_SIMPLEX in
let m := set_tmode m ch 0 in
let m := set_tone m ch 0 in
let m := set_dcs m ch 0 in
let m := set_power m ch 0 in
let m := set_isnarrow m ch 0 in
let m := set_amfm m ch 0 in
let m := set_step m ch STEP_12_5 in
let m := set_clk m ch 0 in
let m := set_u1 m ch 5 in
let m := set_u2 m ch 0 in
let m := set_u3 m ch 0 in
let m := set_u4 m ch 0 in
let m := set_u5 m ch 0 in
let m := store m (ch + 17) 0 in
let m := encode_name m (ch_name ch) (Some "      ") in
set_flags m (NCHAN + i) (Z.lor FLAG_VALID FLAG_UNMASKED).

(** *** Squelch columns *)

Definition encode_tone (str : string) : Z :=
match scan_float str with
| None => -1
| Some hz =>
    let val := uint32 (iround (hz * 10.0)%float) in
    if val <? 0x0258 then -1 else index_from 0 val CTCSS_TONES
end.

Definition encode_dcs (str : string) : Z :=
match scan_unsigned (match str with String _ r => r | EmptyString => str end) with
| None => -1
| Some val => index_from 0 val DCS_CODES
end.

(** [encode_squelch(rx, tx, &tone, &dcs)]: the value returned, then
    [*tone] and [*dcs]. *)
Definition encode_squelch (rx tx : string) : Z * Z * Z :=
let r0 := char_at rx 0 in
let t0 := char_at tx 0 in
let '(tx_dcs, tx_tone) :=
  if (t0 =? 68) || (t0 =? 100) then (encode_dcs tx, -1)
  else if (48 <=? t0) && (t0 <=? 57) then (-1, encode_tone tx)
  else (-1, -1) in
let rx_tone := if (48 <=? r0) && (r0 <=? 57) then encode_tone rx else -1 in
if tx_dcs >=? 0 then (T_DTCS, TONE_DEFAULT, tx_dcs)
else if tx_tone >=? 0 then
  if rx_tone <? 0 then (T_TONE, tx_tone, 0) else (T_TSQL, tx_tone, 0)
else (T_OFF, TONE_DEFAULT, 0).

(** *** Table rows *)

Definition is_valid_frequency (mhz : double) : Z :=
if (0.5 <=? mhz)%float && (mhz <=? 999)%float then 1 else 0.

(** [parse_channel(first_row, line)] *)
Definition parse_channel (m : memory) (first_row : Z) (line : string) : row_result :=
match scan_words 9 line with
| [num_str; name_str; rxfreq_str; offset_str; rq_str; tq_str;
   power_str; mod_str; scan_str] =>
  let num := atoi num_str in
  if (num <? 1) || (num >? NCHAN) then reject ("Bad channel number." ++ newline) m else
  match scan_double rxfreq_str with
  | None => reject ("Bad receive frequency." ++ newline) m
  | Some rx_mhz =>
  if is_valid_frequency rx_mhz =? 0
  then reject ("Bad receive frequency." ++ newline) m else
  match (if (char_at offset_str 0 =? 45) && (char_at offset_str 1 =? 0)
         then Some rx_mhz
         else match scan_double offset_str with
              | None => None
              | Some tx0 =>
                  let tx_mhz :=
                    if (char_at offset_str 0 =? 45) || (char_at offset_str 0 =? 43)
                    then (tx0 + rx_mhz)%float else tx0 in
                  if is_valid_frequency tx_mhz =? 0 then None else Some tx_mhz
              end) with
  | None => reject ("Bad transmit frequency." ++ newline) m
  | Some tx_mhz =>
  let '(tmode, tone, dcs) := encode_squelch rq_str tq_str in
  match (if strcasecmp "High" power_str =? 0 then Some PWR_HIGH
         else if (strcasecmp "Low" power_str =? 0) || (strcasecmp "-" power_str =? 0)
              then Some PWR_LOW
         else None) with
  | None => reject ("Bad power level." ++ newline) m
  | Some power =>
  match (if strcasecmp "FM" mod_str =? 0 then Some MOD_FM
         else if strcasecmp "AM" mod_str =? 0 then Some MOD_AM
         else if strcasecmp "WFM" mod_str =? 0 then Some MOD_WFM
         else if strcasecmp "NFM" mod_str =? 0 then Some MOD_NFM
         else if strcasecmp "Auto" mod_str =? 0 then Some MOD_AUTO
         else None) with
  | None => reject ("Bad modulation." ++ newline) m
  | Some amfm =>
  match (if char_at scan_str 0 =? 43 then Some SCAN_NORMAL
         else if char_at scan_str 0 =? 45 then Some SCAN_SKIP
         else if strcasecmp "Only" scan_str =? 0 then Some SCAN_PREFERENTIAL
         else None) with
  | None => reject ("Bad scan flag." ++ newline) m
  | Some scan =>
  let m := if negb (first_row =? 0)
           then memset (memset m OFFSET_CHANNELS 0xff (NCHAN * sizeof_channel))
                       OFFSET_FLAGS 0 (Z.quot NCHAN 2)
           else m in
  accept (setup_channel m (num - 1) (Some name_str) rx_mhz tx_mhz
            tmode tone dcs power scan amfm)
  end end end end end
| _ => reject ("Wrong number of fields." ++ newline) m
end.

(** [parse_home(first_row, line)] *)
Definition parse_home (m : memory) (first_row : Z) (line : string) : row_result :=
match scan_words 8 line with
| [band_str; rxfreq_str; offset_str; rq_str; tq_str; step_str; power_str; mod_str] =>
  let band := atoi band_str in
  if (band <? 1) || (band >? 11) then reject ("Incorrect band." ++ newline) m else
  match scan_double rxfreq_str with
  | None => reject ("Bad receive frequency." ++ newline) m
  | Some rx_mhz =>
  if is_valid_frequency rx_mhz =? 0
  then reject ("Bad receive frequency." ++ newline) m else
  match (if (char_at offset_str 0 =? 45) && (char_at offset_str 1 =? 0)
         then Some rx_mhz
         else match scan_double offset_str with
              | None => None
              | Some tx0 =>
                  let tx_mhz :=
                    if (char_at offset_str 0 =? 45) || (char_at offset_str 0 =? 43)
                    then (tx0 + rx_mhz)%float else tx0 in
                  if is_valid_frequency tx_mhz =? 0 then None else Some tx_mhz
              end) with
  | None => reject ("Bad transmit frequency." ++ newline) m
  | Some tx_mhz =>
  let '(tmode, tone, dcs) := encode_squelch rq_str tq_str in
  match (if strcasecmp "High" power_str =? 0 then Some PWR_HIGH
         else if (strcasecmp "Low" power_str =? 0) || (strcasecmp "-" power_str =? 0)
              then Some PWR_LOW
         else None) with
  | None => reject ("Bad power level." ++ newline) m
  | Some power =>
  match (if strcasecmp "FM" mod_str =? 0 then Some MOD_FM
         else if strcasecmp "AM" mod_str =? 0 then Some MOD_AM
         else if strcasecmp "WFM" mod_str =? 0 then Some MOD_WFM
         else if strcasecmp "NFM" mod_str =? 0 then Some MOD_NFM
         else if strcasecmp "Auto" mod_str =? 0 then Some MOD_AUTO
         else None) with
  | None => reject ("Bad modulation." ++ newline) m
  | Some amfm =>
  match (if strcmp "5" step_str =? 0 then Some STEP_5
         else if strcmp "9" step_str =? 0 then Some STEP_9
         else if strcmp "10" step_str =? 0 then Some STEP_10
         else if strcmp "12.5" step_str =? 0 then Some STEP_12_5
         else if strcmp "15" step_str =? 0 then Some STEP_15
         else if strcmp "20" step_str =? 0 then Some STEP_20
         else if strcmp "25" step_str =? 0 then Some STEP_25
         else if strcmp "50" step_str =? 0 then Some STEP_50
         else if strcmp "100" step_str =? 0 then Some STEP_100
         else None) with
  | None => reject ("Bad frequency step." ++ newline) m
  | Some step =>
  accept (setup_home m band rx_mhz tx_mhz tmode tone dcs power amfm step)
  end end end end end
| _ => reject EmptyString m
end.

(** [parse_vfo(first_row, line)] *)
Definition parse_vfo (m : memory) (first_row : Z) (line : string) : row_result :=
match scan_words 8 line with
| [band_str; rxfreq_str; offset_str; rq_str; tq_str; step_str; power_str; mod_str] =>
  let band := atoi band_str in
  if (band <? 1) || (band >? 11) then reject ("Incorrect band." ++ newline) m else
  match scan_double rxfreq_str with
  | None => reject ("Bad receive frequency." ++ newline) m
  | Some rx_mhz =>
  if is_valid_frequency rx_mhz =? 0
  then reject ("Bad receive frequency." ++ newline) m else
  match (if (char_at offset_str 0 =? 45) && (char_at offset_str 1 =? 0)
         then Some rx_mhz
         else match scan_double offset_str with
              | None => None
              | Some tx0 =>
                  let tx_mhz :=
                    if (char_at offset_str 0 =? 45) || (char_at offset_str 0 =? 43)
                    then (tx0 + rx_mhz)%float else tx0 in
                  if is_valid_frequency tx_mhz =? 0 then None else Some tx_mhz
              end) with
  | None => reject ("Bad transmit frequency." ++ newline) m
  | Some tx_mhz =>
  let '(tmode, tone, dcs) := encode_squelch rq_str tq_str in
  match (if strcasecmp "High" power_str =? 0 then Some PWR_HIGH
         else if (strcasecmp "Low" power_str =? 0) || (strcasecmp "-" power_str =? 0)
              then Some PWR_LOW
         else None) with
  | None => reject ("Bad power level." ++ newline) m
  | Some power =>
  match (if strcasecmp "FM" mod_str =? 0 then Some MOD_FM
         else if strcasecmp "AM" mod_str =? 0 then Some MOD_AM
         else if strcasecmp "WFM" mod_str =? 0 then Some MOD_WFM
         else if strcasecmp "NFM" mod_str =? 0 then Some MOD_NFM
         else if strcasecmp "Auto" mod_str =? 0 then Some MOD_AUTO
         else None) with
  | None => reject ("Bad modulation." ++ newline) m
  | Some amfm =>
  match (if strcmp "5" step_str =? 0 then Some STEP_5
         else if strcmp "9" step_str =? 0 then Some STEP_9
         else if strcmp "10" step_str =? 0 then Some STEP_10
         else if strcmp "12.5" step_str =? 0 then Some STEP_12_5
         else if strcmp "15" step_str =? 0 then Some STEP_15
         else if strcmp "20" step_str =? 0 then Some STEP_20
         else if strcmp "25" step_str =? 0 then Some STEP_25
         else if strcmp "50" step_str =? 0 then Some STEP_50
         else if strcmp "100" step_str =? 0 then Some STEP_100
         else None) with
  | None => reject ("Bad frequency step." ++ newline) m
  | Some step =>
  accept (setup_vfo m band rx_mhz tx_mhz tmode tone dcs power amfm step)
  end end end end end
| _ => reject EmptyString m
end.

(** [parse_pms(first_row, line)] *)
Definition parse_pms (m : memory) (first_row : Z) (line : string) : row_result :=
match scan_words 3 line with
| [num_str; lower_str; upper_str] =>
  let num := atoi num_str in
  if (num <? 1) || (num >? NPMS) then reject ("Bad PMS number." ++ newline) m else
  match scan_double lower_str with
  | None => reject ("Bad lower frequency." ++ newline) m
  | Some lower_mhz =>
  if is_valid_frequency lower_mhz =? 0
  then reject ("Bad lower frequency." ++ newline) m else
  match scan_double upper_str with
  | None => reject ("Bad upper frequency." ++ newline) m
  | Some upper_mhz =>
  if is_valid_frequency upper_mhz =? 0
  then reject ("Bad upper frequency." ++ newline) m else
  let m := if negb (first_row =? 0)
           then memset (memset m OFFSET_PMS 0xff (NPMS * 2 * sizeof_channel))
                       (OFFSET_FLAGS + Z.quot NCHAN 2) 0 NPMS
           else m in
  let m := setup_pms m (num * 2 - 2) lower_mhz in
  accept (setup_pms m (num * 2 - 1) upper_mhz)
  end end
| _ => reject EmptyString m
end.

End Tables.

(** The loop of [parse_banks] over the channel list: the image and the
    count [nchan] when the list is accepted, the image and the message when
    it is not. *)
Fixpoint bank_list (fuel : nat) (bnum : Z) (str : string) (range last nchan : Z)
  (m : memory) : result (memory * Z + memory * string) :=
match fuel with
| O => Spin
| S fuel' =>
  match strtoul str with
  | None =>
      Done (inr (m, "Bank " ++ fmt_d bnum ++ ": wrong channel list '" ++ str
                    ++ "'." ++ newline))
  | Some (v, eptr) =>
    let cnum := int32 v in
    if (cnum <? 1) || (cnum >? NCHAN) then
      Done (inr (m, "Bank " ++ fmt_d bnum ++ ": wrong channel number "
                    ++ fmt_d cnum ++ "." ++ newline))
    else
      st <- (if negb (range =? 0)
             then fold_left
                    (fun r c => st <- r ;;
                                m' <- setup_bank (fst st) (bnum - 1) c ;;
                                Done (m', snd st + 1))
                    (Z_range last cnum) (Done (m, nchan))
             else m' <- setup_bank m (bnum - 1) (cnum - 1) ;; Done (m', nchan + 1)) ;;
      match eptr with
      | EmptyString => Done (inl st)
      | String c rest =>
          if negb (code c =? 44) && negb (code c =? 45) then
            Done (inr (fst st, "Bank " ++ fmt_d bnum ++ ": wrong channel list '"
                               ++ eptr ++ "'." ++ newline))
          else bank_list fuel' bnum rest (c_bool (code c =? 45)) cnum (snd st) (fst st)
      end
  end
end.

(** [parse_banks(first_row, line)] *)
Definition parse_banks (m : memory) (first_row : Z) (line : string)
  : result row_result :=
match scan_words 2 line with
| [num_str; chan_str] =>
  let bnum := atoi num_str in
  if (bnum <? 1) || (bnum >? NBANKS) then Done (reject ("Bad bank number." ++ newline) m) else
  let m := if negb (first_row =? 0)
           then memset (memset (memset (memset m OFFSET_BANKS 0xff (NBANKS * 200))
                                       OFFSET_BNCHAN 0xff (NBANKS * 2))
                               OFFSET_BUSE1 0xff 2)
                       OFFSET_BUSE2 0xff 2
           else m in
  if char_at chan_str 0 =? 45 then Done (accept m)
  else
    r <- bank_list (S (String.length chan_str)) bnum chan_str 0 0 0 m ;;
    match r with
    | inr (m, msg) => Done (reject msg m)
    | inl (m, nchan) =>
        let m := store_u16 m (OFFSET_BNCHAN + (bnum - 1) * 2) (big_endian_16 (nchan - 1)) in
        let m := if nchan >? 0
                 then memset (memset m OFFSET_BUSE1 0 2) OFFSET_BUSE2 0 2
                 else m in
        Done (accept m)
    end
| _ => Done (reject EmptyString m)
end.

(** [vx2_parse_header(line)]: the table id, a character code. *)
Definition vx2_parse_header (line : string) : Z :=
if strncasecmp line "Channel" 7 =? 0 then 67
else if strncasecmp line "Home" 4 =? 0 then 72
else if strncasecmp line "VFO" 3 =? 0 then 86
else if strncasecmp line "PMS" 3 =? 0 then 80
else if strncasecmp line "Bank" 4 =? 0 then 66
else 0.

Section Rows.

Variables CTCSS_TONES DCS_CODES : list Z.
Variables scan_float scan_double : string -> option double.

(** [vx2_parse_row(table_id, first_row, line)] *)
Definition vx2_parse_row (m : memory) (table_id first_row : Z) (line : string)
  : result row_result :=
if table_id =? 67
then Done (parse_channel CTCSS_TONES DCS_CODES scan_float scan_double m first_row line)
else if table_id =? 72
then Done (parse_home CTCSS_TONES DCS_CODES scan_float scan_double m first_row line)
else if table_id =? 86
then Done (parse_vfo CTCSS_TONES DCS_CODES scan_float scan_double m first_row line)
else if table_id =? 80 then Done (parse_pms scan_double m first_row line)
else if table_id =? 66 then parse_banks m first_row line
else Done (reject EmptyString m).

End Rows.

(** The value of the line "Virtual Jumpers: %02x %02x %02x %02x" that
    [vx2_print_config] writes. *)
Definition jumpers_value (m : memory) : string :=
fmt_02x (load m 6) ++ " " ++ fmt_02x (load m 7) ++ " " ++ fmt_02x (load m 8)
  ++ " " ++ fmt_02x (load m 13).

(** [vx2_parse_parameter(param, value)]: what is written to [stderr] and
    the image, when the call returns. *)
Definition vx2_parse_parameter (m : memory) (param value : string)
  : result (string * memory) :=
if strcasecmp "Radio" param =? 0 then
  if negb (strcasecmp "Yaesu VX-2" value =? 0)
  then Halt (-1) ("Bad value for " ++ param ++ ": " ++ value ++ newline)
  else Done (EmptyString, m)
else if strcasecmp "Virtual Jumpers" param =? 0 then
  match scan_4x value with
  | None => Done ("Wrong value: " ++ param ++ " = " ++ value ++ newline, m)
  | Some (a, b, c, d) =>
      Done (EmptyString, store (store (store (store m 10 a) 11 b) 12 c) 13 d)
  end
else Halt (-1) ("Unknown parameter: " ++ param ++ " = " ++ value ++ newline).

(** *** Image files: the bytes of the file *)

(** [vx2_read_image(img)] *)
Definition vx2_read_image (m : memory) (img : list Z) : result memory :=
let (n, m) := fread m 0 (MEMSZ + 1) img in
if negb (n =? MEMSZ + 1) then Halt (-1) ("Error reading image data." ++ newline)
else Done m.

(** [vx2_save_image(img)]: what is written to the file. *)
Definition vx2_save_image (m : memory) : list Z :=
load_bytes m 0 (Z.to_nat (MEMSZ + 1)).

End VX2.

(** ** Notions the properties are stated and proved with *)






(** What an FT-60 sends in clone mode, as a script: nothing until the
    first read has timed out once, then the tag and two zero bytes, 447
    blocks of 64 bytes (all 1) and the checksum 5, each block followed by
    the echo 0x06 of the acknowledgement. *)
Definition ft60_sends : list event :=
Silence ::
map Byte (app [65; 72; 48; 49; 55; 36; 0; 0; 6]
              (app (List.concat (repeat (app (repeat 1 64) [6]) 447)) [5; 6])).

(** What a VX-2 sends: ten bytes with the tag and eight more, each group
    acknowledged, then 32576 bytes (all 1) and the checksum 0x83. *)
Definition vx2_sends : list event :=
Silence ::
map Byte (app [65; 72; 48; 49; 53; 36; 0; 0; 0; 0; 6]
              (app [0; 0; 0; 0; 0; 0; 0; 0; 6]
                   (app (repeat 1 (Z.to_nat 32576)) [0x83]))).

(** What either radio answers during an upload of an image of zeros: the
    echo of every block and 0x06 where an acknowledgement is due. *)
Definition ft60_answers : list event :=
map Byte (app (app (repeat 0 8) [6])
              (app (List.concat (repeat (app (repeat 0 64) [6]) 447)) [0; 6])).

Definition vx2_answers : list event :=
map Byte (app (app (repeat 0 10) [6])
              (app (app (repeat 0 8) [6]) (repeat 0 (Z.to_nat 32577)))).


Ltac rejected := split; reflexivity.

(** Channel names that survive the character sets. *)

(** The characters a channel name keeps through the FT-60's character
    set: digits, capital letters, the underscore (a space in the radio)
    and the punctuation of the set. *)
Definition ft60_keeps (c : ascii) : bool :=
isdigit c || ((65 <=? code c) && (code c <=? 90))
|| existsb (fun p => code p =? code c)
           (list_ascii_of_string "!`$%&'()*+,-./|;=>?@[~]^_").

(** The same for the VX-2. *)
Definition vx2_keeps (c : ascii) : bool :=
isdigit c || ((65 <=? code c) && (code c <=? 90))
|| existsb (fun p => code p =? code c) (list_ascii_of_string "+-/[]_").

(** A name of one to six such characters that neither starts with a
    dash, which stands for no name, nor ends with an underscore, which is
    a trailing space. *)
Definition kept_name (keeps : ascii -> bool) (s : string) : bool :=
let l := list_ascii_of_string s in
(1 <=? Z.of_nat (List.length l)) && (Z.of_nat (List.length l) <=? 6)
&& forallb keeps l
&& negb (code (hd Space l) =? 45)
&& negb (code (List.last l Space) =? 95).

(** * Properties *)

(** ** Memory *)

Section MemoryFacts.

Variable m : memory.

Lemma uint8_range (v : Z) : 0 <= uint8 v < 256.
Proof. unfold uint8. apply Z.mod_pos_bound. lia. Qed.

Lemma uint8_small (v : Z) : 0 <= v < 256 -> uint8 v = v.
Proof. intros H. unfold uint8. apply Z.mod_small. exact H. Qed.

Lemma load_range (a : Z) : 0 <= load m a < 256.
Proof. apply uint8_range. Qed.

Lemma load_store_same (a v : Z) : load (store m a v) a = uint8 v.
Proof.
unfold load, store. rewrite Z.eqb_refl.
apply uint8_small, uint8_range.
Qed.

Lemma load_store_other (a b v : Z) : a <> b -> load (store m a v) b = load m b.
Proof.
intros Hab. unfold load, store.
destruct (Z.eqb_spec b a) as [E | _]; [ congruence | reflexivity ].
Qed.

Lemma load_memset_inside (a c n x : Z) :
  a <= x < a + n -> load (memset m a c n) x = uint8 c.
Proof.
intros [Hlo Hhi]. unfold load, memset.
apply Z.leb_le in Hlo. apply Z.ltb_lt in Hhi. rewrite Hlo, Hhi. simpl.
apply uint8_small, uint8_range.
Qed.


End MemoryFacts.

Lemma sum_bytes_agree (m1 m2 : memory) (n : nat) :
  forall a,
    (forall x, a <= x < a + Z.of_nat n -> load m1 x = load m2 x) ->
    sum_bytes m1 a n = sum_bytes m2 a n.
Proof.
induction n as [| n IH]; intros a Hagree.
- reflexivity.
- cbn [sum_bytes]. rewrite (Hagree a) by lia.
  rewrite (IH (a + 1)); [ reflexivity | ].
  intros x Hx. apply Hagree. lia.
Qed.

(** ** Case analysis on a small integer, settled by evaluation *)

Lemma below_forallb (f : Z -> bool) (n : nat) :
  forallb (fun k => f (Z.of_nat k)) (seq 0 n) = true ->
  forall z, 0 <= z < Z.of_nat n -> f z = true.
Proof.
intros Hall z Hz. rewrite forallb_forall in Hall.
specialize (Hall (Z.to_nat z)).
rewrite Z2Nat.id in Hall by lia.
apply Hall, in_seq. lia.
Qed.

(** A byte packed from two decimal digits gives both back. *)
Lemma nibbles_of_byte (hi lo : Z) :
  0 <= hi < 16 -> 0 <= lo < 16 ->
  Z.shiftr (uint8 (Z.lor (Z.shiftl hi 4) lo)) 4 = hi /\
  Z.land (uint8 (Z.lor (Z.shiftl hi 4) lo)) 15 = lo.
Proof.
intros Hhi Hlo.
pose (f := fun hi lo =>
  (Z.shiftr (uint8 (Z.lor (Z.shiftl hi 4) lo)) 4 =? hi) &&
  (Z.land (uint8 (Z.lor (Z.shiftl hi 4) lo)) 15 =? lo)).
assert (Hf : f hi lo = true).
{ apply (below_forallb (fun hi => forallb (fun k => f hi (Z.of_nat k)) (seq 0 16)) 16)
    with (z := hi) in Hhi; [ | vm_compute; reflexivity ].
  apply (below_forallb (f hi) 16); assumption. }
unfold f in Hf. apply andb_prop in Hf. destruct Hf as [H1 H2].
apply Z.eqb_eq in H1. apply Z.eqb_eq in H2. split; assumption.
Qed.

(** The first byte of an FT-60 frequency: two bits of 2500 Hz steps above
    one decimal digit. *)
Lemma steps_and_digit (q d : Z) :
  0 <= q < 4 -> 0 <= d < 16 ->
  Z.shiftr (uint8 (Z.lor (Z.shiftl q 6) d)) 6 = q /\
  Z.land (uint8 (Z.lor (Z.shiftl q 6) d)) 15 = d.
Proof.
intros Hq Hd.
pose (f := fun q d =>
  (Z.shiftr (uint8 (Z.lor (Z.shiftl q 6) d)) 6 =? q) &&
  (Z.land (uint8 (Z.lor (Z.shiftl q 6) d)) 15 =? d)).
assert (Hf : f q d = true).
{ apply (below_forallb (fun q => forallb (fun k => f q (Z.of_nat k)) (seq 0 16)) 4)
    with (z := q) in Hq; [ | vm_compute; reflexivity ].
  apply (below_forallb (f q) 16); assumption. }
unfold f in Hf. apply andb_prop in Hf. destruct Hf as [H1 H2].
apply Z.eqb_eq in H1. apply Z.eqb_eq in H2. split; assumption.
Qed.

Lemma land_15_small (d : Z) : 0 <= d < 16 -> Z.land d 15 = d.
Proof.
intros Hd. change 15 with (Z.ones 4).
rewrite Z.land_ones by lia. apply Z.mod_small. exact Hd.
Qed.

(** The decimal digits of a number below 10^6 build it up again. *)
Lemma six_digits (k : Z) :
  0 <= k < 1000000 ->
  (((((k / 100000) mod 10 * 10 + (k / 10000) mod 10) * 10 + (k / 1000) mod 10) * 10
     + (k / 100) mod 10) * 10 + (k / 10) mod 10) * 10 + k mod 10 = k.
Proof.
intros Hk.
replace (k / 100) with (k / 10 / 10) by (rewrite Z.div_div by lia; reflexivity).
replace (k / 1000) with (k / 10 / 10 / 10) by (rewrite !Z.div_div by lia; reflexivity).
replace (k / 10000) with (k / 10 / 10 / 10 / 10) by (rewrite !Z.div_div by lia; reflexivity).
replace (k / 100000) with (k / 10 / 10 / 10 / 10 / 10)
  by (rewrite !Z.div_div by lia; reflexivity).
pose proof (Z.div_mod k 10).
pose proof (Z.div_mod (k / 10) 10).
pose proof (Z.div_mod (k / 10 / 10) 10).
pose proof (Z.div_mod (k / 10 / 10 / 10) 10).
pose proof (Z.div_mod (k / 10 / 10 / 10 / 10) 10).
pose proof (Z.mod_pos_bound k 10).
pose proof (Z.mod_pos_bound (k / 10) 10).
pose proof (Z.mod_pos_bound (k / 10 / 10) 10).
pose proof (Z.mod_pos_bound (k / 10 / 10 / 10) 10).
pose proof (Z.mod_pos_bound (k / 10 / 10 / 10 / 10) 10).
assert (Hsmall : (k / 10 / 10 / 10 / 10 / 10) mod 10 = k / 10 / 10 / 10 / 10 / 10).
{ apply Z.mod_small. rewrite !Z.div_div by lia. split.
  - apply Z.div_pos; lia.
  - apply Z.div_lt_upper_bound; lia. }
rewrite Hsmall.
pose proof (Z.div_mod (k / 10 / 10 / 10 / 10) 10).
lia.
Qed.

(** ** Frequencies *)

(** The three bytes [hz_to_freq] leaves at [bcd]. *)
Lemma ft60_hz_to_freq_bytes (m : memory) (bcd hz : Z) :
  let m' := FT60.hz_to_freq hz m bcd in
  load m' bcd =
    uint8 (Z.lor (Z.shiftl (Z.rem (Z.quot hz 2500) 4) 6) (Z.rem (Z.quot hz 100000000) 10)) /\
  load m' (bcd + 1) =
    uint8 (Z.lor (Z.shiftl (Z.rem (Z.quot hz 10000000) 10) 4) (Z.rem (Z.quot hz 1000000) 10)) /\
  load m' (bcd + 2) =
    uint8 (Z.lor (Z.shiftl (Z.rem (Z.quot hz 100000) 10) 4) (Z.rem (Z.quot hz 10000) 10)).
Proof.
unfold FT60.hz_to_freq. cbv zeta. repeat split.
- rewrite !load_store_other by lia. apply load_store_same.
- rewrite load_store_other by lia. apply load_store_same.
- apply load_store_same.
Qed.

Lemma ft60_freq_roundtrip (m : memory) (bcd hz : Z) :
  0 <= hz < 1000000000 -> hz mod 2500 = 0 ->
  FT60.freq_to_hz (FT60.hz_to_freq hz m bcd) bcd = hz.
Proof.
intros Hrange Hstep.
destruct (ft60_hz_to_freq_bytes m bcd hz) as (B0 & B1 & B2).
unfold FT60.freq_to_hz. cbv zeta. rewrite B0, B1, B2.
rewrite !Z.rem_mod_nonneg, !Z.quot_div_nonneg by
  (try apply Z.quot_pos; lia).
assert (Hdigit : forall c, 0 < c -> 0 <= (hz / c) mod 10 < 16).
{ intros c Hc. pose proof (Z.mod_pos_bound (hz / c) 10). lia. }
destruct (steps_and_digit (hz / 2500 mod 4) (hz / 100000000 mod 10)) as [Q D8];
  [ apply Z.mod_pos_bound; lia | apply Hdigit; lia | ].
destruct (nibbles_of_byte (hz / 10000000 mod 10) (hz / 1000000 mod 10)) as [D7 D6];
  [ apply Hdigit; lia | apply Hdigit; lia | ].
destruct (nibbles_of_byte (hz / 100000 mod 10) (hz / 10000 mod 10)) as [D5 D4];
  [ apply Hdigit; lia | apply Hdigit; lia | ].
rewrite Q, D8, D7, D6, D5, D4.
rewrite !land_15_small by (apply Hdigit; lia).
set (k := hz / 10000).
assert (Hk : 0 <= k < 1000000).
{ subst k. split; [ apply Z.div_pos; lia | apply Z.div_lt_upper_bound; lia ]. }
pose proof (six_digits k Hk) as Hsix.
replace (hz / 100000000) with (k / 10000)
  by (subst k; rewrite Z.div_div by lia; reflexivity).
replace (hz / 10000000) with (k / 1000)
  by (subst k; rewrite Z.div_div by lia; reflexivity).
replace (hz / 1000000) with (k / 100)
  by (subst k; rewrite Z.div_div by lia; reflexivity).
replace (hz / 100000) with (k / 10)
  by (subst k; rewrite Z.div_div by lia; reflexivity).
assert (Htop : (k / 100000) mod 10 = 0).
{ rewrite Z.div_small; [ reflexivity | ]. subst k. split.
  - apply Z.div_pos; lia.
  - apply Z.div_lt_upper_bound; lia. }
rewrite Htop in Hsix.
assert (Hk4 : k = hz / 2500 / 4)
  by (subst k; rewrite Z.div_div by lia; reflexivity).
pose proof (Z.div_mod (hz / 2500) 4).
pose proof (Z.div_mod hz 2500).
lia.
Qed.

Lemma vx2_hz_to_freq_bytes (m : memory) (bcd hz : Z) :
  hz <> 0 ->
  let m' := VX2.hz_to_freq hz m bcd in
  load m' bcd =
    uint8 (Z.lor (Z.shiftl (Z.rem (Z.quot hz 100000000) 10) 4) (Z.rem (Z.quot hz 10000000) 10)) /\
  load m' (bcd + 1) =
    uint8 (Z.lor (Z.shiftl (Z.rem (Z.quot hz 1000000) 10) 4) (Z.rem (Z.quot hz 100000) 10)) /\
  load m' (bcd + 2) =
    uint8 (Z.lor (Z.shiftl (Z.rem (Z.quot hz 10000) 10) 4) (Z.rem (Z.quot hz 1000) 10)).
Proof.
intros Hnz. unfold VX2.hz_to_freq.
destruct (Z.eqb_spec hz 0) as [E | _]; [ contradiction | ].
cbv zeta. repeat split.
- rewrite !load_store_other by lia. apply load_store_same.
- rewrite load_store_other by lia. apply load_store_same.
- apply load_store_same.
Qed.

(** What the decoder makes of an encoded frequency: the kHz value, and
    500 Hz more when its last digit is 2 or 7. *)
Lemma vx2_freq_decode_encode (m : memory) (bcd hz : Z) :
  0 < hz < 1000000000 ->
  VX2.freq_to_hz (VX2.hz_to_freq hz m bcd) bcd =
    let k := hz / 1000 in
    if (k mod 10 =? 2) || (k mod 10 =? 7) then k * 1000 + 500 else k * 1000.
Proof.
intros Hrange.
destruct (vx2_hz_to_freq_bytes m bcd hz) as (B0 & B1 & B2); [ lia | ].
unfold VX2.freq_to_hz. cbv zeta. rewrite B0, B1, B2.
rewrite !Z.rem_mod_nonneg, !Z.quot_div_nonneg by
  (try apply Z.quot_pos; lia).
assert (Hdigit : forall c, 0 < c -> 0 <= (hz / c) mod 10 < 16).
{ intros c Hc. pose proof (Z.mod_pos_bound (hz / c) 10). lia. }
destruct (nibbles_of_byte (hz / 100000000 mod 10) (hz / 10000000 mod 10)) as [D8 D7];
  [ apply Hdigit; lia | apply Hdigit; lia | ].
destruct (nibbles_of_byte (hz / 1000000 mod 10) (hz / 100000 mod 10)) as [D6 D5];
  [ apply Hdigit; lia | apply Hdigit; lia | ].
destruct (nibbles_of_byte (hz / 10000 mod 10) (hz / 1000 mod 10)) as [D4 D3];
  [ apply Hdigit; lia | apply Hdigit; lia | ].
rewrite D8, D7, D6, D5, D4, D3.
set (k := hz / 1000).
assert (Hk : 0 <= k < 1000000).
{ subst k. split; [ apply Z.div_pos; lia | apply Z.div_lt_upper_bound; lia ]. }
pose proof (six_digits k Hk) as Hsix.
replace (hz / 100000000) with (k / 100000)
  by (subst k; rewrite Z.div_div by lia; reflexivity).
replace (hz / 10000000) with (k / 10000)
  by (subst k; rewrite Z.div_div by lia; reflexivity).
replace (hz / 1000000) with (k / 1000)
  by (subst k; rewrite Z.div_div by lia; reflexivity).
replace (hz / 100000) with (k / 100)
  by (subst k; rewrite Z.div_div by lia; reflexivity).
replace (hz / 10000) with (k / 10)
  by (subst k; rewrite Z.div_div by lia; reflexivity).
rewrite Hsix. reflexivity.
Qed.

(** C1, as amended.  Encoding a frequency with [hz_to_freq] and decoding
    the three bytes with [freq_to_hz] gives the frequency back for every
    value below 10^9 Hz (the six decimal digits the bytes hold) of the
    following shapes.  FT-60: every non-negative multiple of 2500 Hz.
    VX-2: every positive multiple of 1000 Hz whose kHz value does not end
    in 2 or 7, and every value K*1000+500 where K ends in 2 or 7. *)
Theorem freq_roundtrip :
  (forall (m : memory) (bcd hz : Z),
      0 <= hz < 1000000000 -> hz mod 2500 = 0 ->
      FT60.freq_to_hz (FT60.hz_to_freq hz m bcd) bcd = hz) /\
  (forall (m : memory) (bcd hz : Z),
      0 < hz < 1000000000 ->
      (hz mod 1000 = 0 /\ (hz / 1000) mod 10 <> 2 /\ (hz / 1000) mod 10 <> 7) \/
      (hz mod 1000 = 500 /\ ((hz / 1000) mod 10 = 2 \/ (hz / 1000) mod 10 = 7)) ->
      VX2.freq_to_hz (VX2.hz_to_freq hz m bcd) bcd = hz).
Proof.
split.
- exact ft60_freq_roundtrip.
- intros m bcd hz Hrange Hshape.
  rewrite vx2_freq_decode_encode by exact Hrange. cbv zeta.
  pose proof (Z.div_mod hz 1000) as Hdm.
  destruct Hshape as [(Hm & H2 & H7) | (Hm & Hlast)].
  + destruct (Z.eqb_spec ((hz / 1000) mod 10) 2) as [E | _]; [ contradiction | ].
    destruct (Z.eqb_spec ((hz / 1000) mod 10) 7) as [E | _]; [ contradiction | ].
    simpl. lia.
  + assert (Hor : ((hz / 1000) mod 10 =? 2) || ((hz / 1000) mod 10 =? 7) = true).
    { apply orb_true_iff. destruct Hlast as [E | E]; [ left | right ];
        apply Z.eqb_eq; exact E. }
    rewrite Hor. lia.
Qed.

(** Witness of C1: 446.0075 MHz on the FT-60; 146.520 MHz and
    146.5225 MHz on the VX-2. *)
Lemma freq_roundtrip_witness :
  FT60.freq_to_hz (FT60.hz_to_freq 446007500 (fun _ => 0) 0x248) 0x248 = 446007500 /\
  VX2.freq_to_hz (VX2.hz_to_freq 146520000 (fun _ => 0) 0x17c4) 0x17c4 = 146520000 /\
  VX2.freq_to_hz (VX2.hz_to_freq 146522500 (fun _ => 0) 0x17c4) 0x17c4 = 146522500.
Proof.
split; [ | split ].
- apply (proj1 freq_roundtrip); [ lia | reflexivity ].
- apply (proj2 freq_roundtrip); [ lia | ].
  left. repeat split; vm_compute; discriminate.
- apply (proj2 freq_roundtrip); [ lia | ].
  right. split; [ reflexivity | left; reflexivity ].
Defined.

(** Counterexample to C1 as first stated, which bounds the FT-60 values
    by 10^9 Hz and the VX-2 values not at all.  On the VX-2, 1000.001 MHz
    is a non-zero multiple of 1000 Hz whose kHz value ends in 1; its
    seventh decimal digit does not fit the three bytes, and it decodes as
    1 kHz.  So does every value of ten digits; a negative multiple of
    1000 Hz is not given back either (-1 kHz decodes as 165 kHz). *)
Lemma freq_roundtrip_needs_range :
  (1000001000 <> 0 /\ 1000001000 mod 1000 = 0 /\ (1000001000 / 1000) mod 10 = 1) /\
  VX2.freq_to_hz (VX2.hz_to_freq 1000001000 (fun _ => 0) 0x17c4) 0x17c4 = 1000 /\
  VX2.freq_to_hz (VX2.hz_to_freq (-1000) (fun _ => 0) 0x17c4) 0x17c4 = 165000 /\
  ~ (forall (m : memory) (bcd hz : Z),
        hz <> 0 -> hz mod 1000 = 0 ->
        (hz / 1000) mod 10 <> 2 -> (hz / 1000) mod 10 <> 7 ->
        VX2.freq_to_hz (VX2.hz_to_freq hz m bcd) bcd = hz).
Proof.
split; [ | split; [ | split ] ].
- split; [ discriminate | split; reflexivity ].
- reflexivity.
- reflexivity.
- intros Hall. specialize (Hall (fun _ => 0) 0x17c4 1000001000).
  assert (Hdecoded : VX2.freq_to_hz (VX2.hz_to_freq 1000001000 (fun _ => 0) 0x17c4) 0x17c4
                     = 1000) by reflexivity.
  rewrite Hdecoded in Hall.
  assert (Habsurd : 1000 = 1000001000).
  { apply Hall; [ discriminate | reflexivity | vm_compute; discriminate
                | vm_compute; discriminate ]. }
  discriminate Habsurd.
Qed.

(** ** Compatibility check *)

(** [strncmp] against a string with no NUL among its first [n] characters
    is 0 exactly when the other side matches on all [n]. *)
Lemma strncmp_at_zero_iff (s1 s2 : Z -> Z) (n : nat) :
  forall i,
    (forall k, 0 <= k < Z.of_nat n -> s1 (i + k) <> 0) ->
    (strncmp_at s1 s2 i n = 0 <->
     forall k, 0 <= k < Z.of_nat n -> s2 (i + k) = s1 (i + k)).
Proof.
induction n as [| n IH]; intros i Hnz.
- simpl. split; [ intros _ k Hk; lia | reflexivity ].
- cbn [strncmp_at]. cbv zeta.
  assert (H0 : s1 i <> 0).
  { specialize (Hnz 0). rewrite Z.add_0_r in Hnz. apply Hnz. lia. }
  destruct (Z.eqb_spec (s1 i) (s2 i)) as [E | NE].
  + destruct (Z.eqb_spec (s1 i) 0) as [Z0 | _]; [ contradiction | ].
    rewrite IH.
    * split; intros Hall k Hk.
      -- destruct (Z.eq_dec k 0) as [-> | Hk0].
         ++ rewrite Z.add_0_r. symmetry. exact E.
         ++ replace (i + k) with (i + 1 + (k - 1)) by lia. apply Hall. lia.
      -- replace (i + 1 + k) with (i + (k + 1)) by lia. apply Hall. lia.
    * intros k Hk. replace (i + 1 + k) with (i + (k + 1)) by lia. apply Hnz. lia.
  + split.
    * intros Hdiff. lia.
    * intros Hall. exfalso. apply NE. symmetry.
      specialize (Hall 0). rewrite Z.add_0_r in Hall. apply Hall. lia.
Qed.

(** The first six bytes of the image equal the six characters of [tag]. *)
Lemma tag_bytes_iff (tag : string) (m : memory) :
  String.length tag = 6%nat ->
  (forall k, 0 <= k < 6 -> load m k = literal tag k) <->
  load_bytes m 0 6 = map (fun k => literal tag (Z.of_nat k)) (seq 0 6).
Proof.
intros _.
change (load_bytes m 0 6)
  with [load m 0; load m 1; load m 2; load m 3; load m 4; load m 5].
change (map (fun k => literal tag (Z.of_nat k)) (seq 0 6))
  with [literal tag 0; literal tag 1; literal tag 2; literal tag 3;
        literal tag 4; literal tag 5].
split.
- intros Hall.
  rewrite (Hall 0), (Hall 1), (Hall 2), (Hall 3), (Hall 4), (Hall 5) by lia.
  reflexivity.
- intros Heq k Hk. injection Heq as E0 E1 E2 E3 E4 E5.
  assert (Hcases : k = 0 \/ k = 1 \/ k = 2 \/ k = 3 \/ k = 4 \/ k = 5) by lia.
  destruct Hcases as [-> | [-> | [-> | [-> | [-> | ->]]]]]; assumption.
Qed.

(** C8.  The compatibility check of each radio answers true exactly when
    the first six bytes of the image are the radio's tag, "AH017$" for the
    FT-60 and "AH015$" for the VX-2; an image that differs in any of the
    six bytes is answered false. *)
Theorem is_compatible_iff_tag (m : memory) :
  (FT60.ft60_is_compatible m = 1 <->
   load_bytes m 0 6 = map code (list_ascii_of_string "AH017$")) /\
  (FT60.ft60_is_compatible m = 0 <->
   load_bytes m 0 6 <> map code (list_ascii_of_string "AH017$")) /\
  (VX2.vx2_is_compatible m = 1 <->
   load_bytes m 0 6 = map code (list_ascii_of_string "AH015$")) /\
  (VX2.vx2_is_compatible m = 0 <->
   load_bytes m 0 6 <> map code (list_ascii_of_string "AH015$")).
Proof.
assert (Hft : strncmp (literal "AH017$") (load m) 6 = 0 <->
              load_bytes m 0 6 = map code (list_ascii_of_string "AH017$")).
{ unfold strncmp. rewrite strncmp_at_zero_iff.
  - apply (tag_bytes_iff "AH017$"). reflexivity.
  - intros k Hk.
    assert (Hcases : k = 0 \/ k = 1 \/ k = 2 \/ k = 3 \/ k = 4 \/ k = 5) by lia.
    destruct Hcases as [-> | [-> | [-> | [-> | [-> | ->]]]]]; vm_compute; discriminate. }
assert (Hvx : strncmp (literal "AH015$") (load m) 6 = 0 <->
              load_bytes m 0 6 = map code (list_ascii_of_string "AH015$")).
{ unfold strncmp. rewrite strncmp_at_zero_iff.
  - apply (tag_bytes_iff "AH015$"). reflexivity.
  - intros k Hk.
    assert (Hcases : k = 0 \/ k = 1 \/ k = 2 \/ k = 3 \/ k = 4 \/ k = 5) by lia.
    destruct Hcases as [-> | [-> | [-> | [-> | [-> | ->]]]]]; vm_compute; discriminate. }
unfold FT60.ft60_is_compatible, VX2.vx2_is_compatible, c_bool.
destruct (Z.eqb_spec (strncmp (literal "AH017$") (load m) 6) 0) as [E1 | N1];
destruct (Z.eqb_spec (strncmp (literal "AH015$") (load m) 6) 0) as [E2 | N2];
repeat split; intros H; try discriminate; try reflexivity; try tauto.
Qed.

(** ** Decoding channels *)

(** C3.  A memory channel or PMS channel that is marked unused decodes to
    zeros in every field and, when the caller asks for the name, to the
    empty name.  FT-60: the [used] bit of the record is 0.  VX-2: the
    channel's [FLAG_VALID] flag is clear (the flags of PMS channel [i] are
    kept at index [NCHAN + i]). *)
Theorem decode_unused_channel :
  (forall (tones codes : list Z) (m : memory) (i seek : Z) (with_name : bool),
      seek = FT60.OFFSET_CHANNELS \/ seek = FT60.OFFSET_PMS ->
      FT60.ch_used m (seek + i * FT60.sizeof_channel) = 0 ->
      FT60.decode_channel tones codes m i seek with_name =
        FT60.mk_channel (if with_name then Some EmptyString else None)
                        0 0 0 0 0 0 0 0 0 0 0) /\
  (forall (tones codes : list Z) (m : memory) (i seek : Z) (with_name : bool),
      seek = VX2.OFFSET_CHANNELS \/ seek = VX2.OFFSET_PMS ->
      Z.land (VX2.get_flags m (i + (if seek =? VX2.OFFSET_PMS then VX2.NCHAN else 0)))
             VX2.FLAG_VALID = 0 ->
      VX2.decode_channel tones codes m i seek with_name =
        VX2.mk_channel (if with_name then Some EmptyString else None)
                       0 0 0 0 0 0 0 0 0 0).
Proof.
split; intros tones codes m i seek with_name Hseek Hunused.
- unfold FT60.decode_channel. cbv zeta.
  rewrite Hunused, Z.eqb_refl.
  destruct Hseek as [-> | ->]; reflexivity.
- unfold VX2.decode_channel. cbv zeta.
  rewrite Hunused, Z.eqb_refl.
  destruct Hseek as [-> | ->]; reflexivity.
Qed.

(** Witness of C3: an FT-60 image whose every byte is 0x7f (bit 7, the
    [used] bit, clear and all other bits set), read at memory channel 5
    and PMS channel 3; a VX-2 image whose every byte is 0xdd (both flag
    nibbles 1101, [FLAG_VALID] clear). *)
Lemma decode_unused_channel_witness :
  FT60.decode_channel [885] [23] (fun _ => 0x7f) 5 FT60.OFFSET_CHANNELS true =
    FT60.mk_channel (Some EmptyString) 0 0 0 0 0 0 0 0 0 0 0 /\
  FT60.decode_channel [885] [23] (fun _ => 0x7f) 3 FT60.OFFSET_PMS false =
    FT60.mk_channel None 0 0 0 0 0 0 0 0 0 0 0 /\
  VX2.decode_channel [885] [23] (fun _ => 0xdd) 5 VX2.OFFSET_CHANNELS true =
    VX2.mk_channel (Some EmptyString) 0 0 0 0 0 0 0 0 0 0 /\
  VX2.decode_channel [885] [23] (fun _ => 0xdd) 3 VX2.OFFSET_PMS false =
    VX2.mk_channel None 0 0 0 0 0 0 0 0 0 0.
Proof.
split; [ | split; [ | split ] ].
- apply (proj1 decode_unused_channel); [ left; reflexivity | reflexivity ].
- apply (proj1 decode_unused_channel); [ right; reflexivity | reflexivity ].
- apply (proj2 decode_unused_channel); [ left; reflexivity | reflexivity ].
- apply (proj2 decode_unused_channel); [ right; reflexivity | reflexivity ].
Defined.

(** C9.  A used FT-60 channel whose duplex field is [D_POS_OFFSET] decodes
    to a transmit frequency of the receive frequency plus 50 kHz times the
    offset byte; with a receive frequency of 146.520 MHz and an offset
    byte of 12 that is 147.120 MHz.  (The [used] bit is looked at for
    memory and PMS channels only.) *)
Theorem decode_positive_offset :
  forall (tones codes : list Z) (m : memory) (i seek : Z) (with_name : bool),
    let ch := seek + i * FT60.sizeof_channel in
    let c := FT60.decode_channel tones codes m i seek with_name in
    FT60.ch_used m ch <> 0 ->
    FT60.ch_duplex m ch = FT60.D_POS_OFFSET ->
    FT60.tx_hz c = FT60.rx_hz c + FT60.ch_offset m ch * 50000 /\
    FT60.rx_hz c = FT60.freq_to_hz m (FT60.ch_rxfreq ch) /\
    (FT60.rx_hz c = 146520000 -> FT60.ch_offset m ch = 12 ->
     FT60.tx_hz c = 147120000).
Proof.
intros tones codes m i seek with_name ch c Hused Hduplex.
assert (Htx : FT60.tx_hz c = FT60.rx_hz c + FT60.ch_offset m ch * 50000 /\
              FT60.rx_hz c = FT60.freq_to_hz m (FT60.ch_rxfreq ch)).
{ subst c. unfold FT60.decode_channel. cbv zeta. fold ch.
  destruct (Z.eqb_spec (FT60.ch_used m ch) 0) as [E | _]; [ contradiction | ].
  cbn [andb]. rewrite Hduplex.
  destruct (FT60.ch_tmode m ch =? FT60.T_TONE);
    [ | destruct (FT60.ch_tmode m ch =? FT60.T_TSQL);
    [ | destruct (FT60.ch_tmode m ch =? FT60.T_TSQL_REV);
    [ | destruct (FT60.ch_tmode m ch =? FT60.T_DTCS);
    [ | destruct (FT60.ch_tmode m ch =? FT60.T_D);
    [ | destruct (FT60.ch_tmode m ch =? FT60.T_T_DCS);
    [ | destruct (FT60.ch_tmode m ch =? FT60.T_D_TSQL) ] ] ] ] ] ];
    split; reflexivity. }
destruct Htx as [Htx Hrx]. repeat split; try assumption.
intros Hrx146 Hoff. rewrite Htx, Hrx146, Hoff. reflexivity.
Qed.

(** Witness of C9: channel 1 of an image whose record reads
    [83 01 46 52 .. 0c ..]: used, positive offset, 146.520 MHz, offset
    byte 12. *)
Lemma decode_positive_offset_witness :
  FT60.tx_hz
    (FT60.decode_channel [885] [23]
       (store_bytes (fun _ => 0) FT60.OFFSET_CHANNELS
          [0x83; 0x01; 0x46; 0x52; 0; 0; 0; 0; 0; 0; 0; 0; 12; 0; 0; 0])
       0 FT60.OFFSET_CHANNELS true) = 147120000.
Proof.
destruct (decode_positive_offset [885] [23]
            (store_bytes (fun _ => 0) FT60.OFFSET_CHANNELS
               [0x83; 0x01; 0x46; 0x52; 0; 0; 0; 0; 0; 0; 0; 0; 12; 0; 0; 0])
            0 FT60.OFFSET_CHANNELS true) as (_ & _ & Hscenario).
- vm_compute. discriminate.
- reflexivity.
- apply Hscenario; reflexivity.
Defined.

(** ** Short reads in [read_block] *)

(** C7.  When the serial line delivers fewer bytes than [read_block] asks
    for, the call with [start = 0] returns 0 and the process goes on; with
    [start <> 0] the process exits with the message "Reading block
    0x<start>: got only <len> bytes.".  On the VX-2 this holds for every
    chunk of the block, [start] being the offset the loop has reached. *)
Theorem read_block_short_read :
  (forall (w : world) (start data nbytes : Z),
      let got := fst (serial_read (radio_port w) nbytes) in
      let len := Z.of_nat (List.length got) in
      len <> nbytes ->
      (start = 0 ->
       exists w', FT60.read_block w start data nbytes = Done (0, w') /\
                  radio_mem w' = store_bytes (radio_mem w) data got) /\
      (start <> 0 ->
       FT60.read_block w start data nbytes = Halt (-1) (short_read_message start len))) /\
  (forall (chunks : nat) (need_ack : bool) (w : world) (start data datalen : Z),
      let nbytes := if datalen <? 64 then datalen else 64 in
      let got := fst (serial_read (radio_port w) nbytes) in
      let len := Z.of_nat (List.length got) in
      len <> nbytes ->
      (start = 0 ->
       exists w', VX2.read_chunks (S chunks) need_ack w start data datalen = Done (0, w') /\
                  radio_mem w' = store_bytes (radio_mem w) data got) /\
      (start <> 0 ->
       VX2.read_chunks (S chunks) need_ack w start data datalen =
         Halt (-1) (short_read_message start len))) /\
  (forall (w : world) (start data datalen : Z),
      let nbytes := if datalen <? 64 then datalen else 64 in
      let got := fst (serial_read (radio_port w) nbytes) in
      let len := Z.of_nat (List.length got) in
      len <> nbytes ->
      (start = 0 ->
       exists w', VX2.read_block w start data datalen = Done (0, w') /\
                  radio_mem w' = store_bytes (radio_mem w) data got) /\
      (start <> 0 ->
       VX2.read_block w start data datalen = Halt (-1) (short_read_message start len))).
Proof.
assert (Hvx : forall (chunks : nat) (need_ack : bool) (w : world) (start data datalen : Z),
      let nbytes := if datalen <? 64 then datalen else 64 in
      let got := fst (serial_read (radio_port w) nbytes) in
      let len := Z.of_nat (List.length got) in
      len <> nbytes ->
      (start = 0 ->
       exists w', VX2.read_chunks (S chunks) need_ack w start data datalen = Done (0, w') /\
                  radio_mem w' = store_bytes (radio_mem w) data got) /\
      (start <> 0 ->
       VX2.read_chunks (S chunks) need_ack w start data datalen =
         Halt (-1) (short_read_message start len))).
{ intros chunks need_ack w start data datalen nbytes got len Hshort.
  subst len got. cbn [VX2.read_chunks]. fold nbytes.
  destruct (serial_read (radio_port w) nbytes) as [got p] eqn:Hread.
  cbn [fst] in *.
  destruct (Z.eqb_spec (Z.of_nat (List.length got)) nbytes) as [E | _];
    [ contradiction | ].
  cbn [negb]. split.
  - intros ->. rewrite Z.eqb_refl. eexists. split; reflexivity.
  - intros Hstart.
    destruct (Z.eqb_spec start 0) as [E | _]; [ contradiction | ].
    reflexivity. }
split; [ | split ].
- intros w start data nbytes got len Hshort.
  subst len got. unfold FT60.read_block.
  destruct (serial_read (radio_port w) nbytes) as [got p] eqn:Hread.
  cbn [fst] in *.
  destruct (Z.eqb_spec (Z.of_nat (List.length got)) nbytes) as [E | _];
    [ contradiction | ].
  cbn [negb]. split.
  + intros ->. rewrite Z.eqb_refl. eexists. split; reflexivity.
  + intros Hstart.
    destruct (Z.eqb_spec start 0) as [E | _]; [ contradiction | ].
    reflexivity.
- exact Hvx.
- intros w start data datalen. unfold VX2.read_block. apply Hvx.
Qed.

(** Witness of C7: the radio sends two bytes and falls silent while eight
    (FT-60) or ten (VX-2) are awaited; at offset 0 the call returns 0, at
    offset 0x48 the process exits naming that offset. *)
Lemma read_block_short_read_witness :
  let w := mk_world (fun _ => 0) (mk_port [Byte 65; Byte 72; Silence] []) 0 false in
  (exists w', FT60.read_block w 0 0 8 = Done (0, w') /\
              radio_mem w' = store_bytes (radio_mem w) 0 [65; 72]) /\
  FT60.read_block w 0x48 0x48 8 =
    Halt (-1) ("Reading block 0x0048: got only 2 bytes." ++ newline) /\
  (exists w', VX2.read_block w 0 0 10 = Done (0, w') /\
              radio_mem w' = store_bytes (radio_mem w) 0 [65; 72]) /\
  VX2.read_block w 0x48 0x48 10 =
    Halt (-1) ("Reading block 0x0048: got only 2 bytes." ++ newline).
Proof.
intros w.
destruct read_block_short_read as (Hft & _ & Hvx).
split; [ | split; [ | split ] ].
- apply (Hft w 0 0 8); [ vm_compute; discriminate | reflexivity ].
- apply (Hft w 0x48 0x48 8); vm_compute; discriminate.
- apply (Hvx w 0 0 10); [ vm_compute; discriminate | reflexivity ].
- apply (Hvx w 0x48 0x48 10); vm_compute; discriminate.
Defined.

(** ** The checksum byte *)

Lemma bind_done {A B : Type} (r : result A) (k : A -> result B) (b : B) :
  bind r k = Done b -> exists a, r = Done a /\ k a = Done b.
Proof.
destruct r as [a | st d |]; simpl; intros H; try discriminate.
exists a. split; [ reflexivity | exact H ].
Qed.

Lemma land_255 (s : Z) : Z.land s 0xff = s mod 256.
Proof. change 0xff with (Z.ones 8). rewrite Z.land_ones by lia. reflexivity. Qed.

(** The test that ends the verify loop of a download. *)
Lemma verified_checksum (m : memory) (size : Z) :
  negb (Z.land (sum_bytes m 0 (Z.to_nat size)) 0xff =? load m size) = false ->
  checksum_ok m size.
Proof.
intros Hverified. apply negb_false_iff, Z.eqb_eq in Hverified.
unfold checksum_ok. rewrite <- Hverified. apply land_255.
Qed.

(** Storing the sum of the payload behind it makes the image valid. *)
Lemma stored_checksum (m : memory) (size : Z) :
  0 <= size ->
  checksum_ok (store m size (sum_bytes m 0 (Z.to_nat size))) size.
Proof.
intros Hsize. unfold checksum_ok. rewrite load_store_same.
rewrite (sum_bytes_agree (store m size (sum_bytes m 0 (Z.to_nat size))) m).
- reflexivity.
- intros x Hx. apply load_store_other. lia.
Qed.

Lemma ft60_download_checksum (fuel : nat) :
  forall w w', FT60.ft60_download fuel w = Done w' ->
               checksum_ok (radio_mem w') FT60.MEMSZ.
Proof.
induction fuel as [| fuel IH]; intros w w' Hdone.
- discriminate.
- cbn [FT60.ft60_download] in Hdone.
  apply bind_done in Hdone. destruct Hdone as (w1 & _ & Hdone).
  apply bind_done in Hdone. destruct Hdone as (w2 & _ & Hdone).
  apply bind_done in Hdone. destruct Hdone as (r & _ & Hdone).
  cbv zeta in Hdone.
  destruct (negb (Z.land (sum_bytes (radio_mem (snd r)) 0 (Z.to_nat FT60.MEMSZ)) 0xff
                  =? load (radio_mem (snd r)) FT60.MEMSZ)) eqn:Hverify.
  + apply (IH _ _ Hdone).
  + injection Hdone as <-. apply verified_checksum. exact Hverify.
Qed.

Lemma vx2_download_checksum (fuel : nat) :
  forall w w', VX2.vx2_download fuel w = Done w' ->
               checksum_ok (radio_mem w') VX2.MEMSZ.
Proof.
induction fuel as [| fuel IH]; intros w w' Hdone.
- discriminate.
- cbn [VX2.vx2_download] in Hdone.
  apply bind_done in Hdone. destruct Hdone as (w1 & _ & Hdone).
  apply bind_done in Hdone. destruct Hdone as (w2 & _ & Hdone).
  apply bind_done in Hdone. destruct Hdone as (r & _ & Hdone).
  cbv zeta in Hdone.
  destruct (negb (Z.land (sum_bytes (radio_mem (snd r)) 0 (Z.to_nat VX2.MEMSZ)) 0xff
                  =? load (radio_mem (snd r)) VX2.MEMSZ)) eqn:Hverify.
  + apply (IH _ _ Hdone).
  + injection Hdone as <-. apply verified_checksum. exact Hverify.
Qed.

Lemma tick_mem (w : world) : radio_mem (tick w) = radio_mem w.
Proof. unfold tick. destruct (serial_verbose w); reflexivity. Qed.

Lemma ft60_write_block_mem (w : world) (start data nbytes : Z) :
  radio_mem (snd (FT60.write_block w start data nbytes)) = radio_mem w.
Proof.
unfold FT60.write_block.
destruct (serial_read _ nbytes) as [echo p].
destruct (negb (Z.of_nat (List.length echo) =? nbytes)); [ reflexivity | ].
cbn [radio_port with_port].
destruct (serial_read p 1) as [reply p'].
destruct reply as [| r rest]; [ reflexivity | ].
destruct (negb (uint8 r =? 6)); [ reflexivity | ].
cbn [snd]. rewrite tick_mem. reflexivity.
Qed.


Lemma ft60_upload_checksum (fuel : nat) :
  forall w w', FT60.ft60_upload fuel w = Done w' ->
               checksum_ok (radio_mem w') FT60.MEMSZ.
Proof.
induction fuel as [| fuel IH]; intros w w' Hdone.
- discriminate.
- cbn [FT60.ft60_upload] in Hdone.
  destruct (FT60.write_block w 0 0 8) as [ok1 w1].
  destruct (ok1 =? 0); [ apply (IH _ _ Hdone) | ].
  destruct (for_all _ _ w1) as [ok2 w2].
  destruct (ok2 =? 0); [ apply (IH _ _ Hdone) | ].
  cbv zeta in Hdone.
  pose proof (ft60_write_block_mem (FT60.upload_checksum w2) FT60.MEMSZ FT60.MEMSZ 1)
    as Hmem.
  destruct (FT60.write_block (FT60.upload_checksum w2) FT60.MEMSZ FT60.MEMSZ 1)
    as [ok3 w3].
  destruct (ok3 =? 0); [ apply (IH _ _ Hdone) | ].
  injection Hdone as <-. cbn [snd] in Hmem. rewrite Hmem.
  unfold FT60.upload_checksum. cbn [radio_mem with_mem].
  apply stored_checksum. unfold FT60.MEMSZ. lia.
Qed.

Lemma vx2_write_chunks_mem (chunks : nat) :
  forall need_ack w start data datalen r,
    VX2.write_chunks chunks need_ack w start data datalen = Done r ->
    radio_mem (snd r) = radio_mem w.
Proof.
induction chunks as [| chunks IH]; intros need_ack w start data datalen r Hdone.
- discriminate.
- cbn [VX2.write_chunks] in Hdone. cbv zeta in Hdone.
  destruct (serial_read _ _) as [echo p] in Hdone.
  destruct (negb (Z.of_nat (List.length echo) =? _)) in Hdone.
  + injection Hdone as <-. reflexivity.
  + set (acked := if need_ack then _ else _) in Hdone.
    assert (Hacked : radio_mem (snd acked) = radio_mem w).
    { subst acked. destruct need_ack; [ | reflexivity ].
      cbn [radio_port with_port].
      destruct (serial_read p 1) as [reply p'].
      destruct reply; reflexivity. }
    destruct (negb (fst acked)).
    * injection Hdone as <-. exact Hacked.
    * destruct (_ <? datalen) in Hdone.
      -- apply IH in Hdone. rewrite Hdone, tick_mem. exact Hacked.
      -- injection Hdone as <-. cbn [snd]. rewrite tick_mem. exact Hacked.
Qed.

Lemma vx2_write_block_mem (w : world) (start data datalen : Z) (r : Z * world) :
  VX2.write_block w start data datalen = Done r -> radio_mem (snd r) = radio_mem w.
Proof. unfold VX2.write_block. apply vx2_write_chunks_mem. Qed.

Lemma vx2_upload_checksum (fuel : nat) :
  forall w w', VX2.vx2_upload fuel w = Done w' ->
               checksum_ok (radio_mem w') VX2.MEMSZ.
Proof.
induction fuel as [| fuel IH]; intros w w' Hdone.
- discriminate.
- cbn [VX2.vx2_upload] in Hdone.
  apply bind_done in Hdone. destruct Hdone as (r1 & _ & Hdone).
  destruct (fst r1 =? 0); [ apply (IH _ _ Hdone) | ].
  apply bind_done in Hdone. destruct Hdone as (r2 & _ & Hdone).
  destruct (fst r2 =? 0); [ apply (IH _ _ Hdone) | ].
  cbv zeta in Hdone.
  apply bind_done in Hdone. destruct Hdone as (r3 & Hsent & Hdone).
  destruct (fst r3 =? 0); [ apply (IH _ _ Hdone) | ].
  injection Hdone as <-.
  rewrite (vx2_write_block_mem _ _ _ _ _ Hsent).
  unfold VX2.upload_checksum. cbn [radio_mem with_mem].
  apply stored_checksum. unfold VX2.MEMSZ. lia.
Qed.

(** C2.  On both radios the byte at index [MEMSZ] is the sum of the bytes
    [0 .. MEMSZ-1] modulo 256 whenever a download returns (the verify loop
    is left), right after an upload has computed the trailing byte, and
    hence also when the upload returns. *)
Theorem checksum_byte_invariant :
  (forall (fuel : nat) (w w' : world),
      FT60.ft60_download fuel w = Done w' -> checksum_ok (radio_mem w') FT60.MEMSZ) /\
  (forall w : world, checksum_ok (radio_mem (FT60.upload_checksum w)) FT60.MEMSZ) /\
  (forall (fuel : nat) (w w' : world),
      FT60.ft60_upload fuel w = Done w' -> checksum_ok (radio_mem w') FT60.MEMSZ) /\
  (forall (fuel : nat) (w w' : world),
      VX2.vx2_download fuel w = Done w' -> checksum_ok (radio_mem w') VX2.MEMSZ) /\
  (forall w : world, checksum_ok (radio_mem (VX2.upload_checksum w)) VX2.MEMSZ) /\
  (forall (fuel : nat) (w w' : world),
      VX2.vx2_upload fuel w = Done w' -> checksum_ok (radio_mem w') VX2.MEMSZ).
Proof.
repeat split.
- apply ft60_download_checksum.
- intros w. apply stored_checksum. unfold FT60.MEMSZ. lia.
- apply ft60_upload_checksum.
- apply vx2_download_checksum.
- intros w. apply stored_checksum. unfold VX2.MEMSZ. lia.
- apply vx2_upload_checksum.
Qed.

(** ** Bank rows *)

Lemma done_with {A : Type} (P : A -> Prop) (r : result A) :
  match r with Done a => P a | _ => False end ->
  exists a, r = Done a /\ P a.
Proof.
destruct r as [a | st d |]; intros H; try contradiction.
exists a. split; [ reflexivity | exact H ].
Qed.



(** *** Rows that are not the first of the table

    The parsers and printers read the image through [load] only, so two
    images holding the same bytes fare alike; an empty bank holds the same
    bytes as an erased one. *)


Lemma In_Z_range (lo hi x : Z) : In x (Z_range lo hi) <-> lo <= x < hi.
Proof.
unfold Z_range. rewrite in_map_iff. split.
- intros (k & <- & Hk). apply in_seq in Hk. lia.
- intros Hx. exists (Z.to_nat (x - lo)). split; [ lia | apply in_seq; lia ].
Qed.


























(** C10.  A bank row can fail after it has changed the image: on both
    radios there are an image and a row (the channel list "1,2000" for
    bank 1, not the first row of the table) for which [parse_banks] returns
    0 and a byte of the bank table differs from what it was, channel 1
    having been entered before channel number 2000 is refused. *)
Theorem parse_banks_not_atomic :
  (exists (m : memory) (line : string) (a : Z),
      exists r,
        FT60.parse_banks m 0 line = Done r /\
        (status r = 0 /\
         FT60.OFFSET_BANKS <= a < FT60.OFFSET_BANKS + FT60.NBANKS * 0x80 /\
         load (image r) a <> load m a /\
         FT60.bank_members m 0 = [] /\
         FT60.bank_members (image r) 0 = [1])) /\
  (exists (m : memory) (line : string) (a : Z),
      exists r,
        VX2.parse_banks m 0 line = Done r /\
        (status r = 0 /\
         VX2.OFFSET_BANKS <= a < VX2.OFFSET_BANKS + VX2.NBANKS * 200 /\
         load (image r) a <> load m a /\
         load_u16 m VX2.OFFSET_BANKS = 0xffff /\
         load_u16 (image r) VX2.OFFSET_BANKS = VX2.big_endian_16 0)).
Proof.
split.
- exists (fun _ => 0), "1 1,2000", FT60.OFFSET_BANKS.
  apply done_with. vm_compute.
  repeat split; try discriminate.
- exists (fun _ => 0xff), "1 1,2000", VX2.OFFSET_BANKS.
  apply done_with. vm_compute.
  repeat split; try discriminate.
Qed.

(** ** Channel rows *)

Lemma ft60_bad_power (tones codes : list Z) (scan_float scan_double : string -> option double)
  (m : memory) (first_row : Z) (line : string) :
  let power_str := nth 6 (scan_words 9 line) EmptyString in
  strcasecmp "High" power_str <> 0 ->
  strcasecmp "Mid" power_str <> 0 ->
  strcasecmp "Low" power_str <> 0 ->
  let r := FT60.parse_channel tones codes scan_float scan_double m first_row line in
  status r = 0 /\ image r = m.
Proof.
cbv zeta. unfold FT60.parse_channel.
destruct (scan_words 9 line)
  as [| w1 [| w2 [| w3 [| w4 [| w5 [| w6 [| w7 [| w8 [| w9 [| w10 rest]]]]]]]]]];
  cbn [nth]; intros Hhigh Hmid Hlow; try rejected.
destruct ((atoi w1 <? 1) || (atoi w1 >? FT60.NCHAN)); [ rejected | ].
destruct (scan_double w3) as [rx_mhz |]; [ | rejected ].
destruct (FT60.is_valid_frequency (int_of_double rx_mhz) =? 0); [ rejected | ].
destruct (scan_double w4) as [tx0 |]; [ | rejected ].
cbv zeta.
destruct (FT60.is_valid_frequency _ =? 0); [ rejected | ].
destruct (FT60.encode_squelch tones codes scan_float w5 w6) as [[tmode tone] dtcs].
destruct (Z.eqb_spec (strcasecmp "High" w7) 0) as [E | _]; [ contradiction | ].
destruct (Z.eqb_spec (strcasecmp "Mid" w7) 0) as [E | _]; [ contradiction | ].
destruct (Z.eqb_spec (strcasecmp "Low" w7) 0) as [E | _]; [ contradiction | ].
rejected.
Qed.

Lemma vx2_bad_power (tones codes : list Z) (scan_float scan_double : string -> option double)
  (m : memory) (first_row : Z) (line : string) :
  let power_str := nth 6 (scan_words 9 line) EmptyString in
  strcasecmp "High" power_str <> 0 ->
  strcasecmp "Low" power_str <> 0 ->
  strcasecmp "-" power_str <> 0 ->
  let r := VX2.parse_channel tones codes scan_float scan_double m first_row line in
  status r = 0 /\ image r = m.
Proof.
cbv zeta. unfold VX2.parse_channel.
destruct (scan_words 9 line)
  as [| w1 [| w2 [| w3 [| w4 [| w5 [| w6 [| w7 [| w8 [| w9 [| w10 rest]]]]]]]]]];
  cbn [nth]; intros Hhigh Hlow Hdash; try rejected.
destruct ((atoi w1 <? 1) || (atoi w1 >? VX2.NCHAN)); [ rejected | ].
destruct (scan_double w3) as [rx_mhz |]; [ | rejected ].
destruct (VX2.is_valid_frequency rx_mhz =? 0); [ rejected | ].
match goal with
| |- context [match ?tx with Some _ => _ | None => reject _ m end] =>
    destruct tx as [tx_mhz |]; [ | rejected ]
end.
destruct (VX2.encode_squelch tones codes scan_float w5 w6) as [[tmode tone] dcs].
destruct (Z.eqb_spec (strcasecmp "High" w7) 0) as [E | _]; [ contradiction | ].
destruct (Z.eqb_spec (strcasecmp "Low" w7) 0) as [E | _]; [ contradiction | ].
destruct (Z.eqb_spec (strcasecmp "-" w7) 0) as [E | _]; [ contradiction | ].
rejected.
Qed.

(** C6.  A channel row whose power column is none of the words the radio
    knows ("High", "Mid", "Low" on the FT-60; "High", "Low", "-" on the
    VX-2; letter case ignored) makes [parse_channel] return 0 with the
    image as it was, first row of the table or not, and whatever the tone
    tables and number conversions are. *)
Theorem unknown_power_rejected :
  forall (tones codes : list Z) (scan_float scan_double : string -> option double)
         (m : memory) (first_row : Z) (line : string),
    let power_str := nth 6 (scan_words 9 line) EmptyString in
    (strcasecmp "High" power_str <> 0 ->
     strcasecmp "Mid" power_str <> 0 ->
     strcasecmp "Low" power_str <> 0 ->
     let r := FT60.parse_channel tones codes scan_float scan_double m first_row line in
     status r = 0 /\ image r = m) /\
    (strcasecmp "High" power_str <> 0 ->
     strcasecmp "Low" power_str <> 0 ->
     strcasecmp "-" power_str <> 0 ->
     let r := VX2.parse_channel tones codes scan_float scan_double m first_row line in
     status r = 0 /\ image r = m).
Proof.
intros tones codes scan_float scan_double m first_row line power_str. split.
- apply ft60_bad_power.
- apply vx2_bad_power.
Qed.

(** Witness of C6: the row of channel 1 with the power column "Ultra",
    read as a first row into an image whose every byte is 0x55, with the
    decimal reader for the conversions. *)
Lemma unknown_power_rejected_witness :
  let line := "    1   CALL    146.520  +0.6     88.5    88.5   Ultra  Wide       +" in
  let ft := FT60.parse_channel [885] [23] scan_decimal scan_decimal (fun _ => 0x55) 1 line in
  let line' := "    1   CALL    146.520  +0.6     88.5    88.5   Ultra  FM         +" in
  let vx := VX2.parse_channel [885] [23] scan_decimal scan_decimal (fun _ => 0x55) 1 line' in
  (status ft = 0 /\ image ft = (fun _ => 0x55)) /\
  (status vx = 0 /\ image vx = (fun _ => 0x55)) /\
  message ft = "Bad power level." ++ newline /\
  message vx = "Bad power level." ++ newline.
Proof.
intros line ft line' vx. split; [ | split; [ | split ] ].
- apply (proj1 (unknown_power_rejected [885] [23] scan_decimal scan_decimal
                  (fun _ => 0x55) 1 line)); vm_compute; discriminate.
- apply (proj2 (unknown_power_rejected [885] [23] scan_decimal scan_decimal
                  (fun _ => 0x55) 1 line')); vm_compute; discriminate.
- vm_compute. reflexivity.
- vm_compute. reflexivity.
Defined.

(** C5 (the scan column does not survive export and import on the FT-60).
    [setup_channel] keeps the scan mode of channel [i] in bits
    [2*(i&3) .. 2*(i&3)+1] of the channel's scan byte, [decode_channel]
    reads bits [6-2*(i&3) .. 7-2*(i&3)].  Channel 1 (index 0) set up with
    scan mode 1 ("-") on an image of zeros is in use, its scan byte holds
    1, and it decodes with scan mode 0 ("+"); the same happens when the
    channel comes from the text row with "-" in the scan column. *)
Theorem scan_mode_not_read_back :
  let m := FT60.setup_channel (fun _ => 0) 0 (Some "CALL")
             146.52%float 146.52%float FT60.T_OFF FT60.TONE_DEFAULT 0 0 1 1 0 in
  let c := FT60.decode_channel [885] [23] m 0 FT60.OFFSET_CHANNELS true in
  let row := "    1   CALL    146.5200 +0       -       -      High  Wide       -" in
  let r := FT60.parse_channel [885] [23] scan_decimal scan_decimal (fun _ => 0) 0 row in
  let c' := FT60.decode_channel [885] [23] (image r) 0 FT60.OFFSET_CHANNELS true in
  (FT60.rx_hz c = 146520000 /\
   load m FT60.OFFSET_SCAN = 1 /\
   FT60.scan c = 0) /\
  (status r = 1 /\
   FT60.name c' = Some "CALL" /\
   FT60.rx_hz c' = 146520000 /\
   load (image r) FT60.OFFSET_SCAN = 1 /\
   FT60.scan c' = 0).
Proof.
vm_compute. repeat split.
Qed.

(** ** The scan column of the FT-60 *)

(** The scan mode of channel [i] moves to channel [i xor 3]: channel 4
    (index 3) set up after channel 1 with its own scan mode 0 decodes
    with the mode given to channel 1. *)
Lemma ft60_scan_mode_moves :
  let m := FT60.setup_channel (fun _ => 0) 0 (Some "ONE")
             146.52%float 146.52%float FT60.T_OFF FT60.TONE_DEFAULT 0 0 1 1 0 in
  let m := FT60.setup_channel m 3 (Some "FOUR")
             146.58%float 146.58%float FT60.T_OFF FT60.TONE_DEFAULT 0 0 1 0 0 in
  FT60.scan (FT60.decode_channel [885] [23] m 0 FT60.OFFSET_CHANNELS true) = 0 /\
  FT60.scan (FT60.decode_channel [885] [23] m 3 FT60.OFFSET_CHANNELS true) = 1.
Proof. vm_compute. split; reflexivity. Qed.

(** ** Ranges *)

Lemma land_15_range (x : Z) : 0 <= Z.land x 15 <= 15.
Proof.
assert (H : Z.land x 15 = x mod 16)
  by (change 15 with (Z.ones 4); apply Z.land_ones; lia).
rewrite H. pose proof (Z.mod_pos_bound x 16). lia.
Qed.

(** A decoded FT-60 frequency fits an [int] with room for the largest
    offset, so the integers of [decode_channel] never wrap. *)
Lemma ft60_freq_to_hz_range (m : memory) (bcd : Z) :
  0 <= FT60.freq_to_hz m bcd <= 1666657500.
Proof.
unfold FT60.freq_to_hz. cbv zeta.
pose proof (land_15_range (load m bcd)).
pose proof (land_15_range (Z.shiftr (load m (bcd + 1)) 4)).
pose proof (land_15_range (load m (bcd + 1))).
pose proof (land_15_range (Z.shiftr (load m (bcd + 2)) 4)).
pose proof (land_15_range (load m (bcd + 2))).
assert (0 <= Z.shiftr (load m bcd) 6 <= 3).
{ rewrite Z.shiftr_div_pow2 by lia. change (2 ^ 6) with 64.
  pose proof (load_range m bcd).
  split; [ apply Z.div_pos; lia | ].
  assert (load m bcd / 64 < 4) by (apply Z.div_lt_upper_bound; lia). lia. }
lia.
Qed.

Lemma ft60_decode_fits_int (tones codes : list Z) (m : memory) (i seek : Z) (with_name : bool) :
  let c := FT60.decode_channel tones codes m i seek with_name in
  INT_MIN < FT60.rx_hz c < - INT_MIN /\ INT_MIN < FT60.tx_hz c < - INT_MIN.
Proof.
cbv zeta. unfold FT60.decode_channel, INT_MIN. cbv zeta.
set (ch := seek + i * FT60.sizeof_channel).
pose proof (ft60_freq_to_hz_range m (FT60.ch_rxfreq ch)) as Hrx.
pose proof (ft60_freq_to_hz_range m (FT60.ch_txfreq ch)) as Htx.
pose proof (load_range m (ch + 12)) as Hoff. fold (FT60.ch_offset m ch) in Hoff.
destruct (_ && _); [ simpl; lia | ].
destruct (FT60.ch_tmode m ch =? FT60.T_TONE);
  [ | destruct (FT60.ch_tmode m ch =? FT60.T_TSQL);
  [ | destruct (FT60.ch_tmode m ch =? FT60.T_TSQL_REV);
  [ | destruct (FT60.ch_tmode m ch =? FT60.T_DTCS);
  [ | destruct (FT60.ch_tmode m ch =? FT60.T_D);
  [ | destruct (FT60.ch_tmode m ch =? FT60.T_T_DCS);
  [ | destruct (FT60.ch_tmode m ch =? FT60.T_D_TSQL) ] ] ] ] ] ];
  cbn [FT60.rx_hz FT60.tx_hz];
  (destruct (FT60.ch_duplex m ch =? FT60.D_NEG_OFFSET);
   [ | destruct (FT60.ch_duplex m ch =? FT60.D_POS_OFFSET);
   [ | destruct (FT60.ch_duplex m ch =? FT60.D_CROSS_BAND) ] ]); lia.
Qed.

(** ** Enough fuel *)

Lemma skip_space_length (s : string) :
  (String.length (skip_space s) <= String.length s)%nat.
Proof.
induction s as [| c s IH]; simpl.
- lia.
- destruct (isspace c); simpl; lia.
Qed.

Lemma take_sign_length (s : string) :
  (String.length (snd (take_sign s)) <= String.length s)%nat.
Proof.
destruct s as [| c s]; simpl.
- lia.
- destruct (code c =? 45); [ simpl; lia | ].
  destruct (code c =? 43); simpl; lia.
Qed.

Lemma digits_val_length (s : string) :
  forall acc, (String.length (snd (digits_val acc s)) <= String.length s)%nat.
Proof.
induction s as [| c s IH]; intros acc; simpl.
- lia.
- destruct (isdigit c); simpl; [ | lia ].
  specialize (IH (acc * 10 + (code c - 48))). lia.
Qed.

Lemma digits_val_consumes (s : string) (acc : Z) :
  starts_with_digit s = true ->
  (String.length (snd (digits_val acc s)) < String.length s)%nat.
Proof.
destruct s as [| c s]; simpl; [ discriminate | ].
intros ->. pose proof (digits_val_length s (acc * 10 + (code c - 48))). lia.
Qed.

(** [strtoul] leaves less text than it was given when it converts. *)
Lemma strtoul_consumes (str eptr : string) (v : Z) :
  strtoul str = Some (v, eptr) ->
  (String.length eptr < String.length str)%nat.
Proof.
unfold strtoul.
pose proof (skip_space_length str) as Hskip.
pose proof (take_sign_length (skip_space str)) as Hsign.
destruct (take_sign (skip_space str)) as [neg s]. cbn [snd] in Hsign.
destruct (starts_with_digit s) eqn:Hdigit; [ | discriminate ].
pose proof (digits_val_consumes s 0 Hdigit) as Hdigits.
destruct (digits_val 0 s) as [v' e]. cbn [snd] in Hdigits.
intros H. injection H as _ <-. lia.
Qed.

Lemma ft60_bank_list_returns (fuel : nat) :
  forall bnum str range last m,
    (String.length str < fuel)%nat ->
    exists r, FT60.bank_list fuel bnum str range last m = Done r.
Proof.
induction fuel as [| fuel IH]; intros bnum str range last m Hfuel.
- lia.
- cbn [FT60.bank_list].
  destruct (strtoul str) as [[v eptr] |] eqn:Hconv; [ | eexists; reflexivity ].
  apply strtoul_consumes in Hconv. cbv zeta.
  destruct ((int32 v <? 1) || (int32 v >? FT60.NCHAN)); [ eexists; reflexivity | ].
  destruct eptr as [| c rest]; [ eexists; reflexivity | ].
  destruct (negb (code c =? 44) && negb (code c =? 45)); [ eexists; reflexivity | ].
  apply IH. simpl in Hconv. lia.
Qed.

(** The FT-60 bank parser always returns: its loop ends within the fuel
    it is given. *)
Lemma ft60_parse_banks_returns (m : memory) (first_row : Z) (line : string) :
  exists r, FT60.parse_banks m first_row line = Done r.
Proof.
unfold FT60.parse_banks.
destruct (scan_words 2 line) as [| num_str [| chan_str [| w rest]]];
  try (eexists; reflexivity).
cbv zeta.
destruct ((atoi num_str <? 1) || (atoi num_str >? FT60.NBANKS)); [ eexists; reflexivity | ].
destruct (char_at chan_str 0 =? 45); [ eexists; reflexivity | ].
apply ft60_bank_list_returns. lia.
Qed.

(** One round of the VX-2 loop over a range of channels never spins. *)
Lemma vx2_setup_banks_no_spin (b : Z) (l : list Z) :
  forall r : result (memory * Z),
    r <> Spin ->
    fold_left (fun r c => st <- r ;; m' <- VX2.setup_bank (fst st) b c ;;
                          Done (m', snd st + 1)) l r <> Spin.
Proof.
induction l as [| c l IH]; intros r Hr; simpl.
- exact Hr.
- apply IH. destruct r as [st | s d |]; simpl; try discriminate; [ | contradiction ].
  unfold VX2.setup_bank. cbv zeta.
  destruct (VX2.first_free _ _ _); simpl; discriminate.
Qed.

Lemma vx2_bank_list_no_spin (fuel : nat) :
  forall bnum str range last nchan m,
    (String.length str < fuel)%nat ->
    VX2.bank_list fuel bnum str range last nchan m <> Spin.
Proof.
induction fuel as [| fuel IH]; intros bnum str range last nchan m Hfuel.
- lia.
- cbn [VX2.bank_list].
  destruct (strtoul str) as [[v eptr] |] eqn:Hconv; [ | discriminate ].
  apply strtoul_consumes in Hconv. cbv zeta.
  destruct ((int32 v <? 1) || (int32 v >? VX2.NCHAN)); [ discriminate | ].
  match goal with
  | |- bind ?r _ <> Spin => assert (Hr : r <> Spin); [ | destruct r as [st | s d |] ]
  end.
  + destruct (negb (range =? 0)).
    * apply vx2_setup_banks_no_spin. discriminate.
    * unfold VX2.setup_bank. cbv zeta.
      destruct (VX2.first_free _ _ _); simpl; discriminate.
  + simpl. destruct eptr as [| c rest]; [ discriminate | ].
    destruct (negb (code c =? 44) && negb (code c =? 45)); [ discriminate | ].
    apply IH. simpl in Hconv. lia.
  + simpl. discriminate.
  + contradiction.
Qed.

(** The VX-2 bank parser returns or exits ("too many channels"); its loop
    ends within the fuel it is given. *)
Lemma vx2_parse_banks_no_spin (m : memory) (first_row : Z) (line : string) :
  VX2.parse_banks m first_row line <> Spin.
Proof.
unfold VX2.parse_banks.
destruct (scan_words 2 line) as [| num_str [| chan_str [| w rest]]]; try discriminate.
cbv zeta.
destruct ((atoi num_str <? 1) || (atoi num_str >? VX2.NBANKS)); [ discriminate | ].
destruct (char_at chan_str 0 =? 45); [ discriminate | ].
match goal with
| |- bind ?r _ <> Spin =>
    assert (Hr : r <> Spin) by (apply vx2_bank_list_no_spin; lia);
    destruct r as [[[m' n] | [m' s]] | s d |]
end; simpl; try discriminate. contradiction.
Qed.

(** Every chunk takes 64 bytes off what is left to read, so the chunks
    [read_block] allows for are enough. *)
Lemma vx2_read_chunks_no_spin (chunks : nat) :
  forall need_ack w start data datalen,
    datalen <= 64 * Z.of_nat chunks + 64 ->
    VX2.read_chunks (S chunks) need_ack w start data datalen <> Spin.
Proof.
induction chunks as [| chunks IH]; intros need_ack w start data datalen Hfuel;
  cbn [VX2.read_chunks]; cbv zeta;
  destruct (serial_read _ _) as [got p];
  (destruct (negb _); [ destruct (start =? 0); discriminate | ]);
  match goal with
  | |- bind ?r _ <> Spin => assert (Hr : r <> Spin); [ | destruct r as [w1 | s d |] ]
  end;
  try (simpl; discriminate); try contradiction.
- destruct need_ack; [ | discriminate ].
  destruct (serial_read _ 1) as [reply p'].
  destruct reply as [| r rest]; [ discriminate | ].
  destruct (negb _); discriminate.
- simpl.
  destruct (Z.ltb_spec (if datalen <? 64 then datalen else 64) datalen) as [Hmore | _];
    [ | discriminate ].
  destruct (Z.ltb_spec datalen 64) as [Hsmall | Hbig]; lia.
- destruct need_ack; [ | discriminate ].
  destruct (serial_read _ 1) as [reply p'].
  destruct reply as [| r rest]; [ discriminate | ].
  destruct (negb _); discriminate.
- simpl.
  destruct (Z.ltb_spec (if datalen <? 64 then datalen else 64) datalen) as [Hmore | _];
    [ | discriminate ].
  destruct (Z.ltb_spec datalen 64) as [Hsmall | Hbig]; [ lia | ].
  apply IH. lia.
Qed.

(** [read_block] of the VX-2 returns or exits. *)
Lemma vx2_read_block_no_spin (w : world) (start data datalen : Z) :
  VX2.read_block w start data datalen <> Spin.
Proof.
unfold VX2.read_block. apply vx2_read_chunks_no_spin.
destruct (Z_lt_ge_dec datalen 0) as [Hneg | Hpos].
- lia.
- rewrite Z2Nat.id by (apply Z.div_pos; lia).
  pose proof (Z.div_mod datalen 64). pose proof (Z.mod_pos_bound datalen 64). lia.
Qed.

(** ** Bit-fields *)

Lemma testbit_ones_nonneg (w n : Z) :
  0 <= w -> 0 <= n -> Z.testbit (Z.ones w) n = (n <? w).
Proof.
intros Hw Hn. destruct (Z.ltb_spec n w).
- apply Z.ones_spec_low. lia.
- apply Z.ones_spec_high. lia.
Qed.

Lemma testbit_get_bits (b s w n : Z) :
  0 <= s -> 0 <= w -> 0 <= n ->
  Z.testbit (get_bits b s w) n = Z.testbit b (n + s) && (n <? w).
Proof.
intros Hs Hw Hn. unfold get_bits.
rewrite Z.land_spec, Z.shiftr_spec by lia.
rewrite testbit_ones_nonneg by lia. reflexivity.
Qed.

Lemma testbit_set_bits (b s w v n : Z) :
  0 <= s -> 0 <= w -> 0 <= n ->
  Z.testbit (set_bits b s w v) n =
    if (s <=? n) && (n <? s + w) then Z.testbit v (n - s) else Z.testbit b n.
Proof.
intros Hs Hw Hn. unfold set_bits.
rewrite Z.lor_spec, !Z.land_spec, Z.lnot_spec by lia.
destruct (Z.leb_spec s n) as [Hle | Hlt]; cbn [andb].
- rewrite !Z.shiftl_spec by lia. rewrite Z.land_spec.
  rewrite testbit_ones_nonneg by lia.
  destruct (Z.ltb_spec (n - s) w), (Z.ltb_spec n (s + w)); try lia; cbn.
  + rewrite andb_false_r, andb_true_r. reflexivity.
  + rewrite andb_true_r, andb_false_r, orb_false_r. reflexivity.
- rewrite !Z.shiftl_spec_low by lia. cbn.
  rewrite andb_true_r, orb_false_r. reflexivity.
Qed.

(** A field that was just set reads as the value given, cut to the width
    of the field. *)
Lemma get_set_bits_same (b s w v : Z) :
  0 <= s -> 0 <= w -> get_bits (set_bits b s w v) s w = Z.land v (Z.ones w).
Proof.
intros Hs Hw. apply Z.bits_inj'. intros n Hn.
rewrite testbit_get_bits, testbit_set_bits, Z.land_spec, testbit_ones_nonneg by lia.
destruct (Z.ltb_spec n w).
- replace ((s <=? n + s) && (n + s <? s + w)) with true
    by (symmetry; apply andb_true_iff; split; [ apply Z.leb_le | apply Z.ltb_lt ]; lia).
  replace (n + s - s) with n by lia. rewrite andb_true_r. reflexivity.
- rewrite !andb_false_r. reflexivity.
Qed.

(** Setting a field leaves the fields beside it alone. *)
Lemma get_set_bits_other (b s w s' w' v : Z) :
  0 <= s -> 0 <= w -> 0 <= s' -> 0 <= w' ->
  s + w <= s' \/ s' + w' <= s ->
  get_bits (set_bits b s' w' v) s w = get_bits b s w.
Proof.
intros Hs Hw Hs' Hw' Hapart. apply Z.bits_inj'. intros n Hn.
rewrite !testbit_get_bits, testbit_set_bits by lia.
destruct (Z.ltb_spec n w); [ | rewrite !andb_false_r; reflexivity ].
replace ((s' <=? n + s) && (n + s <? s' + w')) with false; [ reflexivity | ].
symmetry. apply andb_false_iff.
destruct (Z.leb_spec s' (n + s)); [ right; apply Z.ltb_ge; lia | left; reflexivity ].
Qed.

Lemma get_bits_uint8 (b s w : Z) :
  0 <= s -> 0 <= w -> s + w <= 8 -> get_bits (uint8 b) s w = get_bits b s w.
Proof.
intros Hs Hw Hfit. apply Z.bits_inj'. intros n Hn.
rewrite !testbit_get_bits by lia.
destruct (Z.ltb_spec n w); [ | rewrite !andb_false_r; reflexivity ].
unfold uint8. change 256 with (2 ^ 8).
rewrite Z.mod_pow2_bits_low by lia. reflexivity.
Qed.

Lemma get_bits_small (v w : Z) : 0 <= w -> 0 <= v < 2 ^ w -> Z.land v (Z.ones w) = v.
Proof.
intros Hw Hv. rewrite Z.land_ones by lia. apply Z.mod_small. exact Hv.
Qed.

(** ** Fields of the image *)

Lemma load_store_eq (m : memory) (a b v : Z) : a = b -> load (store m a v) b = uint8 v.
Proof. intros <-. apply load_store_same. Qed.

Lemma load_field_store_field_same (m : memory) (a s w v : Z) :
  0 <= s -> 0 <= w -> s + w <= 8 ->
  load_field (store_field m a s w v) a s w = Z.land v (Z.ones w).
Proof.
intros Hs Hw Hfit. unfold load_field, store_field.
rewrite load_store_same, get_bits_uint8, get_set_bits_same by lia. reflexivity.
Qed.

Lemma load_field_store_field_other (m : memory) (a s w s' w' v : Z) :
  0 <= s -> 0 <= w -> s + w <= 8 -> 0 <= s' -> 0 <= w' ->
  s + w <= s' \/ s' + w' <= s ->
  load_field (store_field m a s' w' v) a s w = load_field m a s w.
Proof.
intros Hs Hw Hfit Hs' Hw' Hapart. unfold load_field, store_field.
rewrite load_store_same, get_bits_uint8, get_set_bits_other by lia. reflexivity.
Qed.

Lemma load_field_store_field_apart (m : memory) (a a' s w s' w' v : Z) :
  a <> a' -> load_field (store_field m a' s' w' v) a s w = load_field m a s w.
Proof.
intros Ha. unfold load_field, store_field.
rewrite load_store_other by congruence. reflexivity.
Qed.

Lemma load_store_field_apart (m : memory) (a a' s w v : Z) :
  a <> a' -> load (store_field m a' s w v) a = load m a.
Proof. intros Ha. unfold store_field. apply load_store_other. congruence. Qed.

Lemma load_field_store_apart (m : memory) (a a' s w v : Z) :
  a <> a' -> load_field (store m a' v) a s w = load_field m a s w.
Proof. intros Ha. unfold load_field. rewrite load_store_other by congruence. reflexivity. Qed.

(** ** Banks of the FT-60: one bit per channel *)

(** The test [x & (1 << k)] of a bit. *)
Lemma land_bit_zero (x k : Z) :
  0 <= k -> (Z.land x (Z.shiftl 1 k) =? 0) = negb (Z.testbit x k).
Proof.
intros Hk. rewrite Z.shiftl_1_l.
destruct (Z.testbit x k) eqn:Hbit; cbn [negb].
- apply Z.eqb_neq. intros Hzero.
  assert (Hk' : Z.testbit (Z.land x (2 ^ k)) k = true)
    by (rewrite Z.land_spec, Hbit, Z.pow2_bits_true by lia; reflexivity).
  rewrite Hzero, Z.bits_0 in Hk'. discriminate.
- apply Z.eqb_eq. apply Z.bits_inj'. intros n Hn.
  rewrite Z.land_spec, Z.bits_0, Z.pow2_bits_eqb by lia.
  destruct (Z.eqb_spec k n) as [<- | _]; [ rewrite Hbit | rewrite andb_false_r ]; reflexivity.
Qed.

Lemma testbit_uint8 (x k : Z) : 0 <= k < 8 -> Z.testbit (uint8 x) k = Z.testbit x k.
Proof.
intros Hk. unfold uint8. change 256 with (2 ^ 8).
apply Z.mod_pow2_bits_low. lia.
Qed.

Lemma channel_index_split (n : Z) :
  0 <= n -> Z.quot n 8 = n / 8 /\ Z.land n 7 = n mod 8 /\ 0 <= n mod 8 < 8.
Proof.
intros Hn. split; [ apply Z.quot_div_nonneg; lia | ]. split.
- change 7 with (Z.ones 3). apply Z.land_ones. lia.
- apply Z.mod_pos_bound. lia.
Qed.

(** What [setup_bank] changes in the bitmaps: the bit of its channel in
    its bank, and no other. *)
Lemma ft60_setup_bank_bit (m : memory) (b c b' n : Z) :
  0 <= b -> 0 <= b' -> 0 <= c < FT60.NCHAN -> 0 <= n < FT60.NCHAN ->
  (FT60.chan_in_bank (FT60.setup_bank m b c) (FT60.OFFSET_BANKS + b' * 0x80) n =? 0) =
  negb ((b' =? b) && (n =? c)) &&
  (FT60.chan_in_bank m (FT60.OFFSET_BANKS + b' * 0x80) n =? 0).
Proof.
unfold FT60.NCHAN. intros Hb Hb' Hc Hn.
unfold FT60.chan_in_bank, FT60.setup_bank. cbv zeta.
destruct (channel_index_split c) as (Qc & Lc & Rc); [ lia | ].
destruct (channel_index_split n) as (Qn & Ln & Rn); [ lia | ].
rewrite Qc, Lc, Qn, Ln.
assert (Hc8 : 0 <= c / 8 < 125)
  by (split; [ apply Z.div_pos | apply Z.div_lt_upper_bound ]; lia).
assert (Hn8 : 0 <= n / 8 < 125)
  by (split; [ apply Z.div_pos | apply Z.div_lt_upper_bound ]; lia).
rewrite !land_bit_zero by lia.
pose proof (Z.div_mod c 8) as Dc. pose proof (Z.div_mod n 8) as Dn.
destruct (Z.eq_dec (FT60.OFFSET_BANKS + b' * 128 + n / 8)
                   (FT60.OFFSET_BANKS + b * 128 + c / 8)) as [Esame | Eother].
- assert (Ebank : b' = b) by lia. assert (Ebyte : n / 8 = c / 8) by lia.
  rewrite Esame, load_store_same, testbit_uint8 by lia.
  rewrite Z.lor_spec, Z.shiftl_1_l, Z.pow2_bits_eqb by lia.
  subst b'. rewrite Z.eqb_refl. cbn [andb].
  destruct (Z.eqb_spec (c mod 8) (n mod 8)) as [Ebit | Ebit].
  + replace (n =? c) with true by (symmetry; apply Z.eqb_eq; lia).
    rewrite orb_true_r. reflexivity.
  + replace (n =? c) with false by (symmetry; apply Z.eqb_neq; lia).
    rewrite orb_false_r. reflexivity.
- rewrite load_store_other by lia.
  replace ((b' =? b) && (n =? c)) with false; [ reflexivity | ].
  symmetry. apply andb_false_iff.
  destruct (Z.eqb_spec b' b) as [-> | _]; [ right | left; reflexivity ].
  apply Z.eqb_neq. intros ->. apply Eother. reflexivity.
Qed.

Lemma ft60_in_bank_members (m : memory) (b k : Z) :
  In k (FT60.bank_members m b) <->
  1 <= k <= FT60.NCHAN /\
  FT60.chan_in_bank m (FT60.OFFSET_BANKS + b * 0x80) (k - 1) <> 0.
Proof.
unfold FT60.bank_members. rewrite in_map_iff. split.
- intros (n & <- & Hin). apply filter_In in Hin. destruct Hin as [Hrange Hbit].
  apply In_Z_range in Hrange. apply negb_true_iff, Z.eqb_neq in Hbit.
  replace (n + 1 - 1) with n by lia. split; [ lia | exact Hbit ].
- intros [Hk Hbit]. exists (k - 1). split; [ lia | ].
  apply filter_In. split; [ apply In_Z_range; lia | ].
  apply negb_true_iff, Z.eqb_neq. exact Hbit.
Qed.

(** [setup_bank] adds its channel to its bank: the channel numbers that
    [print_bank] finds in a bank afterwards are those it found before and,
    in the bank that was named, the channel that was named. *)
Theorem ft60_setup_bank_adds :
  forall (m : memory) (b c b' k : Z),
    0 <= b -> 0 <= b' -> 0 <= c < FT60.NCHAN ->
    (In k (FT60.bank_members (FT60.setup_bank m b c) b') <->
     (b' = b /\ k = c + 1) \/ In k (FT60.bank_members m b')).
Proof.
intros m b c b' k Hb Hb' Hc.
rewrite !ft60_in_bank_members. split.
- intros [Hk Hset].
  pose proof (ft60_setup_bank_bit m b c b' (k - 1) Hb Hb' Hc ltac:(lia)) as Hbit.
  apply Z.eqb_neq in Hset. rewrite Hset in Hbit.
  symmetry in Hbit. apply andb_false_iff in Hbit. destruct Hbit as [Hnew | Hold].
  + left. apply negb_false_iff, andb_true_iff in Hnew. destruct Hnew as [E1 E2].
    apply Z.eqb_eq in E1. apply Z.eqb_eq in E2. lia.
  + right. split; [ exact Hk | apply Z.eqb_neq; exact Hold ].
- intros [[-> ->] | [Hk Hset]].
  + split; [ lia | ]. apply Z.eqb_neq.
    rewrite ft60_setup_bank_bit by lia.
    replace (c + 1 - 1) with c by lia. rewrite !Z.eqb_refl. reflexivity.
  + split; [ exact Hk | ]. apply Z.eqb_neq.
    rewrite ft60_setup_bank_bit by lia.
    apply Z.eqb_neq in Hset. rewrite Hset. apply andb_false_r.
Qed.

Lemma ft60_setup_bank_adds_witness :
  In 8 (FT60.bank_members (FT60.setup_bank (fun _ => 0) 2 7) 2) <->
  (2 = 2 /\ 8 = 7 + 1) \/ In 8 (FT60.bank_members (fun _ => 0) 2).
Proof.
apply (ft60_setup_bank_adds (fun _ => 0) 2 7 2 8); unfold FT60.NCHAN; lia.
Defined.

(** A byte none of whose eight bits is set is zero. *)
Lemma byte_without_bits (x : Z) :
  0 <= x < 256 -> (forall k, 0 <= k < 8 -> Z.testbit x k = false) -> x = 0.
Proof.
intros Hx Hbits. apply Z.bits_inj'. intros n Hn. rewrite Z.bits_0.
destruct (Z_lt_ge_dec n 8) as [Hlow | Hhigh]; [ apply Hbits; lia | ].
destruct (Z.eq_dec x 0) as [-> | Hnz]; [ apply Z.bits_0 | ].
apply Z.bits_above_log2; [ lia | ].
assert (Z.log2 x < 8) by (apply Z.log2_lt_pow2; lia). lia.
Qed.

Lemma ft60_have_bank_members (m : memory) (b : Z) :
  FT60.have_bank m b = 0 <-> FT60.bank_members m b = [].
Proof.
unfold FT60.have_bank. cbv zeta. split.
- intros Hnone.
  destruct (existsb _ _) eqn:Hex; [ discriminate | ].
  destruct (FT60.bank_members m b) as [| k rest] eqn:Hmem; [ reflexivity | exfalso ].
  assert (Hin : In k (FT60.bank_members m b)) by (rewrite Hmem; left; reflexivity).
  apply ft60_in_bank_members in Hin. destruct Hin as [Hk Hbit].
  unfold FT60.NCHAN in Hk. apply Hbit. unfold FT60.chan_in_bank.
  destruct (channel_index_split (k - 1)) as (Q & _ & _); [ lia | ]. rewrite Q.
  assert (Hbyte : load m (FT60.OFFSET_BANKS + b * 128 + (k - 1) / 8) = 0).
  { destruct (Z.eqb_spec (load m (FT60.OFFSET_BANKS + b * 128 + (k - 1) / 8)) 0)
      as [E | NE]; [ exact E | exfalso ].
    apply not_true_iff_false in Hex. apply Hex. apply existsb_exists.
    exists ((k - 1) / 8). split.
    - apply In_Z_range. change (Z.quot FT60.NCHAN 8) with 125.
      split; [ apply Z.div_pos | apply Z.div_lt_upper_bound ]; lia.
    - apply negb_true_iff, Z.eqb_neq. exact NE. }
  rewrite Hbyte. apply Z.land_0_l.
- intros Hmem.
  destruct (existsb _ _) eqn:Hex; [ exfalso | reflexivity ].
  apply existsb_exists in Hex. destruct Hex as (c & Hc & Hbyte).
  apply In_Z_range in Hc. change (Z.quot FT60.NCHAN 8) with 125 in Hc.
  apply negb_true_iff, Z.eqb_neq in Hbyte. apply Hbyte.
  apply byte_without_bits; [ apply load_range | ].
  intros k Hk.
  destruct (Z.testbit (load m (FT60.OFFSET_BANKS + b * 128 + c)) k) eqn:Hbit;
    [ exfalso | reflexivity ].
  assert (Hin : In (8 * c + k + 1) (FT60.bank_members m b)).
  { apply ft60_in_bank_members. unfold FT60.NCHAN. split; [ lia | ].
    replace (8 * c + k + 1 - 1) with (8 * c + k) by lia.
    unfold FT60.chan_in_bank.
    destruct (channel_index_split (8 * c + k)) as (Q & L & _); [ lia | ].
    rewrite Q, L.
    replace ((8 * c + k) / 8) with c
      by (apply Z.div_unique with (r := k); lia).
    replace ((8 * c + k) mod 8) with k
      by (apply Z.mod_unique with (q := c); lia).
    apply Z.eqb_neq. rewrite land_bit_zero by lia. rewrite Hbit. reflexivity. }
  rewrite Hmem in Hin. exact Hin.
Qed.

(** [have_bank] and [have_banks], which decide what [ft60_print_config]
    lists, agree with [print_bank]: a bank is found empty exactly when it
    holds no channel, and the banks are found unused exactly when each of
    the ten holds none. *)
Theorem ft60_have_banks_iff_members :
  forall m : memory,
    (forall b, FT60.have_bank m b = 0 <-> FT60.bank_members m b = []) /\
    (FT60.have_banks m = 0 <->
     forall b, 0 <= b < FT60.NBANKS -> FT60.bank_members m b = []).
Proof.
intros m. split; [ apply ft60_have_bank_members | ].
unfold FT60.have_banks. split.
- intros Hnone b Hb.
  destruct (existsb _ _) eqn:Hex; [ discriminate | ].
  apply ft60_have_bank_members.
  destruct (Z.eqb_spec (FT60.have_bank m b) 0) as [E | NE]; [ exact E | exfalso ].
  apply not_true_iff_false in Hex. apply Hex. apply existsb_exists.
  exists b. split; [ apply In_Z_range; exact Hb | ].
  apply negb_true_iff, Z.eqb_neq. exact NE.
- intros Hall.
  destruct (existsb _ _) eqn:Hex; [ exfalso | reflexivity ].
  apply existsb_exists in Hex. destruct Hex as (b & Hb & Hhave).
  apply In_Z_range in Hb. apply negb_true_iff, Z.eqb_neq in Hhave.
  apply Hhave. apply ft60_have_bank_members. apply Hall. exact Hb.
Qed.

(** ** Channel flags of the VX-2: four bits per channel *)

(** The two statements of [set_flags] on one byte, for either half. *)
Lemma nibble_update (x f : Z) :
  0 <= x < 256 -> 0 <= f < 16 ->
  let lo := uint8 (Z.lor (uint8 (Z.land x (Z.lnot (Z.shiftl 15 0)))) (Z.shiftl f 0)) in
  let hi := uint8 (Z.lor (uint8 (Z.land x (Z.lnot (Z.shiftl 15 4)))) (Z.shiftl f 4)) in
  (Z.land lo 15 = f /\ Z.land (Z.shiftr lo 4) 15 = Z.land (Z.shiftr x 4) 15) /\
  (Z.land hi 15 = Z.land x 15 /\ Z.land (Z.shiftr hi 4) 15 = f).
Proof.
intros Hx Hf.
pose (g := fun x f =>
  let lo := uint8 (Z.lor (uint8 (Z.land x (Z.lnot (Z.shiftl 15 0)))) (Z.shiftl f 0)) in
  let hi := uint8 (Z.lor (uint8 (Z.land x (Z.lnot (Z.shiftl 15 4)))) (Z.shiftl f 4)) in
  (Z.land lo 15 =? f) && (Z.land (Z.shiftr lo 4) 15 =? Z.land (Z.shiftr x 4) 15) &&
  (Z.land hi 15 =? Z.land x 15) && (Z.land (Z.shiftr hi 4) 15 =? f)).
assert (Hg : g x f = true).
{ apply (below_forallb (fun x => forallb (fun k => g x (Z.of_nat k)) (seq 0 16)) 256)
    with (z := x) in Hx; [ | vm_compute; reflexivity ].
  apply (below_forallb (g x) 16); assumption. }
unfold g in Hg. cbv zeta in Hg.
apply andb_prop in Hg. destruct Hg as [Hg H4].
apply andb_prop in Hg. destruct Hg as [Hg H3].
apply andb_prop in Hg. destruct Hg as [H1 H2].
apply Z.eqb_eq in H1. apply Z.eqb_eq in H2. apply Z.eqb_eq in H3. apply Z.eqb_eq in H4.
cbv zeta. repeat split; assumption.
Qed.

Lemma flag_index_split (i : Z) :
  0 <= i ->
  Z.quot i 2 = i / 2 /\ Z.land i 1 = i mod 2 /\ (i mod 2 = 0 \/ i mod 2 = 1).
Proof.
intros Hi. split; [ apply Z.quot_div_nonneg; lia | ]. split.
- change 1 with (Z.ones 1). apply Z.land_ones. lia.
- pose proof (Z.mod_pos_bound i 2). lia.
Qed.

Lemma vx2_get_set_flags (m : memory) (i j f : Z) :
  0 <= i -> 0 <= j -> 0 <= f < 16 ->
  VX2.get_flags (VX2.set_flags m i f) j = if j =? i then f else VX2.get_flags m j.
Proof.
intros Hi Hj Hf.
unfold VX2.get_flags, VX2.set_flags. cbv zeta.
destruct (flag_index_split i Hi) as (Qi & Li & Ri).
destruct (flag_index_split j Hj) as (Qj & Lj & Rj).
rewrite Qi, Li, Qj, Lj.
pose proof (Z.div_mod i 2) as Di. pose proof (Z.div_mod j 2) as Dj.
destruct (Z.eq_dec (j / 2) (i / 2)) as [Ebyte | Ebyte].
- rewrite Ebyte. rewrite !load_store_same.
  destruct (nibble_update (load m (VX2.OFFSET_FLAGS + i / 2)) f (load_range _ _) Hf)
    as [[L1 L2] [H1 H2]].
  destruct Ri as [Ri | Ri], Rj as [Rj | Rj]; rewrite Ri, Rj; cbn [Z.eqb negb Z.mul].
  + replace (j =? i) with true by (symmetry; apply Z.eqb_eq; lia). exact L1.
  + replace (j =? i) with false by (symmetry; apply Z.eqb_neq; lia). exact L2.
  + replace (j =? i) with false by (symmetry; apply Z.eqb_neq; lia). exact H1.
  + replace (j =? i) with true by (symmetry; apply Z.eqb_eq; lia). exact H2.
- rewrite !load_store_other by lia.
  replace (j =? i) with false; [ reflexivity | ].
  symmetry. apply Z.eqb_neq. intros ->. apply Ebyte. reflexivity.
Qed.

(** [set_flags] gives channel [i] its four flags and leaves those of every
    other channel, the one that shares the byte included. *)
Theorem vx2_flags_set_get :
  forall (m : memory) (i j f : Z),
    0 <= i -> 0 <= j -> 0 <= f < 16 ->
    VX2.get_flags (VX2.set_flags m i f) j = if j =? i then f else VX2.get_flags m j.
Proof. intros m i j f. apply vx2_get_set_flags. Qed.

(** The statement at channel 8 (index 7) of an image whose every byte is
    0xff, given the flags 3, and at channel 7, which shares its byte. *)
Lemma vx2_flags_set_get_witness :
  VX2.get_flags (VX2.set_flags (fun _ => 0xff) 7 3) 7 = 3 /\
  VX2.get_flags (VX2.set_flags (fun _ => 0xff) 7 3) 6 = 15.
Proof.
split.
- apply (vx2_flags_set_get (fun _ => 0xff) 7 7 3); lia.
- apply (vx2_flags_set_get (fun _ => 0xff) 7 6 3); lia.
Defined.

(** ** Channel names *)

Lemma load_fold_store (f : Z -> Z) (a : Z) (l : list Z) :
  forall (m : memory) (x : Z),
    load (fold_left (fun m n => store m (a + n) (f n)) l m) x =
    if existsb (fun n => x =? a + n) l then uint8 (f (x - a)) else load m x.
Proof.
induction l as [| n l IH]; intros m x; cbn [fold_left existsb].
- reflexivity.
- rewrite IH. destruct (existsb _ l); [ rewrite orb_true_r; reflexivity | ].
  rewrite orb_false_r. destruct (Z.eqb_spec x (a + n)) as [-> | Hne].
  + rewrite load_store_same. replace (a + n - a) with n by lia. reflexivity.
  + apply load_store_other. congruence.
Qed.

Lemma existsb_Z_range (a lo hi x : Z) :
  existsb (fun n => x =? a + n) (Z_range lo hi) = (lo <=? x - a) && (x - a <? hi).
Proof.
destruct (existsb _ _) eqn:Hex.
- apply existsb_exists in Hex. destruct Hex as (n & Hn & E).
  apply In_Z_range in Hn. apply Z.eqb_eq in E. symmetry.
  apply andb_true_iff. split; [ apply Z.leb_le | apply Z.ltb_lt ]; lia.
- symmetry. apply not_true_iff_false. intros Hin.
  apply andb_true_iff in Hin. destruct Hin as [Hlo Hhi].
  apply Z.leb_le in Hlo. apply Z.ltb_lt in Hhi.
  apply not_true_iff_false in Hex. apply Hex. apply existsb_exists.
  exists (x - a). split; [ apply In_Z_range; lia | apply Z.eqb_eq; lia ].
Qed.

(** A field of the form [store m (a + n) (f n)] for [n] from [lo] on. *)
Lemma load_fold_store_range (f : Z -> Z) (a lo hi : Z) (m : memory) (x : Z) :
  load (fold_left (fun m n => store m (a + n) (f n)) (Z_range lo hi) m) x =
  if (lo <=? x - a) && (x - a <? hi) then uint8 (f (x - a)) else load m x.
Proof. rewrite load_fold_store, existsb_Z_range. reflexivity. Qed.

(** The characters of a string that holds no NUL. *)
Lemma char_at_nth (s : string) :
  forallb (fun c => negb (is_nul c)) (list_ascii_of_string s) = true ->
  c_str s = s /\
  forall n, char_at s n = nth n (map code (list_ascii_of_string s)) 0.
Proof.
induction s as [| c s IH]; cbn [list_ascii_of_string forallb c_str map].
- intros _. split; [ reflexivity | ]. intros [| n]; reflexivity.
- intros Hall. apply andb_true_iff in Hall. destruct Hall as [Hc Hs].
  apply negb_true_iff in Hc. destruct (IH Hs) as [Hstr Hat].
  rewrite Hc, Hstr. split; [ reflexivity | ].
  intros [| n]; cbn [char_at nth]; rewrite Hc; [ reflexivity | apply Hat ].
Qed.

(** What the FT-60 makes of each character it keeps. *)
Lemma ft60_keeps_char (c : ascii) :
  ft60_keeps c = true ->
  is_nul c = false /\
  FT60.name_char (uint8 (FT60.encode_char (code c))) = c.
Proof.
destruct c as [[] [] [] [] [] [] [] []]; intros H; try discriminate H;
  split; reflexivity.
Qed.

Lemma vx2_keeps_char (c : ascii) :
  vx2_keeps c = true ->
  is_nul c = false /\
  VX2.name_char (Z.land (uint8 (VX2.encode_char (code c))) 0x7f) = c /\
  VX2.name_char (Z.land (uint8 (Z.lor (uint8 (VX2.encode_char (code c))) 0x80)) 0x7f) = c /\
  (Z.land (uint8 (Z.lor (uint8 (VX2.encode_char (code c))) 0x80)) 0x7f <? VX2.NCHARS) = true /\
  (Z.land (uint8 (VX2.encode_char (code c))) 0x7f <? VX2.NCHARS) = true.
Proof.
destruct c as [[] [] [] [] [] [] [] []]; intros H; try discriminate H;
  repeat split; reflexivity.
Qed.

(** Six characters read from the image where a name of [len] characters
    was stored and padded. *)
Lemma padded_name (l : list ascii) (u : ascii) :
  (List.length l <= 6)%nat ->
  map (fun n => if n <? Z.of_nat (List.length l) then nth (Z.to_nat n) l u else u)
      (Z_range 0 6) =
  app l (repeat u (6 - List.length l)).
Proof.
intros Hlen.
destruct l as [| c1 [| c2 [| c3 [| c4 [| c5 [| c6 [| c7 l]]]]]]];
  try reflexivity.
cbn [List.length] in Hlen. lia.
Qed.

Lemma drop_leading_underscores (drop : list ascii -> list ascii) (u : ascii) :
  (forall c r, drop (c :: r) = if code c =? 95 then drop r else c :: r) ->
  code u = 95 ->
  forall k r, drop (app (repeat u k) r) = drop r.
Proof.
intros Hdrop Hu. induction k as [| k IH]; intros r; cbn [repeat app].
- reflexivity.
- rewrite Hdrop, Hu. cbn. apply IH.
Qed.

(** Stripping the padding gives the name back when it does not end with
    an underscore itself. *)
Lemma strip_padding (drop : list ascii -> list ascii) (u : ascii) (l : list ascii) (k : nat) :
  (forall c r, drop (c :: r) = if code c =? 95 then drop r else c :: r) ->
  code u = 95 ->
  l <> [] -> code (List.last l Space) <> 95 ->
  rev (drop (rev (app l (repeat u k)))) = l.
Proof.
intros Hdrop Hu Hne Hlast.
rewrite rev_app_distr, rev_repeat.
rewrite (drop_leading_underscores drop u Hdrop Hu).
destruct (exists_last Hne) as (front & c & ->).
rewrite last_last in Hlast.
rewrite rev_app_distr. cbn [rev app].
rewrite Hdrop. destruct (Z.eqb_spec (code c) 95) as [E | _]; [ contradiction | ].
cbn [rev]. rewrite rev_involutive. reflexivity.
Qed.

(** What a kept name consists of. *)
Lemma kept_name_facts (keeps : ascii -> bool) (s : string) :
  kept_name keeps s = true ->
  let l := list_ascii_of_string s in
  (1 <= List.length l <= 6)%nat /\ forallb keeps l = true /\
  code (hd Space l) <> 45 /\ code (List.last l Space) <> 95.
Proof.
unfold kept_name. cbv zeta. intros H.
apply andb_true_iff in H. destruct H as [H Hlast].
apply andb_true_iff in H. destruct H as [H Hfirst].
apply andb_true_iff in H. destruct H as [H Hall].
apply andb_true_iff in H. destruct H as [Hlo Hhi].
apply Z.leb_le in Hlo. apply Z.leb_le in Hhi.
apply negb_true_iff, Z.eqb_neq in Hfirst. apply negb_true_iff, Z.eqb_neq in Hlast.
repeat split; try assumption; lia.
Qed.

Lemma forallb_nth {A : Type} (p : A -> bool) (l : list A) (d : A) (n : nat) :
  forallb p l = true -> (n < List.length l)%nat -> p (nth n l d) = true.
Proof.
intros Hall Hn. rewrite forallb_forall in Hall. apply Hall. apply nth_In. exact Hn.
Qed.

Lemma string_length_list (s : string) :
  String.length s = List.length (list_ascii_of_string s).
Proof. induction s as [| c s IH]; cbn; [ reflexivity | rewrite IH; reflexivity ]. Qed.

Lemma char_at_first (s : string) :
  forallb (fun c => negb (is_nul c)) (list_ascii_of_string s) = true ->
  s <> EmptyString ->
  char_at s 0 = code (hd Space (list_ascii_of_string s)) /\ char_at s 0 <> 0.
Proof.
destruct s as [| c s]; [ intros _ H; contradiction | ].
cbn [list_ascii_of_string forallb hd char_at]. intros Hall _.
apply andb_true_iff in Hall. destruct Hall as [Hc _].
apply negb_true_iff in Hc. rewrite Hc. split; [ reflexivity | ].
unfold is_nul in Hc. apply Z.eqb_neq. exact Hc.
Qed.

(** *** FT-60 *)

(** The record [encode_name] leaves for a name that is given. *)
Lemma ft60_encode_name_named (m : memory) (i : Z) (s : string) :
  let text := c_str s in
  let nm := FT60.OFFSET_NAMES + i * 8 in
  let m' := FT60.encode_name m i (Some s) in
  char_at text 0 <> 0 -> char_at text 0 <> 45 ->
  FT60.nm_valid m' nm = 1 /\ FT60.nm_used m' nm = 1 /\
  forall n, 0 <= n < 6 ->
    load m' (nm + n) =
    if n <? Z.min 6 (Z.of_nat (String.length text))
    then uint8 (FT60.encode_char (char_at text (Z.to_nat n)))
    else FT60.SPACE.
Proof.
cbv zeta. intros Hnul Hdash. unfold FT60.encode_name. cbv zeta.
apply Z.eqb_neq in Hnul. apply Z.eqb_neq in Hdash. rewrite Hnul, Hdash. cbn [negb andb].
set (nm := FT60.OFFSET_NAMES + i * 8).
set (len := Z.min 6 (Z.of_nat (String.length (c_str s)))).
assert (Hlen : 0 <= len <= 6) by (subst len; lia).
split; [ | split ].
- unfold FT60.nm_valid, load_field.
  rewrite (load_fold_store_range (fun _ => FT60.SPACE)).
  replace ((len <=? nm + 7 - nm) && (nm + 7 - nm <? 6)) with false
    by (symmetry; apply andb_false_iff; right; apply Z.ltb_ge; lia).
  rewrite (load_fold_store_range (fun n => FT60.encode_char (char_at (c_str s) (Z.to_nat n)))).
  replace ((0 <=? nm + 7 - nm) && (nm + 7 - nm <? len)) with false
    by (symmetry; apply andb_false_iff; right; apply Z.ltb_ge; lia).
  fold (load_field (store_field (store_field m (nm + 7) 7 1 1) (nm + 6) 7 1 1) (nm + 7) 7 1).
  rewrite load_field_store_field_apart by lia.
  apply load_field_store_field_same; lia.
- unfold FT60.nm_used, load_field.
  rewrite (load_fold_store_range (fun _ => FT60.SPACE)).
  replace ((len <=? nm + 6 - nm) && (nm + 6 - nm <? 6)) with false
    by (symmetry; apply andb_false_iff; right; apply Z.ltb_ge; lia).
  rewrite (load_fold_store_range (fun n => FT60.encode_char (char_at (c_str s) (Z.to_nat n)))).
  replace ((0 <=? nm + 6 - nm) && (nm + 6 - nm <? len)) with false
    by (symmetry; apply andb_false_iff; right; apply Z.ltb_ge; lia).
  fold (load_field (store_field (store_field m (nm + 7) 7 1 1) (nm + 6) 7 1 1) (nm + 6) 7 1).
  apply load_field_store_field_same; lia.
- intros n Hn.
  rewrite (load_fold_store_range (fun _ => FT60.SPACE)).
  replace (nm + n - nm) with n by lia.
  destruct (Z.ltb_spec n len) as [Hin | Hout].
  + replace ((len <=? n) && (n <? 6)) with false
      by (symmetry; apply andb_false_iff; left; apply Z.leb_gt; lia).
    rewrite (load_fold_store_range (fun n => FT60.encode_char (char_at (c_str s) (Z.to_nat n)))).
    replace (nm + n - nm) with n by lia.
    replace ((0 <=? n) && (n <? len)) with true
      by (symmetry; apply andb_true_iff; split; [ apply Z.leb_le | apply Z.ltb_lt ]; lia).
    reflexivity.
  + replace ((len <=? n) && (n <? 6)) with true
      by (symmetry; apply andb_true_iff; split; [ apply Z.leb_le | apply Z.ltb_lt ]; lia).
    reflexivity.
Qed.

Lemma ft60_name_kept (m : memory) (i : Z) (s buf : string) :
  kept_name ft60_keeps s = true ->
  FT60.decode_name (FT60.encode_name m i (Some s)) i buf = s.
Proof.
intros Hkept. destruct (kept_name_facts _ _ Hkept) as (Hlen & Hall & Hfirst & Hlast).
set (l := list_ascii_of_string s) in *.
assert (Hnonul : forallb (fun c => negb (is_nul c)) l = true).
{ apply forallb_forall. intros c Hc. rewrite forallb_forall in Hall.
  destruct (ft60_keeps_char c (Hall c Hc)) as [-> _]. reflexivity. }
destruct (char_at_nth s Hnonul) as [Hstr Hat].
assert (Hs : s <> EmptyString) by (intros ->; cbn in Hlen; lia).
destruct (char_at_first s Hnonul Hs) as [Hhead Hnz]. fold l in Hhead.
destruct (ft60_encode_name_named m i s) as (Hvalid & Hused & Hbytes);
  [ rewrite Hstr; exact Hnz | rewrite Hstr, Hhead; exact Hfirst | ].
unfold FT60.decode_name. cbv zeta. rewrite Hvalid, Hused. cbn [Z.eqb negb andb].
transitivity (string_of_list_ascii l);
  [ f_equal | apply string_of_list_ascii_of_string ].
rewrite (map_ext_in _
  (fun n => if n <? Z.of_nat (List.length l)
            then nth (Z.to_nat n) l FT60.underscore else FT60.underscore)).
- rewrite padded_name by lia.
  apply (strip_padding FT60.drop_underscores); try reflexivity; try assumption.
  intros E. rewrite E in Hlen. cbn in Hlen. lia.
- intros n Hn. apply In_Z_range in Hn. rewrite Hbytes by lia.
  rewrite Hstr, string_length_list. fold l.
  replace (Z.min 6 (Z.of_nat (List.length l))) with (Z.of_nat (List.length l)) by lia.
  destruct (Z.ltb_spec n (Z.of_nat (List.length l))) as [Hin | Hout]; [ | reflexivity ].
  rewrite Hat. fold l.
  rewrite (nth_indep _ 0 (code FT60.underscore)) by (rewrite length_map; lia).
  rewrite map_nth.
  apply ft60_keeps_char. apply forallb_nth; [ exact Hall | lia ].
Qed.

(** A name that is a dash, empty or absent clears the record, and
    [decode_name] leaves the buffer as it finds it. *)
Lemma ft60_no_name (m : memory) (i : Z) (name : option string) (buf : string) :
  (match name with
   | Some s => char_at (c_str s) 0 = 0 \/ char_at (c_str s) 0 = 45
   | None => True
   end) ->
  FT60.decode_name (FT60.encode_name m i name) i buf = buf.
Proof.
intros Hnone. unfold FT60.decode_name, FT60.encode_name. cbv zeta.
set (nm := FT60.OFFSET_NAMES + i * 8).
set (text := match name with Some s => c_str s | None => EmptyString end).
assert (Hcond : negb (char_at text 0 =? 0) && negb (char_at text 0 =? 45) = false).
{ subst text. destruct name as [s |].
  - destruct Hnone as [-> | ->]; reflexivity.
  - reflexivity. }
rewrite Hcond.
assert (Hvalid : FT60.nm_valid
          (fold_left (fun m n => store m (nm + n) 255) (Z_range 0 6)
             (store_field (store_field m (nm + 7) 7 1 0) (nm + 6) 7 1 0)) nm = 0).
{ unfold FT60.nm_valid, load_field.
  rewrite (load_fold_store_range (fun _ => 255)).
  replace ((0 <=? nm + 7 - nm) && (nm + 7 - nm <? 6)) with false
    by (symmetry; apply andb_false_iff; right; apply Z.ltb_ge; lia).
  fold (load_field (store_field (store_field m (nm + 7) 7 1 0) (nm + 6) 7 1 0) (nm + 7) 7 1).
  rewrite load_field_store_field_apart by lia.
  apply load_field_store_field_same; lia. }
rewrite Hvalid. reflexivity.
Qed.

(** *** VX-2 *)

Lemma vx2_encode_name_bytes (m : memory) (a : Z) (name : option string) :
  let text0 := match name with Some s => c_str s | None => EmptyString end in
  let text := if (char_at text0 0 =? 0) || (char_at text0 0 =? 45)
              then "      " else text0 in
  let stored := fun n => if n <? Z.min 6 (Z.of_nat (String.length text))
                         then uint8 (VX2.encode_char (char_at text (Z.to_nat n)))
                         else VX2.SPACE in
  let m' := VX2.encode_name m a name in
  load m' a = (if negb (stored 0 =? VX2.SPACE)
               then uint8 (Z.lor (stored 0) 0x80) else stored 0) /\
  (forall n, 0 < n < 6 -> load m' (a + n) = stored n) /\
  (forall x, x < a \/ a + 6 <= x -> load m' x = load m x).
Proof.
cbv zeta. unfold VX2.encode_name. cbv zeta.
set (text0 := match name with Some s => c_str s | None => EmptyString end).
set (text := if (char_at text0 0 =? 0) || (char_at text0 0 =? 45)
             then "      " else text0).
set (len := Z.min 6 (Z.of_nat (String.length text))).
assert (Hlen : 0 <= len <= 6) by (subst len; lia).
set (m2 := fold_left (fun m n => store m (a + n) VX2.SPACE) (Z_range len 6)
             (fold_left (fun m n => store m (a + n)
                           (VX2.encode_char (char_at text (Z.to_nat n))))
                        (Z_range 0 len) m)).
assert (Hm2 : forall n, 0 <= n < 6 ->
          load m2 (a + n) =
          if n <? len then uint8 (VX2.encode_char (char_at text (Z.to_nat n)))
          else VX2.SPACE).
{ intros n Hn. subst m2.
  rewrite (load_fold_store_range (fun _ => VX2.SPACE)).
  replace (a + n - a) with n by lia.
  destruct (Z.ltb_spec n len) as [Hin | Hout].
  - replace ((len <=? n) && (n <? 6)) with false
      by (symmetry; apply andb_false_iff; left; apply Z.leb_gt; lia).
    rewrite (load_fold_store_range
               (fun n => VX2.encode_char (char_at text (Z.to_nat n)))).
    replace (a + n - a) with n by lia.
    replace ((0 <=? n) && (n <? len)) with true
      by (symmetry; apply andb_true_iff; split; [ apply Z.leb_le | apply Z.ltb_lt ]; lia).
    reflexivity.
  - replace ((len <=? n) && (n <? 6)) with true
      by (symmetry; apply andb_true_iff; split; [ apply Z.leb_le | apply Z.ltb_lt ]; lia).
    reflexivity. }
assert (Hframe : forall x, x < a \/ a + 6 <= x -> load m2 x = load m x).
{ intros x Hx. subst m2.
  rewrite (load_fold_store_range (fun _ => VX2.SPACE)).
  replace ((len <=? x - a) && (x - a <? 6)) with false
    by (symmetry; apply andb_false_iff;
        destruct Hx; [ left; apply Z.leb_gt | right; apply Z.ltb_ge ]; lia).
  rewrite (load_fold_store_range
             (fun n => VX2.encode_char (char_at text (Z.to_nat n)))).
  replace ((0 <=? x - a) && (x - a <? len)) with false
    by (symmetry; apply andb_false_iff;
        destruct Hx; [ left; apply Z.leb_gt | right; apply Z.ltb_ge ]; lia).
  reflexivity. }
pose proof (Hm2 0 ltac:(lia)) as H0. replace (a + 0) with a in H0 by lia.
rewrite H0.
destruct (negb _) eqn:Hflag.
- split; [ | split ].
  + rewrite load_store_same. reflexivity.
  + intros n Hn. rewrite load_store_other by lia. apply Hm2. lia.
  + intros x Hx. rewrite load_store_other by lia. apply Hframe. exact Hx.
- split; [ exact H0 | split ].
  + intros n Hn. apply Hm2. lia.
  + exact Hframe.
Qed.

Lemma vx2_name_kept (m : memory) (a : Z) (s buf : string) :
  kept_name vx2_keeps s = true ->
  VX2.decode_name (VX2.encode_name m a (Some s)) a buf = s.
Proof.
intros Hkept. destruct (kept_name_facts _ _ Hkept) as (Hlen & Hall & Hfirst & Hlast).
set (l := list_ascii_of_string s) in *.
assert (Hnonul : forallb (fun c => negb (is_nul c)) l = true).
{ apply forallb_forall. intros c Hc. rewrite forallb_forall in Hall.
  destruct (vx2_keeps_char c (Hall c Hc)) as [-> _]. reflexivity. }
destruct (char_at_nth s Hnonul) as [Hstr Hat].
assert (Hs : s <> EmptyString) by (intros ->; cbn in Hlen; lia).
destruct (char_at_first s Hnonul Hs) as [Hhead Hnz]. fold l in Hhead.
destruct (vx2_encode_name_bytes m a (Some s)) as (Hzero & Hbytes & _).
cbv zeta in Hzero, Hbytes. rewrite Hstr in Hzero, Hbytes.
assert (Hnamed : (char_at s 0 =? 0) || (char_at s 0 =? 45) = false).
{ apply orb_false_iff. split; apply Z.eqb_neq; [ exact Hnz | ].
  rewrite Hhead. exact Hfirst. }
rewrite Hnamed in Hzero, Hbytes.
rewrite string_length_list in Hzero, Hbytes. fold l in Hzero, Hbytes.
replace (Z.min 6 (Z.of_nat (List.length l))) with (Z.of_nat (List.length l))
  in Hzero, Hbytes by lia.
assert (Hchar : forall n, 0 <= n < Z.of_nat (List.length l) ->
          char_at s (Z.to_nat n) = code (nth (Z.to_nat n) l VX2.underscore) /\
          vx2_keeps (nth (Z.to_nat n) l VX2.underscore) = true).
{ intros n Hn. split.
  - rewrite Hat. fold l.
    rewrite (nth_indep _ 0 (code VX2.underscore)) by (rewrite length_map; lia).
    apply map_nth.
  - apply forallb_nth; [ exact Hall | lia ]. }
replace (0 <? Z.of_nat (List.length l)) with true in Hzero
  by (symmetry; apply Z.ltb_lt; lia).
destruct (Hchar 0 ltac:(lia)) as [Hc0 Hk0]. rewrite Hc0 in Hzero.
destruct (vx2_keeps_char _ Hk0) as (_ & Dplain & Dflag & Vflag & Vplain).
unfold VX2.decode_name.
assert (Hshown : (Z.land (load (VX2.encode_name m a (Some s)) a) 0x7f <? VX2.NCHARS) = true).
{ rewrite Hzero. destruct (negb _); assumption. }
rewrite Hshown.
transitivity (string_of_list_ascii l);
  [ f_equal | apply string_of_list_ascii_of_string ].
rewrite (map_ext_in _
  (fun n => if n <? Z.of_nat (List.length l)
            then nth (Z.to_nat n) l VX2.underscore else VX2.underscore)).
- rewrite padded_name by lia.
  apply (strip_padding VX2.drop_underscores); try reflexivity; try assumption.
  intros E. rewrite E in Hlen. cbn in Hlen. lia.
- intros n Hn. apply In_Z_range in Hn.
  destruct (Z.eq_dec n 0) as [-> | Hpos].
  + replace (a + 0) with a by lia. rewrite Hzero.
    replace (0 <? Z.of_nat (List.length l)) with true
      by (symmetry; apply Z.ltb_lt; lia).
    destruct (negb _); assumption.
  + rewrite Hbytes by lia.
    destruct (Z.ltb_spec n (Z.of_nat (List.length l))) as [Hin | Hout]; [ | reflexivity ].
    destruct (Hchar n ltac:(lia)) as [Hc Hk]. rewrite Hc.
    apply vx2_keeps_char. exact Hk.
Qed.

(** A name that is a dash, empty or absent is stored as six spaces and
    read back as the empty name. *)
Lemma vx2_no_name (m : memory) (a : Z) (name : option string) (buf : string) :
  (match name with
   | Some s => char_at (c_str s) 0 = 0 \/ char_at (c_str s) 0 = 45
   | None => True
   end) ->
  VX2.decode_name (VX2.encode_name m a name) a buf = EmptyString.
Proof.
intros Hnone.
destruct (vx2_encode_name_bytes m a name) as (Hzero & Hbytes & _).
cbv zeta in Hzero, Hbytes.
set (text0 := match name with Some s => c_str s | None => EmptyString end) in *.
assert (Hcond : (char_at text0 0 =? 0) || (char_at text0 0 =? 45) = true).
{ subst text0. destruct name as [s |].
  - destruct Hnone as [-> | ->]; reflexivity.
  - reflexivity. }
rewrite Hcond in Hzero, Hbytes.
unfold VX2.decode_name. rewrite Hzero.
change (Z_range 0 6) with [0; 1; 2; 3; 4; 5]. cbn [map].
replace (a + 0) with a by lia. rewrite Hzero.
rewrite !Hbytes by lia. reflexivity.
Qed.

(** A channel name of up to six characters of the radio's character set,
    written in capitals and with underscores for spaces, is read back as
    it was written, on both radios; a dash, an empty or an absent name is
    read back as no name. *)
Theorem name_roundtrip :
  (forall (m : memory) (i : Z) (s buf : string),
      kept_name ft60_keeps s = true ->
      FT60.decode_name (FT60.encode_name m i (Some s)) i buf = s) /\
  (forall (m : memory) (internal : Z) (s buf : string),
      kept_name vx2_keeps s = true ->
      VX2.decode_name (VX2.encode_name m internal (Some s)) internal buf = s) /\
  (forall (m : memory) (i internal : Z),
      FT60.decode_name (FT60.encode_name m i (Some "-")) i EmptyString = EmptyString /\
      FT60.decode_name (FT60.encode_name m i None) i EmptyString = EmptyString /\
      VX2.decode_name (VX2.encode_name m internal (Some "-")) internal EmptyString
        = EmptyString /\
      VX2.decode_name (VX2.encode_name m internal None) internal EmptyString
        = EmptyString).
Proof.
split; [ | split ].
- apply ft60_name_kept.
- apply vx2_name_kept.
- intros m i internal. split; [ | split; [ | split ] ].
  + apply ft60_no_name. right. reflexivity.
  + apply ft60_no_name. exact I.
  + apply vx2_no_name. right. reflexivity.
  + apply vx2_no_name. exact I.
Qed.

Lemma name_roundtrip_witness :
  FT60.decode_name (FT60.encode_name (fun _ => 0) 4 (Some "W6_A/B")) 4 EmptyString
    = "W6_A/B" /\
  VX2.decode_name (VX2.encode_name (fun _ => 0) 0x17c8 (Some "_CQ+1")) 0x17c8 EmptyString
    = "_CQ+1".
Proof.
split.
- apply (proj1 name_roundtrip). reflexivity.
- apply (proj1 (proj2 name_roundtrip)). reflexivity.
Defined.

(** ** Channel records *)

Lemma load_store_field_eq (m : memory) (a a' s w v : Z) :
  a' = a -> load (store_field m a' s w v) a = uint8 (set_bits (load m a) s w v).
Proof. intros ->. unfold store_field. apply load_store_same. Qed.

Lemma load_store_field_other (m : memory) (a a' s w v : Z) :
  a' <> a -> load (store_field m a' s w v) a = load m a.
Proof. intros Ha. unfold store_field. apply load_store_other. exact Ha. Qed.

Lemma ft60_hz_to_freq_frame (m : memory) (hz bcd x : Z) :
  x < bcd \/ bcd + 3 <= x -> load (FT60.hz_to_freq hz m bcd) x = load m x.
Proof.
intros Hx. unfold FT60.hz_to_freq. cbv zeta.
rewrite !load_store_other by lia. reflexivity.
Qed.

Lemma ft60_encode_name_frame (m : memory) (i : Z) (name : option string) (x : Z) :
  x < FT60.OFFSET_NAMES + i * 8 \/ FT60.OFFSET_NAMES + i * 8 + 8 <= x ->
  load (FT60.encode_name m i name) x = load m x.
Proof.
intros Hx. unfold FT60.encode_name. cbv zeta.
set (nm := FT60.OFFSET_NAMES + i * 8) in *.
set (text := match name with Some s => c_str s | None => EmptyString end).
assert (Hout : forall lo hi, 0 <= lo -> hi <= 6 ->
          (lo <=? x - nm) && (x - nm <? hi) = false).
{ intros lo hi Hlo Hhi. apply andb_false_iff.
  destruct Hx; [ left; apply Z.leb_gt | right; apply Z.ltb_ge ]; lia. }
destruct (negb (char_at text 0 =? 0) && negb (char_at text 0 =? 45)).
- rewrite (load_fold_store_range (fun _ => FT60.SPACE)), Hout by lia.
  rewrite (load_fold_store_range (fun n => FT60.encode_char (char_at text (Z.to_nat n)))),
    Hout by lia.
  rewrite !load_store_field_other by lia. reflexivity.
- rewrite (load_fold_store_range (fun _ => 255)), Hout by lia.
  rewrite !load_store_field_other by lia. reflexivity.
Qed.

Lemma vx2_hz_to_freq_frame (m : memory) (hz bcd x : Z) :
  x < bcd \/ bcd + 3 <= x -> load (VX2.hz_to_freq hz m bcd) x = load m x.
Proof.
intros Hx. unfold VX2.hz_to_freq.
destruct (hz =? 0); cbv zeta; rewrite !load_store_other by lia; reflexivity.
Qed.

Lemma vx2_encode_name_frame (m : memory) (a : Z) (name : option string) (x : Z) :
  x < a \/ a + 6 <= x -> load (VX2.encode_name m a name) x = load m x.
Proof. apply vx2_encode_name_bytes. Qed.

Lemma vx2_set_flags_frame (m : memory) (i f x : Z) :
  x <> VX2.OFFSET_FLAGS + Z.quot i 2 -> load (VX2.set_flags m i f) x = load m x.
Proof.
intros Hx. unfold VX2.set_flags. cbv zeta.
rewrite !load_store_other by congruence. reflexivity.
Qed.

Lemma load_if (b : bool) (m1 m2 : memory) (x : Z) :
  load (if b then m1 else m2) x = if b then load m1 x else load m2 x.
Proof. destruct b; reflexivity. Qed.

Lemma if_same {A : Type} (b : bool) (v : A) : (if b then v else v) = v.
Proof. destruct b; reflexivity. Qed.

(** The places of the two images, for the comparison of addresses. *)
Ltac layout :=
  unfold FT60.ch_rxfreq, FT60.ch_txfreq, FT60.sizeof_channel,
    FT60.OFFSET_CHANNELS, FT60.OFFSET_SCAN, FT60.OFFSET_NAMES, FT60.OFFSET_HOME,
    FT60.OFFSET_PMS, FT60.OFFSET_BANKS, FT60.NCHAN, FT60.NPMS,
    VX2.ch_rxfreq, VX2.ch_name, VX2.ch_offset, VX2.sizeof_channel,
    VX2.OFFSET_CHANNELS, VX2.OFFSET_FLAGS, VX2.OFFSET_HOME, VX2.OFFSET_VFO,
    VX2.OFFSET_PMS, VX2.OFFSET_BANKS, VX2.OFFSET_BNCHAN, VX2.OFFSET_BUSE1,
    VX2.OFFSET_BUSE2, VX2.NCHAN, VX2.NPMS in *.

Ltac apart :=
  unfold FT60.OFFSET_CHANNELS, FT60.OFFSET_SCAN, FT60.OFFSET_NAMES, FT60.OFFSET_HOME,
    FT60.OFFSET_PMS, VX2.OFFSET_CHANNELS, VX2.OFFSET_FLAGS, VX2.OFFSET_HOME,
    VX2.OFFSET_VFO, VX2.OFFSET_PMS;
  lia.

(** Reading a byte of an image that a sequence of assignments built:
    every assignment to another place is skipped, the one to the place
    itself gives the value. *)
Ltac read_back :=
  repeat first
    [ rewrite load_store_eq by apart
    | rewrite load_store_other by apart
    | rewrite load_store_field_eq by apart
    | rewrite load_store_field_other by apart
    | rewrite ft60_hz_to_freq_frame by apart
    | rewrite ft60_encode_name_frame by apart
    | rewrite vx2_hz_to_freq_frame by apart
    | rewrite vx2_encode_name_frame by apart
    | rewrite vx2_set_flags_frame by apart
    | rewrite load_if
    | rewrite if_same ].

(** The bits of a byte that a sequence of assignments to its fields
    built. *)
Ltac read_field :=
  repeat first
    [ rewrite get_bits_uint8 by lia
    | rewrite get_set_bits_same by lia
    | rewrite get_set_bits_other by lia ].

Lemma ft60_freq_to_hz_ext (m1 m2 : memory) (bcd : Z) :
  load m1 bcd = load m2 bcd -> load m1 (bcd + 1) = load m2 (bcd + 1) ->
  load m1 (bcd + 2) = load m2 (bcd + 2) ->
  FT60.freq_to_hz m1 bcd = FT60.freq_to_hz m2 bcd.
Proof. intros H0 H1 H2. unfold FT60.freq_to_hz. rewrite H0, H1, H2. reflexivity. Qed.

Lemma vx2_freq_to_hz_ext (m1 m2 : memory) (bcd : Z) :
  load m1 bcd = load m2 bcd -> load m1 (bcd + 1) = load m2 (bcd + 1) ->
  load m1 (bcd + 2) = load m2 (bcd + 2) ->
  VX2.freq_to_hz m1 bcd = VX2.freq_to_hz m2 bcd.
Proof. intros H0 H1 H2. unfold VX2.freq_to_hz. rewrite H0, H1, H2. reflexivity. Qed.

(** *** FT-60: what [setup_channel] touches *)

Lemma scan_index (i : Z) : 0 <= i < 1000 -> 0 <= Z.quot i 4 < 250.
Proof.
intros Hi. rewrite Z.quot_div_nonneg by lia.
split; [ apply Z.div_pos | apply Z.div_lt_upper_bound ]; lia.
Qed.

Ltac ft60_layout :=
  unfold FT60.set_duplex, FT60.set_isam, FT60.set_isnarrow, FT60.set_u1, FT60.set_used,
    FT60.set_tmode, FT60.set_step, FT60.set_u2, FT60.set_tone, FT60.set_power,
    FT60.set_dtcs, FT60.set_u3, FT60.set_offset in *;
  layout.

(** [setup_channel] writes the sixteen bytes of its record, the byte that
    holds its scan mode and the eight bytes of its name, and nothing
    else. *)
Lemma ft60_setup_channel_frame (m : memory) (i : Z) (name : option string)
  (rx_mhz tx_mhz : double) (tmode tone dtcs power wide scan isam : Z) (x : Z) :
  0 <= i < FT60.NCHAN ->
  x < FT60.OFFSET_CHANNELS + i * 16 \/ FT60.OFFSET_CHANNELS + i * 16 + 16 <= x ->
  x <> FT60.OFFSET_SCAN + Z.quot i 4 ->
  x < FT60.OFFSET_NAMES + i * 8 \/ FT60.OFFSET_NAMES + i * 8 + 8 <= x ->
  load (FT60.setup_channel m i name rx_mhz tx_mhz tmode tone dtcs power wide scan isam) x
  = load m x.
Proof.
intros Hi Hrec Hscan Hname. pose proof (scan_index i Hi) as Hq.
unfold FT60.setup_channel. cbv zeta.
rewrite ft60_encode_name_frame by exact Hname.
ft60_layout.
read_back. reflexivity.
Qed.

(** *** FT-60: what [decode_channel] reads of a record that [setup_channel]
    wrote *)

Section FT60_record.

Variables (m : memory) (i : Z) (name : option string) (rx_mhz tx_mhz : double).
Variables (tmode tone dtcs power wide scan isam : Z).
Hypothesis Hi : 0 <= i < FT60.NCHAN.

Let m' := FT60.setup_channel m i name rx_mhz tx_mhz tmode tone dtcs power wide scan isam.
Let ch := FT60.OFFSET_CHANNELS + i * FT60.sizeof_channel.
Let off := (tx_mhz - rx_mhz)%float.

Ltac open_ft60_record :=
  pose proof (scan_index i Hi) as Hq;
  subst m' ch off; unfold FT60.setup_channel; cbv zeta; ft60_layout.

Lemma ft60_stored_byte0 :
  FT60.ch_used m' ch = c_bool (0 <? rx_mhz)%float /\
  FT60.ch_isnarrow m' ch = c_bool (wide =? 0) /\
  FT60.ch_isam m' ch = Z.land isam (Z.ones 1) /\
  FT60.ch_duplex m' ch =
    (if (off =? 0)%float then FT60.D_SIMPLEX
     else if (0 <? off)%float && (off <? 256 * 0.05)%float then FT60.D_POS_OFFSET
     else if (off <? 0)%float && (-256 * 0.05 <? off)%float then FT60.D_NEG_OFFSET
     else FT60.D_CROSS_BAND).
Proof.
unfold FT60.ch_used, FT60.ch_isnarrow, FT60.ch_isam, FT60.ch_duplex, load_field.
open_ft60_record; read_back; read_field.
split; [ destruct (0 <? rx_mhz)%float; reflexivity | ].
split; [ destruct (wide =? 0); reflexivity | ].
split; [ reflexivity | ].
destruct (_ =? 0)%float; [ read_field; reflexivity | ].
destruct (_ && _); [ read_field; reflexivity | ].
destruct (_ && _); read_field; reflexivity.
Qed.

Lemma ft60_stored_squelch :
  FT60.ch_tmode m' ch = Z.land tmode (Z.ones 3) /\
  FT60.ch_tone m' ch = Z.land tone (Z.ones 6) /\
  FT60.ch_dtcs m' ch = Z.land dtcs (Z.ones 7) /\
  FT60.ch_power m' ch = Z.land power (Z.ones 2) /\
  FT60.ch_step m' ch = (if (400 <=? rx_mhz)%float then FT60.STEP_12_5 else FT60.STEP_5).
Proof.
unfold FT60.ch_tmode, FT60.ch_tone, FT60.ch_dtcs, FT60.ch_power, FT60.ch_step, load_field.
open_ft60_record; read_back; read_field.
repeat split. destruct (400 <=? rx_mhz)%float; reflexivity.
Qed.

Lemma ft60_stored_rxfreq :
  FT60.freq_to_hz m' (FT60.ch_rxfreq ch) =
  FT60.freq_to_hz
    (FT60.hz_to_freq (int_of_double (rx_mhz * 1000000)%float) m (FT60.ch_rxfreq ch))
    (FT60.ch_rxfreq ch).
Proof.
apply ft60_freq_to_hz_ext; open_ft60_record;
  (destruct (_ =? 0)%float; [ | destruct (_ && _); [ | destruct (_ && _) ] ]);
  read_back; reflexivity.
Qed.

Lemma ft60_stored_offset :
  FT60.ch_offset m' ch =
    (if (off =? 0)%float then 0
     else if (0 <? off)%float && (off <? 256 * 0.05)%float
          then uint8 (int_of_double (off / 0.05 + 0.5)%float)
     else if (off <? 0)%float && (-256 * 0.05 <? off)%float
          then uint8 (int_of_double (- off / 0.05 + 0.5)%float)
     else 0).
Proof.
unfold FT60.ch_offset.
open_ft60_record; read_back.
destruct (_ =? 0)%float; [ reflexivity | ].
destruct (_ && _); [ reflexivity | ].
destruct (_ && _); reflexivity.
Qed.

Lemma ft60_stored_txfreq :
  (off =? 0)%float = false ->
  (0 <? off)%float && (off <? 256 * 0.05)%float = false ->
  (off <? 0)%float && (-256 * 0.05 <? off)%float = false ->
  FT60.freq_to_hz m' (FT60.ch_txfreq ch) =
  FT60.freq_to_hz
    (FT60.hz_to_freq (int_of_double (tx_mhz * 1000000)%float) m (FT60.ch_txfreq ch))
    (FT60.ch_txfreq ch).
Proof.
intros H1 H2 H3.
apply ft60_freq_to_hz_ext;
  pose proof (scan_index i Hi) as Hq;
  subst m' ch off; unfold FT60.setup_channel; cbv zeta; ft60_layout;
  rewrite H1, H2, H3; read_back;
  unfold FT60.hz_to_freq; cbv zeta; read_back; reflexivity.
Qed.

End FT60_record.

(** The columns of [decode_channel] that do not depend on the squelch
    mode, for a record that is decoded. *)
Lemma ft60_decode_fields (tones codes : list Z) (m : memory) (i seek : Z) (with_name : bool) :
  let ch := seek + i * FT60.sizeof_channel in
  let c := FT60.decode_channel tones codes m i seek with_name in
  (FT60.ch_used m ch =? 0) && ((seek =? FT60.OFFSET_CHANNELS) || (seek =? FT60.OFFSET_PMS))
    = false ->
  FT60.name c =
    (if seek =? FT60.OFFSET_CHANNELS
     then option_map (FT60.decode_name m i) (if with_name then Some EmptyString else None)
     else if with_name then Some EmptyString else None) /\
  FT60.rx_hz c = FT60.freq_to_hz m (FT60.ch_rxfreq ch) /\
  FT60.tx_hz c =
    (let rx := FT60.freq_to_hz m (FT60.ch_rxfreq ch) in
     if FT60.ch_duplex m ch =? FT60.D_NEG_OFFSET then rx - FT60.ch_offset m ch * 50000
     else if FT60.ch_duplex m ch =? FT60.D_POS_OFFSET then rx + FT60.ch_offset m ch * 50000
     else if FT60.ch_duplex m ch =? FT60.D_CROSS_BAND
          then FT60.freq_to_hz m (FT60.ch_txfreq ch)
     else rx) /\
  FT60.power c = FT60.ch_power m ch /\
  FT60.wide c = c_bool (FT60.ch_isnarrow m ch =? 0) /\
  FT60.isam c = FT60.ch_isam m ch /\
  FT60.step c = FT60.ch_step m ch.
Proof.
cbv zeta. intros Hused. unfold FT60.decode_channel. cbv zeta. rewrite Hused.
destruct (FT60.ch_tmode _ _ =? FT60.T_TONE);
  [ | destruct (FT60.ch_tmode _ _ =? FT60.T_TSQL);
  [ | destruct (FT60.ch_tmode _ _ =? FT60.T_TSQL_REV);
  [ | destruct (FT60.ch_tmode _ _ =? FT60.T_DTCS);
  [ | destruct (FT60.ch_tmode _ _ =? FT60.T_D);
  [ | destruct (FT60.ch_tmode _ _ =? FT60.T_T_DCS);
  [ | destruct (FT60.ch_tmode _ _ =? FT60.T_D_TSQL) ] ] ] ] ] ];
  cbn [FT60.name FT60.rx_hz FT60.tx_hz FT60.power FT60.wide FT60.isam FT60.step];
  repeat split.
Qed.

Lemma land_ones_small (v w : Z) : 0 <= w -> 0 <= v < 2 ^ w -> Z.land v (Z.ones w) = v.
Proof. intros Hw Hv. rewrite Z.land_ones by lia. apply Z.mod_small. exact Hv. Qed.

(** A memory channel that [setup_channel] wrote, with arguments that fit
    their fields and a receive frequency the three bytes can hold, is
    decoded by [decode_channel] with the name, the receive frequency, the
    power, the width, the AM flag and the step that were given; the
    squelch fields hold what was given, and a simplex channel transmits
    where it receives. *)
Theorem ft60_channel_roundtrip :
  forall (tones codes : list Z) (m : memory) (i : Z) (name : string)
         (rx_mhz tx_mhz : double) (tmode tone dtcs power wide scan isam : Z),
    0 <= i < FT60.NCHAN ->
    (0 <? rx_mhz)%float = true ->
    let hz := int_of_double (rx_mhz * 1000000)%float in
    0 <= hz < 1000000000 -> hz mod 2500 = 0 ->
    0 <= tmode < 8 -> 0 <= tone < 64 -> 0 <= dtcs < 128 ->
    0 <= power < 4 -> 0 <= isam < 2 ->
    kept_name ft60_keeps name = true ->
    let m' := FT60.setup_channel m i (Some name) rx_mhz tx_mhz
                tmode tone dtcs power wide scan isam in
    let ch := FT60.OFFSET_CHANNELS + i * FT60.sizeof_channel in
    let c := FT60.decode_channel tones codes m' i FT60.OFFSET_CHANNELS true in
    FT60.name c = Some name /\
    FT60.rx_hz c = hz /\
    FT60.power c = power /\
    FT60.wide c = c_bool (negb (wide =? 0)) /\
    FT60.isam c = isam /\
    FT60.step c = (if (400 <=? rx_mhz)%float then FT60.STEP_12_5 else FT60.STEP_5) /\
    FT60.ch_tmode m' ch = tmode /\ FT60.ch_tone m' ch = tone /\ FT60.ch_dtcs m' ch = dtcs /\
    ((tx_mhz - rx_mhz =? 0)%float = true -> FT60.tx_hz c = hz).
Proof.
intros tones codes m i name rx_mhz tx_mhz tmode tone dtcs power wide scan isam
  Hi Hrx hz Hhz Hstep Htmode Htone Hdtcs Hpower Hisam Hname m' ch c.
destruct (ft60_stored_byte0 m i (Some name) rx_mhz tx_mhz tmode tone dtcs power wide scan isam Hi)
  as (Hused & Hnarrow & Ham & Hduplex).
destruct (ft60_stored_squelch m i (Some name) rx_mhz tx_mhz tmode tone dtcs power wide scan isam Hi)
  as (Htm & Hto & Hdt & Hpw & Hst).
pose proof (ft60_stored_rxfreq m i (Some name) rx_mhz tx_mhz tmode tone dtcs power wide scan isam Hi)
  as Hfreq.
pose proof (ft60_stored_offset m i (Some name) rx_mhz tx_mhz tmode tone dtcs power wide scan isam Hi)
  as Hoff.
fold m' ch in Hused, Hnarrow, Ham, Hduplex, Htm, Hto, Hdt, Hpw, Hst, Hfreq, Hoff.
rewrite Hrx in Hused. cbn [c_bool] in Hused.
rewrite ft60_freq_roundtrip in Hfreq by assumption. fold hz in Hfreq.
destruct (ft60_decode_fields tones codes m' i FT60.OFFSET_CHANNELS true)
  as (Dname & Drx & Dtx & Dpower & Dwide & Disam & Dstep).
{ fold ch. rewrite Hused. reflexivity. }
fold ch c in Dname, Drx, Dtx, Dpower, Dwide, Disam, Dstep.
rewrite Z.eqb_refl in Dname. cbn [option_map] in Dname.
split; [ rewrite Dname; f_equal; apply ft60_name_kept; exact Hname | ].
split; [ rewrite Drx; exact Hfreq | ].
split; [ rewrite Dpower, Hpw; apply land_ones_small; lia | ].
split; [ rewrite Dwide, Hnarrow; destruct (wide =? 0); reflexivity | ].
split; [ rewrite Disam, Ham; apply land_ones_small; lia | ].
split; [ rewrite Dstep; exact Hst | ].
split; [ rewrite Htm; apply land_ones_small; lia | ].
split; [ rewrite Hto; apply land_ones_small; lia | ].
split; [ rewrite Hdt; apply land_ones_small; lia | ].
intros Hsimplex. rewrite Dtx. cbv zeta. rewrite Hduplex, Hsimplex, Hfreq. reflexivity.
Qed.

Lemma ft60_channel_roundtrip_witness :
  let m' := FT60.setup_channel (fun _ => 0x55) 41 (Some "W6CX") 446.0075%float 446.0075%float
              FT60.T_TSQL 8 0 2 1 0 0 in
  let c := FT60.decode_channel [885] [23] m' 41 FT60.OFFSET_CHANNELS true in
  FT60.name c = Some "W6CX" /\ FT60.rx_hz c = 446007500 /\ FT60.tx_hz c = 446007500 /\
  FT60.power c = 2 /\ FT60.wide c = 1 /\ FT60.step c = FT60.STEP_12_5.
Proof.
assert (Hrange : forall lo v hi, (lo <=? v) && (v <? hi) = true -> lo <= v < hi)
  by (intros lo v hi H; apply andb_true_iff in H; destruct H as [H1 H2];
      apply Z.leb_le in H1; apply Z.ltb_lt in H2; split; assumption).
destruct (ft60_channel_roundtrip [885] [23] (fun _ => 0x55) 41 "W6CX"
            446.0075%float 446.0075%float FT60.T_TSQL 8 0 2 1 0 0)
  as (Hn & Hrx & Hp & Hw & _ & Hs & _ & _ & _ & Htx).
- apply Hrange. reflexivity.
- reflexivity.
- apply Hrange. vm_compute. reflexivity.
- vm_compute. reflexivity.
- apply Hrange. reflexivity.
- apply Hrange. reflexivity.
- apply Hrange. reflexivity.
- apply Hrange. reflexivity.
- apply Hrange. reflexivity.
- reflexivity.
- cbv zeta. split; [ exact Hn | ]. split; [ exact Hrx | ].
  split; [ apply Htx; reflexivity | ].
  split; [ exact Hp | ]. split; [ exact Hw | exact Hs ].
Defined.

(** The transmit frequency of a repeater or cross-band channel: the
    offset is kept in steps of 50 kHz in one byte, so that it is read back
    modulo 256 steps; beyond 12.8 MHz the transmit frequency itself is
    stored. *)
Theorem ft60_offset_roundtrip :
  forall (tones codes : list Z) (m : memory) (i : Z) (name : option string)
         (rx_mhz tx_mhz : double) (tmode tone dtcs power wide scan isam : Z)
         (with_name : bool),
    0 <= i < FT60.NCHAN ->
    (0 <? rx_mhz)%float = true ->
    let hz := int_of_double (rx_mhz * 1000000)%float in
    0 <= hz < 1000000000 -> hz mod 2500 = 0 ->
    let off := (tx_mhz - rx_mhz)%float in
    (off =? 0)%float = false ->
    let m' := FT60.setup_channel m i name rx_mhz tx_mhz
                tmode tone dtcs power wide scan isam in
    let c := FT60.decode_channel tones codes m' i FT60.OFFSET_CHANNELS with_name in
    ((0 <? off)%float && (off <? 256 * 0.05)%float = true ->
     FT60.tx_hz c = hz + uint8 (int_of_double (off / 0.05 + 0.5)%float) * 50000) /\
    ((0 <? off)%float && (off <? 256 * 0.05)%float = false ->
     (off <? 0)%float && (-256 * 0.05 <? off)%float = true ->
     FT60.tx_hz c = hz - uint8 (int_of_double (- off / 0.05 + 0.5)%float) * 50000) /\
    ((0 <? off)%float && (off <? 256 * 0.05)%float = false ->
     (off <? 0)%float && (-256 * 0.05 <? off)%float = false ->
     let tx := int_of_double (tx_mhz * 1000000)%float in
     0 <= tx < 1000000000 -> tx mod 2500 = 0 ->
     FT60.tx_hz c = tx).
Proof.
intros tones codes m i name rx_mhz tx_mhz tmode tone dtcs power wide scan isam with_name
  Hi Hrx hz Hhz Hstep off Hduplex m' c.
destruct (ft60_stored_byte0 m i name rx_mhz tx_mhz tmode tone dtcs power wide scan isam Hi)
  as (Hused & _ & _ & Hdup).
pose proof (ft60_stored_rxfreq m i name rx_mhz tx_mhz tmode tone dtcs power wide scan isam Hi)
  as Hfreq.
pose proof (ft60_stored_offset m i name rx_mhz tx_mhz tmode tone dtcs power wide scan isam Hi)
  as Hoff.
pose proof (ft60_stored_txfreq m i name rx_mhz tx_mhz tmode tone dtcs power wide scan isam Hi)
  as Htxfreq.
fold m' off in Hused, Hdup, Hfreq, Hoff, Htxfreq.
rewrite Hrx in Hused. cbn [c_bool] in Hused.
rewrite ft60_freq_roundtrip in Hfreq by assumption. fold hz in Hfreq.
rewrite Hduplex in Hdup, Hoff.
destruct (ft60_decode_fields tones codes m' i FT60.OFFSET_CHANNELS with_name)
  as (_ & _ & Dtx & _).
{ rewrite Hused. reflexivity. }
fold c in Dtx. cbv zeta in Dtx. rewrite Hfreq in Dtx.
split; [ | split ].
- intros Hpos. rewrite Hpos in Hdup, Hoff. rewrite Dtx, Hdup, Hoff. reflexivity.
- intros Hpos Hneg. rewrite Hpos, Hneg in Hdup, Hoff. rewrite Dtx, Hdup, Hoff. reflexivity.
- intros Hpos Hneg tx Htx Htxstep. rewrite Hpos, Hneg in Hdup.
  rewrite Dtx, Hdup. cbn [Z.eqb FT60.D_CROSS_BAND FT60.D_NEG_OFFSET FT60.D_POS_OFFSET].
  rewrite (Htxfreq Hduplex Hpos Hneg).
  apply ft60_freq_roundtrip; assumption.
Qed.

(** Witness: 146.520 MHz with 147.120 MHz to transmit is read back so;
    with 159.300 MHz to transmit the offset of 12.78 MHz makes 256 steps,
    the byte holds 0, and the channel is read back transmitting on
    146.520 MHz. *)
Lemma ft60_offset_roundtrip_witness :
  FT60.tx_hz (FT60.decode_channel [885] [23]
                (FT60.setup_channel (fun _ => 0) 0 None 146.52%float 147.12%float
                   0 12 0 0 1 0 0) 0 FT60.OFFSET_CHANNELS false) = 147120000 /\
  FT60.tx_hz (FT60.decode_channel [885] [23]
                (FT60.setup_channel (fun _ => 0) 0 None 146.52%float 159.3%float
                   0 12 0 0 1 0 0) 0 FT60.OFFSET_CHANNELS false) = 146520000.
Proof.
assert (Hrange : forall lo v hi, (lo <=? v) && (v <? hi) = true -> lo <= v < hi)
  by (intros lo v hi H; apply andb_true_iff in H; destruct H as [H1 H2];
      apply Z.leb_le in H1; apply Z.ltb_lt in H2; split; assumption).
split.
- destruct (ft60_offset_roundtrip [885] [23] (fun _ => 0) 0 None 146.52%float 147.12%float
              0 12 0 0 1 0 0 false) as (Hpos & _ & _);
    [ apply Hrange; reflexivity | reflexivity | apply Hrange; vm_compute; reflexivity
    | vm_compute; reflexivity | reflexivity | ].
  apply Hpos. reflexivity.
- destruct (ft60_offset_roundtrip [885] [23] (fun _ => 0) 0 None 146.52%float 159.3%float
              0 12 0 0 1 0 0 false) as (Hpos & _ & _);
    [ apply Hrange; reflexivity | reflexivity | apply Hrange; vm_compute; reflexivity
    | vm_compute; reflexivity | reflexivity | ].
  apply Hpos. reflexivity.
Defined.

(** ** The scan column of the FT-60, for every channel *)

(** The two assignments of [setup_channel] to the scan byte [x] for the
    channel at place [k] of the byte, and the bits [decode_channel] reads
    for that channel. *)
Lemma scan_bits_apart (x s k : Z) :
  0 <= x < 256 -> 0 <= s < 4 -> 0 <= k < 4 ->
  let y := uint8 (Z.lor (uint8 (Z.land x (Z.lnot (Z.shiftl 3 (k * 2))))) (Z.shiftl s (k * 2))) in
  Z.land (Z.shiftr (Z.shiftl y (k * 2)) 6) 3 = Z.land (Z.shiftr x (6 - k * 2)) 3 /\
  Z.land (Z.shiftr y (k * 2)) 3 = s.
Proof.
intros Hx Hs Hk.
pose (g := fun x s k =>
  let y := uint8 (Z.lor (uint8 (Z.land x (Z.lnot (Z.shiftl 3 (k * 2))))) (Z.shiftl s (k * 2))) in
  (Z.land (Z.shiftr (Z.shiftl y (k * 2)) 6) 3 =? Z.land (Z.shiftr x (6 - k * 2)) 3)
  && (Z.land (Z.shiftr y (k * 2)) 3 =? s)).
assert (Hg : g x s k = true).
{ apply (below_forallb
           (fun x => forallb (fun s => forallb (fun k => g x (Z.of_nat s) (Z.of_nat k)) (seq 0 4))
                             (seq 0 4)) 256) with (z := x) in Hx;
    [ | vm_compute; reflexivity ].
  apply (below_forallb (fun s => forallb (fun k => g x s (Z.of_nat k)) (seq 0 4)) 4)
    with (z := s) in Hs; [ | exact Hx ].
  apply (below_forallb (g x s) 4); assumption. }
unfold g in Hg. cbv zeta in Hg. apply andb_prop in Hg. destruct Hg as [H1 H2].
apply Z.eqb_eq in H1. apply Z.eqb_eq in H2. cbv zeta. split; assumption.
Qed.

(** The scan column of [decode_channel], for a record that is decoded. *)
Lemma ft60_decode_scan (tones codes : list Z) (m : memory) (i seek : Z) (with_name : bool) :
  let ch := seek + i * FT60.sizeof_channel in
  (FT60.ch_used m ch =? 0) && ((seek =? FT60.OFFSET_CHANNELS) || (seek =? FT60.OFFSET_PMS))
    = false ->
  FT60.scan (FT60.decode_channel tones codes m i seek with_name) =
  Z.land (Z.shiftr (Z.shiftl (load m (FT60.OFFSET_SCAN + Z.quot i 4)) (Z.land i 3 * 2)) 6) 3.
Proof.
cbv zeta. intros Hused. unfold FT60.decode_channel. cbv zeta. rewrite Hused.
destruct (FT60.ch_tmode _ _ =? FT60.T_TONE);
  [ | destruct (FT60.ch_tmode _ _ =? FT60.T_TSQL);
  [ | destruct (FT60.ch_tmode _ _ =? FT60.T_TSQL_REV);
  [ | destruct (FT60.ch_tmode _ _ =? FT60.T_DTCS);
  [ | destruct (FT60.ch_tmode _ _ =? FT60.T_D);
  [ | destruct (FT60.ch_tmode _ _ =? FT60.T_T_DCS);
  [ | destruct (FT60.ch_tmode _ _ =? FT60.T_D_TSQL) ] ] ] ] ] ];
  reflexivity.
Qed.

(** The scan byte of a channel after [setup_channel]. *)
Lemma ft60_stored_scan (m : memory) (i : Z) (name : option string) (rx_mhz tx_mhz : double)
  (tmode tone dtcs power wide scan isam : Z) :
  0 <= i < FT60.NCHAN ->
  let a := FT60.OFFSET_SCAN + Z.quot i 4 in
  load (FT60.setup_channel m i name rx_mhz tx_mhz tmode tone dtcs power wide scan isam) a =
  uint8 (Z.lor (uint8 (Z.land (load m a) (Z.lnot (Z.shiftl 3 (Z.land i 3 * 2)))))
               (Z.shiftl scan (Z.land i 3 * 2))).
Proof.
intros Hi. cbv zeta. pose proof (scan_index i Hi) as Hq.
unfold FT60.setup_channel. cbv zeta. ft60_layout.
destruct (_ =? 0)%float; [ | destruct (_ && _); [ | destruct (_ && _) ] ];
  read_back; reflexivity.
Qed.

(** The scan mode given to [setup_channel] has no effect on the scan mode
    that [decode_channel] reads, for any image, channel and arguments:
    the mode is stored in the bits [2*(i&3)] and [2*(i&3)+1] of the scan
    byte of the channel, and read from the bits [6-2*(i&3)] and
    [7-2*(i&3)], which the call leaves as they were.  A channel that is in
    use (its receive frequency is positive) decodes with the mode these
    bits held before the call, 0 on an image of zeros; a channel that is
    not in use decodes with mode 0. *)
Theorem ft60_scan_mode_lost :
  forall (tones codes : list Z) (m : memory) (i : Z) (name : option string)
         (rx_mhz tx_mhz : double) (tmode tone dtcs power wide s isam : Z)
         (with_name : bool),
    0 <= i < FT60.NCHAN ->
    0 <= s < 4 ->
    let m' := FT60.setup_channel m i name rx_mhz tx_mhz tmode tone dtcs power wide s isam in
    let c := FT60.decode_channel tones codes m' i FT60.OFFSET_CHANNELS with_name in
    let scan_byte := FT60.OFFSET_SCAN + Z.quot i 4 in
    Z.land (Z.shiftr (load m' scan_byte) (Z.land i 3 * 2)) 3 = s /\
    FT60.scan c =
      (if (0 <? rx_mhz)%float
       then Z.land (Z.shiftr (load m scan_byte) (6 - Z.land i 3 * 2)) 3
       else 0).
Proof.
intros tones codes m i name rx_mhz tx_mhz tmode tone dtcs power wide s isam with_name
  Hi Hs m' c scan_byte.
assert (Hk : 0 <= Z.land i 3 < 4).
{ change 3 with (Z.ones 2). rewrite Z.land_ones by lia.
  pose proof (Z.mod_pos_bound i (2 ^ 2)). lia. }
pose proof (ft60_stored_scan m i name rx_mhz tx_mhz tmode tone dtcs power wide s isam Hi)
  as Hbyte.
cbv zeta in Hbyte. fold m' scan_byte in Hbyte.
destruct (scan_bits_apart (load m scan_byte) s (Z.land i 3) (load_range m scan_byte) Hs Hk)
  as [Hread Hkept].
rewrite <- Hbyte in Hread, Hkept.
split; [ exact Hkept | ].
destruct (ft60_stored_byte0 m i name rx_mhz tx_mhz tmode tone dtcs power wide s isam Hi)
  as (Hused & _).
fold m' in Hused.
destruct (0 <? rx_mhz)%float.
- subst c. rewrite ft60_decode_scan; [ exact Hread | ].
  rewrite Hused. reflexivity.
- subst c. unfold FT60.decode_channel. cbv zeta. rewrite Hused.
  rewrite Z.eqb_refl. reflexivity.
Qed.

(** The statement at channel 8 (index 7) of an image of zeros set up on
    146.52 MHz with scan mode 2 ("Only"): it decodes with scan mode 0. *)
Lemma ft60_scan_mode_lost_witness :
  let m := FT60.setup_channel (fun _ => 0) 7 (Some "CALL")
             146.52%float 146.52%float FT60.T_OFF FT60.TONE_DEFAULT 0 0 1 2 0 in
  Z.land (Z.shiftr (load m (FT60.OFFSET_SCAN + 1)) 6) 3 = 2 /\
  FT60.scan (FT60.decode_channel [885] [23] m 7 FT60.OFFSET_CHANNELS true) = 0.
Proof.
apply (ft60_scan_mode_lost [885] [23] (fun _ => 0) 7 (Some "CALL")
         146.52%float 146.52%float FT60.T_OFF FT60.TONE_DEFAULT 0 0 1 2 0 true);
  [ unfold FT60.NCHAN; lia | lia ].
Defined.

(** *** VX-2: what [decode_channel] reads of a record that [setup_channel]
    wrote *)

Ltac vx2_layout :=
  unfold VX2.set_u1, VX2.set_clk, VX2.set_isnarrow, VX2.set_u2, VX2.set_step,
    VX2.set_duplex, VX2.set_amfm, VX2.set_tmode, VX2.set_u3, VX2.set_power,
    VX2.set_tone, VX2.set_u4, VX2.set_dcs, VX2.set_u5 in *;
  layout.

Lemma flags_index (i : Z) : 0 <= i < 1100 -> 0 <= Z.quot i 2 < 550.
Proof.
intros Hi. rewrite Z.quot_div_nonneg by lia.
split; [ apply Z.div_pos | apply Z.div_lt_upper_bound ]; lia.
Qed.

(** The kHz value and the half kHz that the three bytes of the VX-2 give
    back are the frequency itself when it has one of the two shapes the
    bytes can hold. *)
Lemma vx2_freq_kept (m : memory) (bcd hz : Z) :
  0 < hz < 1000000000 ->
  (hz mod 1000 = 0 /\ (hz / 1000) mod 10 <> 2 /\ (hz / 1000) mod 10 <> 7) \/
  (hz mod 1000 = 500 /\ ((hz / 1000) mod 10 = 2 \/ (hz / 1000) mod 10 = 7)) ->
  VX2.freq_to_hz (VX2.hz_to_freq hz m bcd) bcd = hz.
Proof.
intros Hrange Hshape.
rewrite vx2_freq_decode_encode by exact Hrange. cbv zeta.
pose proof (Z.div_mod hz 1000) as Hdm.
destruct Hshape as [(Hm & H2 & H7) | (Hm & Hlast)].
- destruct (Z.eqb_spec ((hz / 1000) mod 10) 2) as [E | _]; [ contradiction | ].
  destruct (Z.eqb_spec ((hz / 1000) mod 10) 7) as [E | _]; [ contradiction | ].
  cbn [orb]. lia.
- replace (((hz / 1000) mod 10 =? 2) || ((hz / 1000) mod 10 =? 7)) with true; [ lia | ].
  symmetry. apply orb_true_iff.
  destruct Hlast as [E | E]; [ left | right ]; apply Z.eqb_eq; exact E.
Qed.

Section VX2_record.

Variables (m : memory) (i : Z) (name : option string) (rx_mhz tx_mhz : double).
Variables (tmode tone dcs power scan amfm : Z).
Hypothesis Hi : 0 <= i < VX2.NCHAN.

Let m' := VX2.setup_channel m i name rx_mhz tx_mhz tmode tone dcs power scan amfm.
Let ch := VX2.OFFSET_CHANNELS + i * VX2.sizeof_channel.
Let offset_khz := VX2.iround ((tx_mhz - rx_mhz) * 1000.0)%float.

Ltac open_vx2_record :=
  pose proof (flags_index i ltac:(unfold VX2.NCHAN in Hi; lia)) as Hq;
  subst m' ch offset_khz; unfold VX2.setup_channel; cbv zeta; vx2_layout.

Lemma vx2_stored_flags :
  VX2.get_flags m' i =
    (if scan =? VX2.SCAN_SKIP then 7 else if scan =? VX2.SCAN_PREFERENTIAL then 11 else 3).
Proof.
subst m'. unfold VX2.setup_channel. cbv zeta.
rewrite vx2_get_set_flags; [ rewrite Z.eqb_refl | unfold VX2.NCHAN in Hi; lia .. | ].
- destruct (scan =? VX2.SCAN_SKIP); [ reflexivity | ].
  destruct (scan =? VX2.SCAN_PREFERENTIAL); reflexivity.
- destruct (scan =? VX2.SCAN_SKIP); [ cbn; lia | ].
  destruct (scan =? VX2.SCAN_PREFERENTIAL); cbn; lia.
Qed.

Lemma vx2_stored_modulation :
  VX2.ch_isnarrow m' ch = c_bool (amfm =? VX2.MOD_NFM) /\
  VX2.ch_amfm m' ch = Z.land amfm (Z.ones 2) /\
  VX2.ch_step m' ch = VX2.STEP_12_5 /\
  VX2.ch_duplex m' ch =
    (if offset_khz =? 0 then VX2.D_SIMPLEX
     else if (offset_khz >? 0) && (offset_khz <? 100000) then VX2.D_POS_OFFSET
     else if (offset_khz <? 0) && (- offset_khz <? 100000) then VX2.D_NEG_OFFSET
     else VX2.D_DUPLEX).
Proof.
unfold VX2.ch_isnarrow, VX2.ch_amfm, VX2.ch_step, VX2.ch_duplex, load_field.
open_vx2_record; read_back; read_field.
split; [ destruct (amfm =? VX2.MOD_NFM); reflexivity | ].
split; [ reflexivity | ].
split; [ reflexivity | ].
destruct (_ =? 0); [ read_field; reflexivity | ].
destruct (_ && _); [ read_back; read_field; reflexivity | ].
destruct (_ && _); read_back; read_field; reflexivity.
Qed.

Lemma vx2_stored_squelch :
  VX2.ch_tmode m' ch = Z.land tmode (Z.ones 2) /\
  VX2.ch_tone m' ch = Z.land tone (Z.ones 6) /\
  VX2.ch_dcs m' ch = Z.land dcs (Z.ones 7) /\
  VX2.ch_power m' ch = Z.land power (Z.ones 2).
Proof.
unfold VX2.ch_tmode, VX2.ch_tone, VX2.ch_dcs, VX2.ch_power, load_field.
open_vx2_record; read_back; read_field.
repeat split.
Qed.

Lemma vx2_stored_rxfreq :
  VX2.freq_to_hz m' (VX2.ch_rxfreq ch) =
  VX2.freq_to_hz
    (VX2.hz_to_freq (VX2.iround (rx_mhz * 1000000.0)%float) m (VX2.ch_rxfreq ch))
    (VX2.ch_rxfreq ch).
Proof.
apply vx2_freq_to_hz_ext; open_vx2_record;
  (destruct (_ =? 0); [ | destruct (_ && _); [ | destruct (_ && _) ] ]);
  read_back; reflexivity.
Qed.

(** The three bytes of the offset. *)
Lemma vx2_stored_offset :
  VX2.freq_to_hz m' (VX2.ch_offset ch) =
    (if offset_khz =? 0 then 0
     else if (offset_khz >? 0) && (offset_khz <? 100000)
          then VX2.freq_to_hz (VX2.hz_to_freq (offset_khz * 1000) m (VX2.ch_offset ch))
                              (VX2.ch_offset ch)
     else if (offset_khz <? 0) && (- offset_khz <? 100000)
          then VX2.freq_to_hz (VX2.hz_to_freq (- offset_khz * 1000) m (VX2.ch_offset ch))
                              (VX2.ch_offset ch)
     else VX2.freq_to_hz
            (VX2.hz_to_freq (VX2.iround (tx_mhz * 1000000.0)%float) m (VX2.ch_offset ch))
            (VX2.ch_offset ch)).
Proof.
pose proof (flags_index i ltac:(unfold VX2.NCHAN in Hi; lia)) as Hq.
subst m' ch offset_khz. unfold VX2.setup_channel. cbv zeta.
set (k := VX2.iround ((tx_mhz - rx_mhz) * 1000.0)%float).
destruct (k =? 0); [ | destruct (_ && _); [ | destruct (_ && _) ] ].
- unfold VX2.freq_to_hz. vx2_layout. read_back. reflexivity.
- apply vx2_freq_to_hz_ext; vx2_layout; read_back;
    unfold VX2.hz_to_freq; destruct (_ =? 0); cbv zeta; read_back; reflexivity.
- apply vx2_freq_to_hz_ext; vx2_layout; read_back;
    unfold VX2.hz_to_freq; destruct (_ =? 0); cbv zeta; read_back; reflexivity.
- apply vx2_freq_to_hz_ext; vx2_layout; read_back;
    unfold VX2.hz_to_freq; destruct (_ =? 0); cbv zeta; read_back; reflexivity.
Qed.

Lemma vx2_stored_name (buf : string) :
  VX2.decode_name m' (VX2.ch_name ch) buf =
  VX2.decode_name (VX2.encode_name m (VX2.ch_name ch) name) (VX2.ch_name ch) buf.
Proof.
pose proof (flags_index i ltac:(unfold VX2.NCHAN in Hi; lia)) as Hq.
assert (Hbytes : forall n, 0 <= n < 6 ->
          load m' (VX2.ch_name ch + n) =
          load (VX2.encode_name m (VX2.ch_name ch) name) (VX2.ch_name ch + n)).
{ intros n Hn. subst m' ch. unfold VX2.setup_channel. cbv zeta.
  rewrite vx2_set_flags_frame by (layout; lia).
  destruct (vx2_encode_name_bytes m (VX2.ch_name (VX2.OFFSET_CHANNELS + i * VX2.sizeof_channel))
              name) as (Hz & Hb & _).
  match goal with
  | |- load (VX2.encode_name ?mm _ _) _ = _ =>
      destruct (vx2_encode_name_bytes mm
                  (VX2.ch_name (VX2.OFFSET_CHANNELS + i * VX2.sizeof_channel)) name)
        as (Hz' & Hb' & _)
  end.
  destruct (Z.eq_dec n 0) as [-> | Hpos].
  - rewrite Z.add_0_r, Hz, Hz'. reflexivity.
  - rewrite Hb, Hb' by lia. reflexivity. }
unfold VX2.decode_name.
pose proof (Hbytes 0 ltac:(lia)) as H0. rewrite Z.add_0_r in H0. rewrite H0.
destruct (_ <? VX2.NCHARS); [ | reflexivity ].
do 4 f_equal. apply map_ext_in. intros n Hn. apply In_Z_range in Hn.
rewrite Hbytes by lia. reflexivity.
Qed.

End VX2_record.

Lemma vx2_decode_fields (tones codes : list Z) (m : memory) (i seek : Z) (with_name : bool) :
  let ch := seek + i * VX2.sizeof_channel in
  let flags := VX2.get_flags m (i + (if seek =? VX2.OFFSET_PMS then VX2.NCHAN else 0)) in
  let c := VX2.decode_channel tones codes m i seek with_name in
  ((seek =? VX2.OFFSET_CHANNELS) || (seek =? VX2.OFFSET_PMS))
    && (Z.land flags VX2.FLAG_VALID =? 0) = false ->
  VX2.name c =
    (if seek =? VX2.OFFSET_CHANNELS
     then option_map (VX2.decode_name m (VX2.ch_name ch))
                     (if with_name then Some EmptyString else None)
     else if with_name then Some EmptyString else None) /\
  VX2.rx_hz c = VX2.freq_to_hz m (VX2.ch_rxfreq ch) /\
  VX2.tx_hz c =
    (let rx := VX2.freq_to_hz m (VX2.ch_rxfreq ch) in
     if VX2.ch_duplex m ch =? VX2.D_NEG_OFFSET
     then int32 (rx - VX2.freq_to_hz m (VX2.ch_offset ch))
     else if VX2.ch_duplex m ch =? VX2.D_POS_OFFSET
     then int32 (rx + VX2.freq_to_hz m (VX2.ch_offset ch))
     else if VX2.ch_duplex m ch =? VX2.D_DUPLEX then VX2.freq_to_hz m (VX2.ch_offset ch)
     else rx) /\
  VX2.power c = VX2.ch_power m ch /\
  VX2.scan c =
    (if negb (Z.land flags VX2.FLAG_PSKIP =? 0) then VX2.SCAN_PREFERENTIAL
     else if negb (Z.land flags VX2.FLAG_SKIP =? 0) then VX2.SCAN_SKIP
     else VX2.SCAN_NORMAL) /\
  VX2.amfm c = (if negb (VX2.ch_isnarrow m ch =? 0) then VX2.MOD_NFM else VX2.ch_amfm m ch) /\
  VX2.step c = VX2.ch_step m ch.
Proof.
cbv zeta. intros Hvalid. unfold VX2.decode_channel. cbv zeta. rewrite Hvalid.
destruct (VX2.ch_tmode _ _ =? VX2.T_TONE);
  [ | destruct (VX2.ch_tmode _ _ =? VX2.T_TSQL);
  [ | destruct (VX2.ch_tmode _ _ =? VX2.T_DTCS) ] ];
  cbn [VX2.name VX2.rx_hz VX2.tx_hz VX2.power VX2.scan VX2.amfm VX2.step];
  repeat split.
Qed.

(** A memory channel that [setup_channel] of the VX-2 wrote, with
    arguments that fit their fields and a receive frequency of a shape the
    three bytes can hold, is decoded with the name, the receive frequency,
    the power, the scan mode and the modulation (narrow FM included) that
    were given; the squelch fields hold what was given, and a channel
    whose two frequencies are less than half a kHz apart transmits where
    it receives. *)
Theorem vx2_channel_roundtrip :
  forall (tones codes : list Z) (m : memory) (i : Z) (name : string)
         (rx_mhz tx_mhz : double) (tmode tone dcs power scan amfm : Z),
    0 <= i < VX2.NCHAN ->
    let hz := VX2.iround (rx_mhz * 1000000.0)%float in
    0 < hz < 1000000000 ->
    (hz mod 1000 = 0 /\ (hz / 1000) mod 10 <> 2 /\ (hz / 1000) mod 10 <> 7) \/
    (hz mod 1000 = 500 /\ ((hz / 1000) mod 10 = 2 \/ (hz / 1000) mod 10 = 7)) ->
    0 <= tmode < 4 -> 0 <= tone < 64 -> 0 <= dcs < 128 ->
    0 <= power < 4 -> 0 <= scan <= 2 -> 0 <= amfm <= 4 ->
    kept_name vx2_keeps name = true ->
    let m' := VX2.setup_channel m i (Some name) rx_mhz tx_mhz
                tmode tone dcs power scan amfm in
    let ch := VX2.OFFSET_CHANNELS + i * VX2.sizeof_channel in
    let c := VX2.decode_channel tones codes m' i VX2.OFFSET_CHANNELS true in
    VX2.name c = Some name /\
    VX2.rx_hz c = hz /\
    VX2.power c = power /\
    VX2.scan c = scan /\
    VX2.amfm c = amfm /\
    VX2.step c = VX2.STEP_12_5 /\
    VX2.ch_tmode m' ch = tmode /\ VX2.ch_tone m' ch = tone /\ VX2.ch_dcs m' ch = dcs /\
    (VX2.iround ((tx_mhz - rx_mhz) * 1000.0)%float = 0 -> VX2.tx_hz c = hz).
Proof.
intros tones codes m i name rx_mhz tx_mhz tmode tone dcs power scan amfm
  Hi hz Hhz Hshape Htmode Htone Hdcs Hpower Hscan Hamfm Hname m' ch c.
pose proof (vx2_stored_flags m i (Some name) rx_mhz tx_mhz tmode tone dcs power scan amfm Hi)
  as Hflags.
destruct (vx2_stored_modulation m i (Some name) rx_mhz tx_mhz tmode tone dcs power scan amfm Hi)
  as (Hnarrow & Hmod & Hst & Hduplex).
destruct (vx2_stored_squelch m i (Some name) rx_mhz tx_mhz tmode tone dcs power scan amfm Hi)
  as (Htm & Hto & Hdc & Hpw).
pose proof (vx2_stored_rxfreq m i (Some name) rx_mhz tx_mhz tmode tone dcs power scan amfm Hi)
  as Hfreq.
pose proof (vx2_stored_name m i (Some name) rx_mhz tx_mhz tmode tone dcs power scan amfm Hi
              EmptyString) as Hnm.
fold m' ch in Hflags, Hnarrow, Hmod, Hst, Hduplex, Htm, Hto, Hdc, Hpw, Hfreq, Hnm.
rewrite vx2_freq_kept in Hfreq by assumption. fold hz in Hfreq.
rewrite vx2_name_kept in Hnm by exact Hname.
destruct (vx2_decode_fields tones codes m' i VX2.OFFSET_CHANNELS true)
  as (Dname & Drx & Dtx & Dpower & Dscan & Damfm & Dstep).
{ cbn [Z.eqb VX2.OFFSET_CHANNELS VX2.OFFSET_PMS Pos.eqb orb andb].
  rewrite Z.add_0_r, Hflags.
  destruct (scan =? VX2.SCAN_SKIP); [ reflexivity | ].
  destruct (scan =? VX2.SCAN_PREFERENTIAL); reflexivity. }
cbn [Z.eqb VX2.OFFSET_CHANNELS VX2.OFFSET_PMS Pos.eqb] in Dscan.
rewrite Z.add_0_r in Dscan.
fold ch c in Dname, Drx, Dtx, Dpower, Dscan, Damfm, Dstep.
rewrite Z.eqb_refl in Dname. cbn [option_map] in Dname.
split; [ rewrite Dname, Hnm; reflexivity | ].
split; [ rewrite Drx; exact Hfreq | ].
split; [ rewrite Dpower, Hpw; apply land_ones_small; lia | ].
split.
{ rewrite Dscan, Hflags. unfold VX2.SCAN_SKIP, VX2.SCAN_PREFERENTIAL.
  assert (Hcases : scan = 0 \/ scan = 1 \/ scan = 2) by lia.
  destruct Hcases as [-> | [-> | ->]]; reflexivity. }
split.
{ rewrite Damfm, Hnarrow, Hmod. unfold VX2.MOD_NFM.
  assert (Hcases : amfm = 0 \/ amfm = 1 \/ amfm = 2 \/ amfm = 3 \/ amfm = 4) by lia.
  destruct Hcases as [-> | [-> | [-> | [-> | ->]]]]; reflexivity. }
split; [ rewrite Dstep; exact Hst | ].
split; [ rewrite Htm; apply land_ones_small; lia | ].
split; [ rewrite Hto; apply land_ones_small; lia | ].
split; [ rewrite Hdc; apply land_ones_small; lia | ].
intros Hsimplex. rewrite Dtx. cbv zeta. rewrite Hduplex, Hsimplex, Hfreq. reflexivity.
Qed.

Lemma vx2_channel_roundtrip_witness :
  let m' := VX2.setup_channel (fun _ => 0x55) 41 (Some "W6CX") 443.875%float 443.875%float
              VX2.T_TSQL 8 0 VX2.PWR_LOW VX2.SCAN_PREFERENTIAL VX2.MOD_NFM in
  let c := VX2.decode_channel [885] [23] m' 41 VX2.OFFSET_CHANNELS true in
  VX2.name c = Some "W6CX" /\ VX2.rx_hz c = 443875000 /\ VX2.tx_hz c = 443875000 /\
  VX2.power c = VX2.PWR_LOW /\ VX2.scan c = VX2.SCAN_PREFERENTIAL /\
  VX2.amfm c = VX2.MOD_NFM.
Proof.
assert (Hrange : forall lo v hi, (lo <=? v) && (v <? hi) = true -> lo <= v < hi)
  by (intros lo v hi H; apply andb_true_iff in H; destruct H as [H1 H2];
      apply Z.leb_le in H1; apply Z.ltb_lt in H2; split; assumption).
destruct (vx2_channel_roundtrip [885] [23] (fun _ => 0x55) 41 "W6CX"
            443.875%float 443.875%float VX2.T_TSQL 8 0 VX2.PWR_LOW
            VX2.SCAN_PREFERENTIAL VX2.MOD_NFM)
  as (Hn & Hrx & Hp & Hsc & Hmo & _ & _ & _ & _ & Htx).
- apply Hrange. reflexivity.
- vm_compute. split; reflexivity.
- left. vm_compute. repeat split; discriminate.
- apply Hrange. reflexivity.
- apply Hrange. reflexivity.
- apply Hrange. reflexivity.
- apply Hrange. reflexivity.
- vm_compute. split; discriminate.
- vm_compute. split; discriminate.
- reflexivity.
- cbv zeta. split; [ exact Hn | ]. split; [ exact Hrx | ].
  split; [ apply Htx; reflexivity | ].
  split; [ exact Hp | ]. split; [ exact Hsc | exact Hmo ].
Defined.

Lemma int32_small (v : Z) : -2147483648 <= v < 2147483648 -> int32 v = v.
Proof.
intros Hv. unfold int32, uint32. cbv zeta.
destruct (Z.ltb_spec (v mod 4294967296) 2147483648) as [Hlt | Hge].
- destruct (Z_lt_le_dec v 0) as [Hneg | Hpos].
  + rewrite <- (Z.mod_add v 1 4294967296) in Hlt by lia.
    rewrite Z.mod_small in Hlt by lia. lia.
  + apply Z.mod_small. lia.
- destruct (Z_lt_le_dec v 0) as [Hneg | Hpos].
  + rewrite <- (Z.mod_add v 1 4294967296) by lia.
    rewrite Z.mod_small by lia. lia.
  + rewrite Z.mod_small in Hge by lia. lia.
Qed.

(** The transmit frequency of a repeater channel of the VX-2: the offset
    is kept as a frequency of its own, in kHz, and read back with half a
    kHz more when its kHz value ends in 2 or 7; from 100 MHz on the
    transmit frequency itself is stored.  (An offset whose kHz value is
    [INT_MIN], which [-offset_khz] does not negate, is left out.) *)
Theorem vx2_offset_roundtrip :
  forall (tones codes : list Z) (m : memory) (i : Z) (name : option string)
         (rx_mhz tx_mhz : double) (tmode tone dcs power scan amfm : Z)
         (with_name : bool),
    0 <= i < VX2.NCHAN ->
    let hz := VX2.iround (rx_mhz * 1000000.0)%float in
    0 < hz < 1000000000 ->
    (hz mod 1000 = 0 /\ (hz / 1000) mod 10 <> 2 /\ (hz / 1000) mod 10 <> 7) \/
    (hz mod 1000 = 500 /\ ((hz / 1000) mod 10 = 2 \/ (hz / 1000) mod 10 = 7)) ->
    let k := VX2.iround ((tx_mhz - rx_mhz) * 1000.0)%float in
    let m' := VX2.setup_channel m i name rx_mhz tx_mhz tmode tone dcs power scan amfm in
    let c := VX2.decode_channel tones codes m' i VX2.OFFSET_CHANNELS with_name in
    (0 < k < 100000 ->
     VX2.tx_hz c =
       hz + (if (k mod 10 =? 2) || (k mod 10 =? 7) then k * 1000 + 500 else k * 1000)) /\
    (-100000 < k < 0 ->
     VX2.tx_hz c =
       hz - (if (- k mod 10 =? 2) || (- k mod 10 =? 7)
             then - k * 1000 + 500 else - k * 1000)) /\
    (-2147483648 < k <= -100000 \/ 100000 <= k ->
     let tx := VX2.iround (tx_mhz * 1000000.0)%float in
     0 < tx < 1000000000 ->
     (tx mod 1000 = 0 /\ (tx / 1000) mod 10 <> 2 /\ (tx / 1000) mod 10 <> 7) \/
     (tx mod 1000 = 500 /\ ((tx / 1000) mod 10 = 2 \/ (tx / 1000) mod 10 = 7)) ->
     VX2.tx_hz c = tx).
Proof.
intros tones codes m i name rx_mhz tx_mhz tmode tone dcs power scan amfm with_name
  Hi hz Hhz Hshape k m' c.
pose proof (vx2_stored_flags m i name rx_mhz tx_mhz tmode tone dcs power scan amfm Hi)
  as Hflags.
destruct (vx2_stored_modulation m i name rx_mhz tx_mhz tmode tone dcs power scan amfm Hi)
  as (_ & _ & _ & Hduplex).
pose proof (vx2_stored_rxfreq m i name rx_mhz tx_mhz tmode tone dcs power scan amfm Hi)
  as Hfreq.
pose proof (vx2_stored_offset m i name rx_mhz tx_mhz tmode tone dcs power scan amfm Hi)
  as Hoff.
fold m' k in Hflags, Hduplex, Hfreq, Hoff.
rewrite vx2_freq_kept in Hfreq by assumption. fold hz in Hfreq.
destruct (vx2_decode_fields tones codes m' i VX2.OFFSET_CHANNELS with_name)
  as (_ & _ & Dtx & _).
{ cbn [Z.eqb VX2.OFFSET_CHANNELS VX2.OFFSET_PMS Pos.eqb orb andb].
  rewrite Z.add_0_r, Hflags.
  destruct (scan =? VX2.SCAN_SKIP); [ reflexivity | ].
  destruct (scan =? VX2.SCAN_PREFERENTIAL); reflexivity. }
fold c in Dtx. cbv zeta in Dtx. rewrite Hfreq, Hduplex, Hoff in Dtx.
assert (Hkhz : forall n, 0 < n < 100000 ->
          VX2.freq_to_hz (VX2.hz_to_freq (n * 1000) m
                            (VX2.ch_offset (VX2.OFFSET_CHANNELS + i * VX2.sizeof_channel)))
                         (VX2.ch_offset (VX2.OFFSET_CHANNELS + i * VX2.sizeof_channel)) =
          if (n mod 10 =? 2) || (n mod 10 =? 7) then n * 1000 + 500 else n * 1000).
{ intros n Hn. rewrite vx2_freq_decode_encode by lia. cbv zeta.
  rewrite Z.div_mul by lia. reflexivity. }
split; [ | split ].
- intros Hk. rewrite Dtx.
  replace (k =? 0) with false by (symmetry; apply Z.eqb_neq; lia).
  replace ((k >? 0) && (k <? 100000)) with true
    by (symmetry; apply andb_true_iff; split; [ rewrite Z.gtb_ltb | ]; apply Z.ltb_lt; lia).
  cbn [Z.eqb VX2.D_POS_OFFSET VX2.D_NEG_OFFSET Pos.eqb].
  rewrite Hkhz by lia. apply int32_small.
  destruct ((k mod 10 =? 2) || (k mod 10 =? 7)); lia.
- intros Hk. rewrite Dtx.
  replace (k =? 0) with false by (symmetry; apply Z.eqb_neq; lia).
  replace ((k >? 0) && (k <? 100000)) with false
    by (symmetry; apply andb_false_iff; left; rewrite Z.gtb_ltb; apply Z.ltb_ge; lia).
  replace ((k <? 0) && (- k <? 100000)) with true
    by (symmetry; apply andb_true_iff; split; apply Z.ltb_lt; lia).
  cbn [Z.eqb VX2.D_POS_OFFSET VX2.D_NEG_OFFSET Pos.eqb].
  rewrite Hkhz by lia. apply int32_small.
  destruct ((- k mod 10 =? 2) || (- k mod 10 =? 7)); lia.
- intros Hk tx Htx Htxshape. rewrite Dtx.
  replace (k =? 0) with false by (symmetry; apply Z.eqb_neq; lia).
  replace ((k >? 0) && (k <? 100000)) with false
    by (symmetry; apply andb_false_iff; destruct Hk;
        [ left; rewrite Z.gtb_ltb | right ]; apply Z.ltb_ge; lia).
  replace ((k <? 0) && (- k <? 100000)) with false
    by (symmetry; apply andb_false_iff; destruct Hk; [ right | left ]; apply Z.ltb_ge; lia).
  cbn [Z.eqb VX2.D_POS_OFFSET VX2.D_NEG_OFFSET VX2.D_DUPLEX Pos.eqb].
  apply vx2_freq_kept; assumption.
Qed.

(** Witness: 146.520 MHz with 147.120 MHz to transmit is read back so;
    with an offset of 12 kHz it is read back transmitting on
    146.5325 MHz. *)
Lemma vx2_offset_roundtrip_witness :
  VX2.tx_hz (VX2.decode_channel [885] [23]
               (VX2.setup_channel (fun _ => 0) 0 None 146.52%float 147.12%float
                  0 12 0 0 0 0) 0 VX2.OFFSET_CHANNELS false) = 147120000 /\
  VX2.tx_hz (VX2.decode_channel [885] [23]
               (VX2.setup_channel (fun _ => 0) 0 None 146.52%float 146.532%float
                  0 12 0 0 0 0) 0 VX2.OFFSET_CHANNELS false) = 146532500.
Proof.
assert (Hrange : forall lo v hi, (lo <=? v) && (v <? hi) = true -> lo <= v < hi)
  by (intros lo v hi H; apply andb_true_iff in H; destruct H as [H1 H2];
      apply Z.leb_le in H1; apply Z.ltb_lt in H2; split; assumption).
split.
- destruct (vx2_offset_roundtrip [885] [23] (fun _ => 0) 0 None 146.52%float 147.12%float
              0 12 0 0 0 0 false) as (Hpos & _ & _);
    [ apply Hrange; reflexivity | vm_compute; split; reflexivity
    | left; vm_compute; repeat split; discriminate | ].
  apply Hpos. vm_compute. split; reflexivity.
- destruct (vx2_offset_roundtrip [885] [23] (fun _ => 0) 0 None 146.52%float 146.532%float
              0 12 0 0 0 0 false) as (Hpos & _ & _);
    [ apply Hrange; reflexivity | vm_compute; split; reflexivity
    | left; vm_compute; repeat split; discriminate | ].
  apply Hpos. vm_compute. split; reflexivity.
Defined.

(** ** The first row of a table of channels *)

(** *** FT-60: every channel is set up as unused *)

Lemma ft60_erased_channel (m : memory) (j : Z) :
  0 <= j < FT60.NCHAN ->
  FT60.ch_used
    (FT60.setup_channel m j None 0%float 0%float 0 FT60.TONE_DEFAULT 0 0 1 0 0)
    (FT60.OFFSET_CHANNELS + j * FT60.sizeof_channel) = 0.
Proof.
intros Hj.
destruct (ft60_stored_byte0 m j None 0%float 0%float 0 FT60.TONE_DEFAULT 0 0 1 0 0 Hj)
  as (Hused & _).
exact Hused.
Qed.

Lemma ft60_other_channel (m : memory) (i j : Z) (name : option string)
  (rx_mhz tx_mhz : double) (tmode tone dtcs power wide scan isam : Z) :
  0 <= i < FT60.NCHAN -> 0 <= j < FT60.NCHAN -> i <> j ->
  FT60.ch_used
    (FT60.setup_channel m i name rx_mhz tx_mhz tmode tone dtcs power wide scan isam)
    (FT60.OFFSET_CHANNELS + j * FT60.sizeof_channel) =
  FT60.ch_used m (FT60.OFFSET_CHANNELS + j * FT60.sizeof_channel).
Proof.
intros Hi Hj Hij. unfold FT60.ch_used, load_field.
pose proof (scan_index i Hi) as Hq.
rewrite ft60_setup_channel_frame; [ reflexivity | exact Hi | | | ]; layout; lia.
Qed.

Lemma ft60_erased_table (j : Z) (l : list Z) :
  0 <= j < FT60.NCHAN ->
  forall m : memory,
    (forall i, In i l -> 0 <= i < FT60.NCHAN) ->
    In j l \/ FT60.ch_used m (FT60.OFFSET_CHANNELS + j * FT60.sizeof_channel) = 0 ->
    FT60.ch_used
      (fold_left
         (fun m i => FT60.setup_channel m i None 0%float 0%float 0 FT60.TONE_DEFAULT 0 0 1 0 0)
         l m)
      (FT60.OFFSET_CHANNELS + j * FT60.sizeof_channel) = 0.
Proof.
intros Hj. induction l as [| a l IH]; intros m Hl Hstart; cbn [fold_left].
- destruct Hstart as [[] | H]. exact H.
- apply IH; [ intros i Hin; apply Hl; right; exact Hin | ].
  destruct (Z.eq_dec a j) as [-> | Hne].
  + right. apply ft60_erased_channel. exact Hj.
  + destruct Hstart as [[E | Hin] | Hm]; [ contradiction | left; exact Hin | right ].
    rewrite ft60_other_channel; [ exact Hm | apply Hl; left; reflexivity | exact Hj | exact Hne ].
Qed.

(** An unused memory channel decodes to nothing. *)
Lemma ft60_decode_unused (tones codes : list Z) (m : memory) (j : Z) (with_name : bool) :
  FT60.ch_used m (FT60.OFFSET_CHANNELS + j * FT60.sizeof_channel) = 0 ->
  FT60.decode_channel tones codes m j FT60.OFFSET_CHANNELS with_name =
  FT60.mk_channel (if with_name then Some EmptyString else None) 0 0 0 0 0 0 0 0 0 0 0.
Proof.
intros Hused. unfold FT60.decode_channel. cbv zeta. rewrite Hused. reflexivity.
Qed.

Lemma ft60_first_channel_row (tones codes : list Z)
  (scan_float scan_double : string -> option double)
  (m : memory) (first_row : Z) (line : string) (j : Z) (with_name : bool) :
  let r := FT60.parse_channel tones codes scan_float scan_double m first_row line in
  first_row <> 0 -> status r = 1 ->
  0 <= j < FT60.NCHAN -> j <> atoi (hd EmptyString (scan_words 9 line)) - 1 ->
  FT60.decode_channel tones codes (image r) j FT60.OFFSET_CHANNELS with_name =
  FT60.mk_channel (if with_name then Some EmptyString else None) 0 0 0 0 0 0 0 0 0 0 0.
Proof.
cbv zeta. intros Hfirst Hok Hj Hother. apply ft60_decode_unused.
revert Hok Hother. unfold FT60.parse_channel.
destruct (scan_words 9 line)
  as [| w1 [| w2 [| w3 [| w4 [| w5 [| w6 [| w7 [| w8 [| w9 [| w10 rest]]]]]]]]]];
  cbn [hd]; try (cbn; discriminate).
cbv zeta.
destruct ((atoi w1 <? 1) || (atoi w1 >? FT60.NCHAN)) eqn:Hnum; [ cbn; discriminate | ].
destruct (scan_double w3) as [rx_mhz |]; [ | cbn; discriminate ].
destruct (FT60.is_valid_frequency (int_of_double rx_mhz) =? 0); [ cbn; discriminate | ].
destruct (scan_double w4) as [tx0 |]; [ | cbn; discriminate ].
destruct (FT60.is_valid_frequency _ =? 0); [ cbn; discriminate | ].
destruct (FT60.encode_squelch tones codes scan_float w5 w6) as [[tmode tone] dtcs].
destruct (strcasecmp "High" w7 =? 0);
  [ | destruct (strcasecmp "Mid" w7 =? 0);
  [ | destruct (strcasecmp "Low" w7 =? 0); [ | cbn; discriminate ] ] ];
  (destruct (strcasecmp "Wide" w8 =? 0);
   [ | destruct (strcasecmp "Narrow" w8 =? 0);
   [ | destruct (strcasecmp "AM" w8 =? 0); [ | cbn; discriminate ] ] ]);
  (destruct (char_at w9 0 =? 43);
   [ | destruct (char_at w9 0 =? 45);
   [ | destruct (strcasecmp "Only" w9 =? 0); [ | cbn; discriminate ] ] ]);
  intros _ Hother; cbn [image accept];
  apply orb_false_iff in Hnum; destruct Hnum as [Hlo Hhi];
  apply Z.ltb_ge in Hlo; rewrite Z.gtb_ltb in Hhi; apply Z.ltb_ge in Hhi;
  (rewrite ft60_other_channel; [ | unfold FT60.NCHAN in *; lia | exact Hj | lia ]);
  (destruct (Z.eqb_spec first_row 0) as [E | _]; [ contradiction | ]);
  cbn [negb];
  (apply ft60_erased_table;
   [ exact Hj | intros i Hin; apply In_Z_range in Hin; exact Hin
   | left; apply In_Z_range; exact Hj ]).
Qed.

(** *** VX-2: the records and the flags are wiped *)

Lemma vx2_other_flags (m : memory) (i j : Z) (name : option string)
  (rx_mhz tx_mhz : double) (tmode tone dcs power scan amfm : Z) :
  0 <= i < VX2.NCHAN -> 0 <= j < VX2.NCHAN + 2 * VX2.NPMS -> j <> i ->
  VX2.get_flags (VX2.setup_channel m i name rx_mhz tx_mhz tmode tone dcs power scan amfm) j
  = VX2.get_flags m j.
Proof.
intros Hi Hj Hji. unfold VX2.setup_channel. cbv zeta.
unfold VX2.NCHAN, VX2.NPMS in Hi, Hj.
rewrite vx2_get_set_flags;
  [ | lia | lia
    | destruct (scan =? VX2.SCAN_SKIP);
      [ | destruct (scan =? VX2.SCAN_PREFERENTIAL) ]; cbn; lia ].
replace (j =? i) with false by (symmetry; apply Z.eqb_neq; exact Hji).
unfold VX2.get_flags. cbv zeta.
pose proof (flags_index j Hj) as Hq.
vx2_layout. read_back. reflexivity.
Qed.

Lemma vx2_decode_invalid (tones codes : list Z) (m : memory) (j : Z) (with_name : bool) :
  VX2.get_flags m j = 0 ->
  VX2.decode_channel tones codes m j VX2.OFFSET_CHANNELS with_name =
  VX2.mk_channel (if with_name then Some EmptyString else None) 0 0 0 0 0 0 0 0 0 0.
Proof.
intros Hflags. unfold VX2.decode_channel. cbv zeta.
cbn [Z.eqb VX2.OFFSET_CHANNELS VX2.OFFSET_PMS Pos.eqb orb andb].
rewrite Z.add_0_r, Hflags. reflexivity.
Qed.

Lemma vx2_first_channel_row (tones codes : list Z)
  (scan_float scan_double : string -> option double)
  (m : memory) (first_row : Z) (line : string) (j : Z) (with_name : bool) :
  let r := VX2.parse_channel tones codes scan_float scan_double m first_row line in
  first_row <> 0 -> status r = 1 ->
  0 <= j < VX2.NCHAN -> j <> atoi (hd EmptyString (scan_words 9 line)) - 1 ->
  VX2.decode_channel tones codes (image r) j VX2.OFFSET_CHANNELS with_name =
  VX2.mk_channel (if with_name then Some EmptyString else None) 0 0 0 0 0 0 0 0 0 0.
Proof.
cbv zeta. intros Hfirst Hok Hj Hother. apply vx2_decode_invalid.
revert Hok Hother. unfold VX2.parse_channel.
destruct (scan_words 9 line)
  as [| w1 [| w2 [| w3 [| w4 [| w5 [| w6 [| w7 [| w8 [| w9 [| w10 rest]]]]]]]]]];
  cbn [hd]; try (cbn; discriminate).
cbv zeta.
destruct ((atoi w1 <? 1) || (atoi w1 >? VX2.NCHAN)) eqn:Hnum; [ cbn; discriminate | ].
destruct (scan_double w3) as [rx_mhz |]; [ | cbn; discriminate ].
destruct (VX2.is_valid_frequency rx_mhz =? 0); [ cbn; discriminate | ].
match goal with
| |- context [match ?tx with Some _ => _ | None => reject _ m end] =>
    destruct tx as [tx_mhz |]; [ | cbn; discriminate ]
end.
destruct (VX2.encode_squelch tones codes scan_float w5 w6) as [[tmode tone] dcs].
match goal with
| |- context [match ?p with Some _ => _ | None => reject _ m end] =>
    destruct p as [power |]; [ | cbn; discriminate ]
end.
match goal with
| |- context [match ?p with Some _ => _ | None => reject _ m end] =>
    destruct p as [amfm |]; [ | cbn; discriminate ]
end.
match goal with
| |- context [match ?p with Some _ => _ | None => reject _ m end] =>
    destruct p as [scan |]; [ | cbn; discriminate ]
end.
intros _ Hother. cbn [image accept].
apply orb_false_iff in Hnum. destruct Hnum as [Hlo Hhi].
apply Z.ltb_ge in Hlo. rewrite Z.gtb_ltb in Hhi. apply Z.ltb_ge in Hhi.
unfold VX2.NCHAN in Hhi, Hj.
rewrite vx2_other_flags by (unfold VX2.NCHAN, VX2.NPMS; lia).
destruct (Z.eqb_spec first_row 0) as [E | _]; [ contradiction | ]. cbn [negb].
unfold VX2.get_flags. cbv zeta.
pose proof (flags_index j ltac:(lia)) as Hq.
rewrite load_memset_inside
  by (change (Z.quot VX2.NCHAN 2) with 500;
      assert (Z.quot j 2 < 500)
        by (rewrite Z.quot_div_nonneg by lia; apply Z.div_lt_upper_bound; lia);
      lia).
destruct (negb _); reflexivity.
Qed.

(** The first row of a table of channels erases the table: once it is
    accepted, every memory channel but the one of the row decodes as
    unused, whatever the image held, on both radios. *)
Theorem first_channel_row_erases :
  forall (tones codes : list Z) (scan_float scan_double : string -> option double)
         (m : memory) (first_row : Z) (line : string) (j : Z) (with_name : bool),
    first_row <> 0 ->
    j <> atoi (hd EmptyString (scan_words 9 line)) - 1 ->
    (let r := FT60.parse_channel tones codes scan_float scan_double m first_row line in
     status r = 1 -> 0 <= j < FT60.NCHAN ->
     FT60.decode_channel tones codes (image r) j FT60.OFFSET_CHANNELS with_name =
     FT60.mk_channel (if with_name then Some EmptyString else None) 0 0 0 0 0 0 0 0 0 0 0) /\
    (let r := VX2.parse_channel tones codes scan_float scan_double m first_row line in
     status r = 1 -> 0 <= j < VX2.NCHAN ->
     VX2.decode_channel tones codes (image r) j VX2.OFFSET_CHANNELS with_name =
     VX2.mk_channel (if with_name then Some EmptyString else None) 0 0 0 0 0 0 0 0 0 0).
Proof.
intros tones codes scan_float scan_double m first_row line j with_name Hfirst Hother.
split; cbv zeta; intros Hok Hj.
- apply ft60_first_channel_row; assumption.
- apply vx2_first_channel_row; assumption.
Qed.

Lemma first_channel_row_erases_witness :
  let line := "    2   CALL    146.520  +0.6     88.5    88.5   High  Wide       +" in
  let ft := FT60.parse_channel [885] [23] scan_decimal scan_decimal (fun _ => 0xff) 1 line in
  let line' := "    2   CALL    146.520  +0.6     88.5    88.5   High  FM         +" in
  let vx := VX2.parse_channel [885] [23] scan_decimal scan_decimal (fun _ => 0x33) 1 line' in
  FT60.rx_hz (FT60.decode_channel [885] [23] (image ft) 0 FT60.OFFSET_CHANNELS false) = 0 /\
  VX2.rx_hz (VX2.decode_channel [885] [23] (image vx) 0 VX2.OFFSET_CHANNELS false) = 0.
Proof.
intros line ft line' vx. split.
- pose proof (proj1 (first_channel_row_erases [885] [23] scan_decimal scan_decimal
                       (fun _ => 0xff) 1 line 0 false ltac:(discriminate) ltac:(discriminate)))
    as H.
  cbv zeta in H. fold ft in H.
  rewrite H; [ reflexivity | lazy; reflexivity | unfold FT60.NCHAN; lia ].
- pose proof (proj2 (first_channel_row_erases [885] [23] scan_decimal scan_decimal
                       (fun _ => 0x33) 1 line' 0 false ltac:(discriminate) ltac:(discriminate)))
    as H.
  cbv zeta in H. fold vx in H.
  rewrite H; [ reflexivity | lazy; reflexivity | unfold VX2.NCHAN; lia ].
Defined.

(** ** Rows that are refused *)

(** One test of a row parser: the row is refused on the spot, with the
    image it was given, or the parser goes on. *)
Ltac row_test :=
  match goal with
  | |- context [match ?x with _ => _ end] => destruct x
  end;
  try (intros _; reflexivity); try (intros H; discriminate H).

Section RefusedRows.

Variables tones codes : list Z.
Variables scan_float scan_double : string -> option double.
Variables (m : memory) (first_row : Z) (line : string).

Lemma ft60_channel_refused :
  let r := FT60.parse_channel tones codes scan_float scan_double m first_row line in
  status r = 0 -> image r = m.
Proof. cbv zeta. unfold FT60.parse_channel. repeat row_test. Qed.

Lemma ft60_home_refused :
  let r := FT60.parse_home tones codes scan_float scan_double m first_row line in
  status r = 0 -> image r = m.
Proof. cbv zeta. unfold FT60.parse_home. repeat row_test. Qed.

Lemma ft60_pms_refused :
  let r := FT60.parse_pms scan_double m first_row line in
  status r = 0 -> image r = m.
Proof. cbv zeta. unfold FT60.parse_pms. repeat row_test. Qed.

Lemma vx2_channel_refused :
  let r := VX2.parse_channel tones codes scan_float scan_double m first_row line in
  status r = 0 -> image r = m.
Proof. cbv zeta. unfold VX2.parse_channel. repeat row_test. Qed.

Lemma vx2_home_refused :
  let r := VX2.parse_home tones codes scan_float scan_double m first_row line in
  status r = 0 -> image r = m.
Proof. cbv zeta. unfold VX2.parse_home. repeat row_test. Qed.

Lemma vx2_vfo_refused :
  let r := VX2.parse_vfo tones codes scan_float scan_double m first_row line in
  status r = 0 -> image r = m.
Proof. cbv zeta. unfold VX2.parse_vfo. repeat row_test. Qed.

Lemma vx2_pms_refused :
  let r := VX2.parse_pms scan_double m first_row line in
  status r = 0 -> image r = m.
Proof. cbv zeta. unfold VX2.parse_pms. repeat row_test. Qed.

End RefusedRows.

(** A row of the Channel, Home, VFO or PMS table that the parser refuses
    leaves the image as it was: every test of these parsers comes before
    their first write.  ([parse_row] returns for every table but the Bank
    table, whose parser has a loop; a refused Bank row may have changed the
    image.) *)
Theorem refused_row_keeps_image :
  forall (tones codes : list Z) (scan_float scan_double : string -> option double)
         (m : memory) (table_id first_row : Z) (line : string),
    table_id <> 66 ->
    (exists r, FT60.ft60_parse_row tones codes scan_float scan_double m table_id first_row line
               = Done r /\ (status r = 0 -> image r = m)) /\
    (exists r, VX2.vx2_parse_row tones codes scan_float scan_double m table_id first_row line
               = Done r /\ (status r = 0 -> image r = m)).
Proof.
intros tones codes scan_float scan_double m table_id first_row line Hbank.
apply Z.eqb_neq in Hbank.
unfold FT60.ft60_parse_row, VX2.vx2_parse_row. rewrite Hbank. split.
- destruct (table_id =? 67); [ eexists; split; [ reflexivity | apply ft60_channel_refused ] | ].
  destruct (table_id =? 72); [ eexists; split; [ reflexivity | apply ft60_home_refused ] | ].
  destruct (table_id =? 80); [ eexists; split; [ reflexivity | apply ft60_pms_refused ] | ].
  eexists; split; reflexivity.
- destruct (table_id =? 67); [ eexists; split; [ reflexivity | apply vx2_channel_refused ] | ].
  destruct (table_id =? 72); [ eexists; split; [ reflexivity | apply vx2_home_refused ] | ].
  destruct (table_id =? 86); [ eexists; split; [ reflexivity | apply vx2_vfo_refused ] | ].
  destruct (table_id =? 80); [ eexists; split; [ reflexivity | apply vx2_pms_refused ] | ].
  eexists; split; reflexivity.
Qed.

(** The statement at the PMS row of pair 51, one more than either radio
    has, read as first row of its table into an image whose every byte is
    0x55: the row is refused. *)
Lemma refused_row_keeps_image_witness :
  let m := fun _ : Z => 0x55 in
  let line := "   51   144.0000 148.0000" in
  ((exists r, FT60.ft60_parse_row [885] [23] scan_decimal scan_decimal m 80 1 line = Done r /\
              (status r = 0 -> image r = m)) /\
   (exists r, VX2.vx2_parse_row [885] [23] scan_decimal scan_decimal m 80 1 line = Done r /\
              (status r = 0 -> image r = m))) /\
  status (FT60.parse_pms scan_decimal m 1 line) = 0 /\
  status (VX2.parse_pms scan_decimal m 1 line) = 0.
Proof.
intros m line. split; [ | split; vm_compute; reflexivity ].
apply (refused_row_keeps_image [885] [23] scan_decimal scan_decimal m 80 1 line).
discriminate.
Defined.

(** ** The power column of the FT-60, printed and read *)

(** The power level a Channel row is given for its power column. *)
Lemma ft60_row_power (tones codes : list Z) (scan_float scan_double : string -> option double)
  (m : memory) (first_row : Z) (line : string) (p : Z) :
  let words := scan_words 9 line in
  let r := FT60.parse_channel tones codes scan_float scan_double m first_row line in
  let ch := FT60.OFFSET_CHANNELS + (atoi (nth 0 words EmptyString) - 1) * FT60.sizeof_channel in
  0 <= p < 4 ->
  (if strcasecmp "High" (nth 6 words EmptyString) =? 0 then Some 0
   else if strcasecmp "Mid" (nth 6 words EmptyString) =? 0 then Some 1
   else if strcasecmp "Low" (nth 6 words EmptyString) =? 0 then Some 2
   else None) = Some p ->
  status r = 1 -> FT60.ch_power (image r) ch = p.
Proof.
cbv zeta. unfold FT60.parse_channel.
destruct (scan_words 9 line)
  as [| w1 [| w2 [| w3 [| w4 [| w5 [| w6 [| w7 [| w8 [| w9 [| w10 rest]]]]]]]]]];
  cbn [nth]; intros Hp Hpower; try (intros H; discriminate H).
destruct ((atoi w1 <? 1) || (atoi w1 >? FT60.NCHAN)) eqn:Hnum; [ intros H; discriminate H | ].
apply orb_false_elim in Hnum. destruct Hnum as [Hlo Hhi].
apply Z.ltb_ge in Hlo. rewrite Z.gtb_ltb in Hhi. apply Z.ltb_ge in Hhi.
destruct (scan_double w3) as [rx_mhz |]; [ | intros H; discriminate H ].
destruct (FT60.is_valid_frequency (int_of_double rx_mhz) =? 0); [ intros H; discriminate H | ].
destruct (scan_double w4) as [tx0 |]; [ | intros H; discriminate H ].
cbv zeta.
destruct (FT60.is_valid_frequency _ =? 0); [ intros H; discriminate H | ].
destruct (FT60.encode_squelch tones codes scan_float w5 w6) as [[tmode tone] dtcs].
rewrite Hpower.
repeat match goal with
| |- context [match ?x with Some _ => _ | None => reject _ m end] =>
    destruct x as [? |]; [ | intros H; discriminate H ]
| |- context [let (_, _) := ?x in _] => destruct x
end.
intros _. cbn [image accept].
match goal with
| |- FT60.ch_power (FT60.setup_channel ?m0 ?i ?n ?rx ?tx ?tm ?to ?dt ?pw ?wd ?sc ?am) _ = _ =>
    destruct (ft60_stored_squelch m0 i n rx tx tm to dt pw wd sc am) as (_ & _ & _ & H & _);
      [ lia | rewrite H ]
end.
apply land_ones_small; lia.
Qed.

(** [ft60_print_config] writes the power column of a channel from
    [POWER_NAME], by the power level of its record.  Read back by
    [parse_channel], "High" and "Low" give the record the level they were
    printed for (0 and 2); "Med", printed for level 1, and "??", printed
    for level 3, are refused, and the image stays as it was: the parser
    knows the middle level as "Mid". *)
Theorem ft60_printed_power_read_back :
  forall (tones codes : list Z) (scan_float scan_double : string -> option double)
         (m : memory) (first_row : Z) (line : string) (p : Z),
    0 <= p < 4 ->
    nth 6 (scan_words 9 line) EmptyString = nth (Z.to_nat p) FT60.POWER_NAME EmptyString ->
    let r := FT60.parse_channel tones codes scan_float scan_double m first_row line in
    let ch := FT60.OFFSET_CHANNELS
              + (atoi (nth 0 (scan_words 9 line) EmptyString) - 1) * FT60.sizeof_channel in
    (p = 0 \/ p = 2 -> status r = 1 -> FT60.ch_power (image r) ch = p) /\
    (p = 1 \/ p = 3 -> status r = 0 /\ image r = m).
Proof.
intros tones codes scan_float scan_double m first_row line p Hp Hname r ch. split.
- intros Hlevel. apply ft60_row_power; [ exact Hp | ].
  rewrite Hname. destruct Hlevel as [-> | ->]; reflexivity.
- intros Hlevel. apply ft60_bad_power; cbv zeta; rewrite Hname;
    destruct Hlevel as [-> | ->]; vm_compute; discriminate.
Qed.

(** The statement at the row of channel 1 with the power column "Med",
    read into an image whose every byte is 0x55. *)
Lemma ft60_printed_power_read_back_witness :
  let line := "    1   CALL    146.520  +0.6     88.5    88.5   Med   Wide       +" in
  let r := FT60.parse_channel [885] [23] scan_decimal scan_decimal (fun _ => 0x55) 0 line in
  status r = 0 /\ image r = (fun _ => 0x55).
Proof.
intros line r.
apply (ft60_printed_power_read_back [885] [23] scan_decimal scan_decimal
         (fun _ => 0x55) 0 line 1); [ lia | reflexivity | left; reflexivity ].
Defined.

(** ** Image files *)

Lemma load_bytes_length (m : memory) (a : Z) (n : nat) :
  List.length (load_bytes m a n) = n.
Proof. unfold load_bytes. rewrite length_map, length_seq. reflexivity. Qed.

Lemma nth_load_bytes (m : memory) (a : Z) (n k : nat) :
  (k < n)%nat -> nth k (load_bytes m a n) 0 = load m (a + Z.of_nat k).
Proof.
intros Hk. unfold load_bytes.
pose proof (map_nth (fun k => load m (a + Z.of_nat k)) (seq 0 n) O k) as H.
cbv beta in H. rewrite seq_nth in H by exact Hk. cbn [Nat.add] in H.
rewrite <- H. apply nth_indep. rewrite length_map, length_seq. exact Hk.
Qed.

Lemma firstn_load_bytes (m : memory) (a : Z) (n k : nat) :
  (k <= n)%nat -> firstn k (load_bytes m a n) = load_bytes m a k.
Proof.
intros Hk. unfold load_bytes. rewrite firstn_map. f_equal.
replace n with (k + (n - k))%nat by lia.
rewrite seq_app, firstn_app, length_seq, Nat.sub_diag, firstn_O, app_nil_r.
apply firstn_all2. rewrite length_seq. lia.
Qed.

(** What a buffer holds after the bytes of another one were copied to it. *)
Lemma load_store_load_bytes (m0 m : memory) (n : nat) (x : Z) :
  load (store_bytes m0 0 (load_bytes m 0 n)) x =
  if (0 <=? x) && (x <? Z.of_nat n) then load m x else load m0 x.
Proof.
unfold load at 1. unfold store_bytes. rewrite load_bytes_length. cbn [Z.add].
destruct ((0 <=? x) && (x <? Z.of_nat n)) eqn:Hin; [ | reflexivity ].
apply andb_prop in Hin. destruct Hin as [Hlo Hhi].
apply Z.leb_le in Hlo. apply Z.ltb_lt in Hhi.
rewrite Z.sub_0_r, nth_load_bytes by lia.
rewrite Z2Nat.id by lia. cbn [Z.add].
rewrite !uint8_small by apply load_range. reflexivity.
Qed.

(** An image file written by [save_image] and read by [read_image] into
    any buffer: the VX-2 gets back the [MEMSZ + 1] bytes that were
    written, checksum included.  The FT-60 writes [MEMSZ + 1] bytes and
    reads [MEMSZ]: the bytes of the image come back, the checksum byte of
    the buffer stays what it was.  A file that is shorter than what
    [read_image] asks for stops the process with status -1. *)
Theorem image_file_roundtrip :
  forall (m0 m : memory),
    (exists m', FT60.ft60_read_image m0 (FT60.ft60_save_image m) = Done m' /\
                (forall a, 0 <= a < FT60.MEMSZ -> load m' a = load m a) /\
                (forall a, a < 0 \/ FT60.MEMSZ <= a -> load m' a = load m0 a)) /\
    (exists m', VX2.vx2_read_image m0 (VX2.vx2_save_image m) = Done m' /\
                (forall a, 0 <= a <= VX2.MEMSZ -> load m' a = load m a) /\
                (forall a, a < 0 \/ VX2.MEMSZ < a -> load m' a = load m0 a)) /\
    (forall img, Z.of_nat (List.length img) < FT60.MEMSZ ->
                 FT60.ft60_read_image m0 img = Halt (-1) ("Error reading image data." ++ newline)) /\
    (forall img, Z.of_nat (List.length img) <= VX2.MEMSZ ->
                 VX2.vx2_read_image m0 img = Halt (-1) ("Error reading image data." ++ newline)).
Proof.
intros m0 m. split; [ | split; [ | split ] ].
- unfold FT60.ft60_read_image, FT60.ft60_save_image, fread.
  rewrite firstn_load_bytes by (unfold FT60.MEMSZ; lia).
  rewrite load_bytes_length, Z2Nat.id by (unfold FT60.MEMSZ; lia).
  rewrite Z.eqb_refl. cbn [negb].
  eexists. split; [ reflexivity | ].
  split; intros a Ha; rewrite load_store_load_bytes, Z2Nat.id by (unfold FT60.MEMSZ; lia).
  + replace ((0 <=? a) && (a <? FT60.MEMSZ)) with true; [ reflexivity | ].
    symmetry. apply andb_true_intro. split; [ apply Z.leb_le | apply Z.ltb_lt ]; lia.
  + replace ((0 <=? a) && (a <? FT60.MEMSZ)) with false; [ reflexivity | ].
    symmetry. apply andb_false_iff.
    destruct Ha; [ left; apply Z.leb_gt | right; apply Z.ltb_ge ]; lia.
- unfold VX2.vx2_read_image, VX2.vx2_save_image, fread.
  rewrite firstn_load_bytes by lia.
  rewrite load_bytes_length, Z2Nat.id by (unfold VX2.MEMSZ; lia).
  rewrite Z.eqb_refl. cbn [negb].
  eexists. split; [ reflexivity | ].
  split; intros a Ha; rewrite load_store_load_bytes, Z2Nat.id by (unfold VX2.MEMSZ; lia).
  + replace ((0 <=? a) && (a <? VX2.MEMSZ + 1)) with true; [ reflexivity | ].
    symmetry. apply andb_true_intro. split; [ apply Z.leb_le | apply Z.ltb_lt ]; lia.
  + replace ((0 <=? a) && (a <? VX2.MEMSZ + 1)) with false; [ reflexivity | ].
    symmetry. apply andb_false_iff.
    destruct Ha; [ left; apply Z.leb_gt | right; apply Z.ltb_ge ]; lia.
- intros img Hshort. unfold FT60.ft60_read_image, fread.
  rewrite firstn_all2 by (unfold FT60.MEMSZ in *; lia).
  replace (Z.of_nat (List.length img) =? FT60.MEMSZ) with false; [ reflexivity | ].
  symmetry. apply Z.eqb_neq. lia.
- intros img Hshort. unfold VX2.vx2_read_image, fread.
  rewrite firstn_all2 by (unfold VX2.MEMSZ in *; lia).
  replace (Z.of_nat (List.length img) =? VX2.MEMSZ + 1) with false; [ reflexivity | ].
  symmetry. apply Z.eqb_neq. lia.
Qed.

(** The statement at a file of three bytes, and at the image whose every
    byte is 0x55 read into a buffer of zeros. *)
Lemma image_file_roundtrip_witness :
  FT60.ft60_read_image (fun _ => 0) [1; 2; 3]
    = Halt (-1) ("Error reading image data." ++ newline) /\
  VX2.vx2_read_image (fun _ => 0) [1; 2; 3]
    = Halt (-1) ("Error reading image data." ++ newline) /\
  exists m', FT60.ft60_read_image (fun _ => 0) (FT60.ft60_save_image (fun _ => 0x55)) = Done m' /\
             load m' 0 = 0x55 /\ load m' FT60.MEMSZ = 0.
Proof.
destruct (image_file_roundtrip (fun _ => 0) (fun _ => 0x55)) as (Hback & _ & Hft & Hvx).
split; [ apply Hft; reflexivity | ].
split; [ apply Hvx; intros H; discriminate H | ].
destruct Hback as (m' & Hread & Hin & Hout).
exists m'. split; [ exact Hread | ].
split; [ apply (Hin 0); split; [ discriminate | reflexivity ] | ].
apply (Hout FT60.MEMSZ). right. discriminate.
Defined.

(** ** The virtual jumpers of the VX-2, printed and read *)

(** [%x] reads back a byte that [%02x] wrote, up to the space that follows
    it or to the end of the text. *)
Lemma scan_x_byte (a : Z) (rest : string) :
  0 <= a < 256 ->
  scan_x (fmt_02x a ++ String " " rest) = Some (a, String " " rest) /\
  scan_x (fmt_02x a) = Some (a, EmptyString).
Proof.
intros Ha.
assert (H : In a (Z_range 0 256)) by (apply In_Z_range; lia).
clear Ha. vm_compute in H.
repeat (destruct H as [H | H]; [ subst a; split; vm_compute; reflexivity | ]).
contradiction.
Qed.

Lemma scan_x_space (s : string) : scan_x (String " " s) = scan_x s.
Proof. reflexivity. Qed.

(** The line "Virtual Jumpers" that [vx2_print_config] writes for an
    image, read by [vx2_parse_parameter] into any image: the four bytes
    printed, which are the bytes 6, 7, 8 and 13 of the first image, are
    stored as the bytes 10, 11, 12 and 13 of the second, and nothing else
    is changed.  The bytes 6, 7 and 8, which are the ones printed, are not
    restored. *)
Theorem vx2_jumpers_read_back :
  forall (m1 m2 : memory),
    exists m',
      VX2.vx2_parse_parameter m2 "Virtual Jumpers" (VX2.jumpers_value m1)
        = Done (EmptyString, m') /\
      load m' 10 = load m1 6 /\ load m' 11 = load m1 7 /\
      load m' 12 = load m1 8 /\ load m' 13 = load m1 13 /\
      (forall a, a < 10 \/ 13 < a -> load m' a = load m2 a).
Proof.
intros m1 m2.
unfold VX2.vx2_parse_parameter, VX2.jumpers_value, scan_4x.
change (strcasecmp "Radio" "Virtual Jumpers" =? 0) with false.
change (strcasecmp "Virtual Jumpers" "Virtual Jumpers" =? 0) with true.
cbv iota.
set (r3 := fmt_02x (load m1 13)).
set (r2 := fmt_02x (load m1 8) ++ " " ++ r3).
set (r1 := fmt_02x (load m1 7) ++ " " ++ r2).
change (" " ++ r1) with (String " " r1).
rewrite (proj1 (scan_x_byte (load m1 6) r1 (load_range m1 6))).
rewrite scan_x_space. subst r1.
change (" " ++ r2) with (String " " r2).
rewrite (proj1 (scan_x_byte (load m1 7) r2 (load_range m1 7))).
rewrite scan_x_space. subst r2.
change (" " ++ r3) with (String " " r3).
rewrite (proj1 (scan_x_byte (load m1 8) r3 (load_range m1 8))).
rewrite scan_x_space. subst r3.
rewrite (proj2 (scan_x_byte (load m1 13) EmptyString (load_range m1 13))).
eexists. split; [ reflexivity | ].
repeat (rewrite ?load_store_same, ?load_store_other by lia).
rewrite !uint8_small by apply load_range.
repeat (split; [ reflexivity | ]).
intros a Ha. rewrite !load_store_other by lia. reflexivity.
Qed.

(** ** What an upload writes to the line *)













(** ** What a download writes to the line *)

(** The line carries [k] more acknowledgements in [w'] than in [w]. *)
Lemma acks_refl (o : list Z) : exists k, o = app o (repeat 6 k).
Proof. exists O. cbn [repeat]. rewrite app_nil_r. reflexivity. Qed.

Lemma acks_trans (o1 o2 o3 : list Z) :
  (exists k, o2 = app o1 (repeat 6 k)) ->
  (exists k, o3 = app o2 (repeat 6 k)) ->
  exists k, o3 = app o1 (repeat 6 k).
Proof.
intros [k1 ->] [k2 ->]. exists (k1 + k2)%nat.
rewrite <- app_assoc, repeat_app. reflexivity.
Qed.

Lemma acks_one (o : list Z) : exists k, app o [6] = app o (repeat 6 k).
Proof. exists 1%nat. reflexivity. Qed.

Lemma tick_port (w : world) : radio_port (tick w) = radio_port w.
Proof. unfold tick. destruct (serial_verbose w); reflexivity. Qed.

Lemma ft60_read_block_acks (w : world) (start data nbytes : Z) (r : Z * world) :
  FT60.read_block w start data nbytes = Done r ->
  exists k, outgoing (radio_port (snd r)) = app (outgoing (radio_port w)) (repeat 6 k).
Proof.
unfold FT60.read_block, serial_read, serial_write. cbn [incoming outgoing].
destruct (receive (Z.to_nat nbytes) _) as [got rest].
cbn [radio_port with_port with_mem incoming outgoing].
destruct (negb (Z.of_nat (List.length got) =? nbytes)).
- destruct (start =? 0); [ | discriminate ].
  intros H. injection H as <-. exists O. cbn [snd radio_port outgoing repeat].
  rewrite app_nil_r. reflexivity.
- destruct (receive (Z.to_nat 1) rest) as [reply rest'].
  destruct reply as [| b more]; [ discriminate | ].
  destruct (negb (uint8 b =? 6)); [ discriminate | ].
  intros H. injection H as <-. cbn [snd]. rewrite tick_port.
  cbn [radio_port with_port outgoing]. apply acks_one.
Qed.

Lemma poll_acks (read : world -> result (Z * world)) (fuel : nat) :
  (forall w r, read w = Done r ->
     exists k, outgoing (radio_port (snd r)) = app (outgoing (radio_port w)) (repeat 6 k)) ->
  forall w w', poll fuel read w = Done w' ->
    exists k, outgoing (radio_port w') = app (outgoing (radio_port w)) (repeat 6 k).
Proof.
intros Hread. induction fuel as [| fuel IH]; intros w w' Hdone; [ discriminate | ].
cbn [poll] in Hdone. apply bind_done in Hdone. destruct Hdone as (r & Hr & Hdone).
apply Hread in Hr.
destruct (fst r =? 0).
- apply (acks_trans _ _ _ Hr). apply IH. exact Hdone.
- injection Hdone as <-. exact Hr.
Qed.

Lemma for_each_acks (body : Z -> world -> result world) (addrs : list Z) :
  (forall a w w', body a w = Done w' ->
     exists k, outgoing (radio_port w') = app (outgoing (radio_port w)) (repeat 6 k)) ->
  forall w w', for_each addrs body w = Done w' ->
    exists k, outgoing (radio_port w') = app (outgoing (radio_port w)) (repeat 6 k).
Proof.
intros Hbody. induction addrs as [| a rest IH]; intros w w' Hdone.
- injection Hdone as <-. apply acks_refl.
- cbn [for_each] in Hdone. apply bind_done in Hdone. destruct Hdone as (w1 & Hw1 & Hdone).
  apply (acks_trans _ _ _ (Hbody _ _ _ Hw1)). apply IH. exact Hdone.
Qed.

Lemma ft60_download_acks (fuel : nat) :
  forall w w', FT60.ft60_download fuel w = Done w' ->
    exists k, outgoing (radio_port w') = app (outgoing (radio_port w)) (repeat 6 k).
Proof.
induction fuel as [| fuel IH]; intros w w' Hdone; [ discriminate | ].
cbn [FT60.ft60_download] in Hdone.
apply bind_done in Hdone. destruct Hdone as (w1 & H1 & Hdone).
apply (poll_acks _ _ (fun w r => ft60_read_block_acks w 0 0 8 r)) in H1.
apply bind_done in Hdone. destruct Hdone as (w2 & H2 & Hdone).
apply for_each_acks in H2.
2:{ intros a v v' Hv. apply bind_done in Hv. destruct Hv as (r & Hr & Hv).
    injection Hv as <-. apply (ft60_read_block_acks _ _ _ _ _ Hr). }
apply bind_done in Hdone. destruct Hdone as (r & H3 & Hdone).
apply ft60_read_block_acks in H3.
pose proof (acks_trans _ _ _ (acks_trans _ _ _ H1 H2) H3) as Hpass.
cbv zeta in Hdone.
destruct (negb _) in Hdone.
- apply (acks_trans _ _ _ Hpass). apply IH. exact Hdone.
- injection Hdone as <-. exact Hpass.
Qed.

Lemma vx2_read_chunks_acks (chunks : nat) :
  forall need_ack w start data datalen r,
    VX2.read_chunks chunks need_ack w start data datalen = Done r ->
    exists k, outgoing (radio_port (snd r)) = app (outgoing (radio_port w)) (repeat 6 k).
Proof.
induction chunks as [| chunks IH]; intros need_ack w start data datalen r Hdone.
- discriminate.
- cbn [VX2.read_chunks] in Hdone. cbv zeta in Hdone.
  unfold serial_read at 1 in Hdone.
  destruct (receive _ _) as [got rest] in Hdone.
  cbn [radio_port with_port with_mem] in Hdone.
  destruct (negb (Z.of_nat (List.length got) =? _)) in Hdone.
  { destruct (start =? 0); [ | discriminate ].
    injection Hdone as <-. cbn [snd radio_port with_port with_mem outgoing]. apply acks_refl. }
  apply bind_done in Hdone. destruct Hdone as (w1 & Hack & Hdone).
  assert (H1 : exists k, outgoing (radio_port w1) = app (outgoing (radio_port w)) (repeat 6 k)).
  { destruct need_ack.
    - unfold serial_read, serial_write in Hack. cbn [incoming outgoing] in Hack.
      destruct (receive (Z.to_nat 1) rest) as [reply rest'].
      destruct reply as [| b more]; [ discriminate | ].
      destruct (negb (uint8 b =? 6)); [ discriminate | ].
      injection Hack as <-. cbn [radio_port with_port outgoing]. apply acks_one.
    - injection Hack as <-. cbn [radio_port with_port with_mem outgoing]. apply acks_refl. }
  destruct (_ <? datalen) in Hdone.
  + apply IH in Hdone. rewrite tick_port in Hdone. apply (acks_trans _ _ _ H1 Hdone).
  + injection Hdone as <-. cbn [snd]. rewrite tick_port. exact H1.
Qed.

Lemma vx2_read_block_acks (w : world) (start data datalen : Z) (r : Z * world) :
  VX2.read_block w start data datalen = Done r ->
  exists k, outgoing (radio_port (snd r)) = app (outgoing (radio_port w)) (repeat 6 k).
Proof. unfold VX2.read_block. apply vx2_read_chunks_acks. Qed.

Lemma vx2_download_acks (fuel : nat) :
  forall w w', VX2.vx2_download fuel w = Done w' ->
    exists k, outgoing (radio_port w') = app (outgoing (radio_port w)) (repeat 6 k).
Proof.
induction fuel as [| fuel IH]; intros w w' Hdone; [ discriminate | ].
cbn [VX2.vx2_download] in Hdone.
apply bind_done in Hdone. destruct Hdone as (w1 & H1 & Hdone).
apply (poll_acks _ _ (fun w r => vx2_read_block_acks w 0 0 10 r)) in H1.
apply bind_done in Hdone. destruct Hdone as (w2 & H2 & Hdone).
apply (poll_acks _ _ (fun w r => vx2_read_block_acks w 10 10 8 r)) in H2.
apply bind_done in Hdone. destruct Hdone as (r & H3 & Hdone).
apply vx2_read_block_acks in H3.
pose proof (acks_trans _ _ _ (acks_trans _ _ _ H1 H2) H3) as Hpass.
cbv zeta in Hdone.
destruct (negb _) in Hdone.
- apply (acks_trans _ _ _ Hpass). apply IH. exact Hdone.
- injection Hdone as <-. exact Hpass.
Qed.

(** A download sends nothing to the radio but acknowledgements: when it
    returns, what it wrote to the line is a run of bytes 0x06. *)
Theorem download_sends_acks :
  (forall (fuel : nat) (w w' : world),
      FT60.ft60_download fuel w = Done w' ->
      exists k, outgoing (radio_port w') = app (outgoing (radio_port w)) (repeat 6 k)) /\
  (forall (fuel : nat) (w w' : world),
      VX2.vx2_download fuel w = Done w' ->
      exists k, outgoing (radio_port w') = app (outgoing (radio_port w)) (repeat 6 k)).
Proof.
split.
- apply ft60_download_acks.
- apply vx2_download_acks.
Qed.

(** ** Programmable memory scan: the limits of a pair *)

Section FT60_pms.

Variables (tones codes : list Z) (m : memory) (i : Z) (lower upper : double).
Hypothesis Hi : 0 <= i < FT60.NPMS.

Let m' := FT60.setup_pms m i lower upper.
Let ch0 := FT60.OFFSET_PMS + (i * 2) * FT60.sizeof_channel.
Let ch1 := FT60.OFFSET_PMS + (i * 2 + 1) * FT60.sizeof_channel.

Lemma ft60_pms_used :
  FT60.ch_used m' ch0 = c_bool (negb (lower =? 0)%float) /\
  FT60.ch_used m' ch1 = c_bool (negb (lower =? 0)%float).
Proof.
subst m' ch0 ch1. unfold FT60.setup_pms, FT60.ch_used, load_field. cbv zeta.
ft60_layout.
destruct (lower =? 0)%float; read_back; read_field; split; reflexivity.
Qed.

Lemma ft60_pms_limits :
  (lower =? 0)%float = false ->
  FT60.freq_to_hz m' (FT60.ch_rxfreq ch0) =
    FT60.freq_to_hz (FT60.hz_to_freq (int_of_double (lower * 1000000)%float) m
                       (FT60.ch_rxfreq ch0)) (FT60.ch_rxfreq ch0) /\
  FT60.freq_to_hz m' (FT60.ch_rxfreq ch1) =
    FT60.freq_to_hz (FT60.hz_to_freq (int_of_double (upper * 1000000)%float) m
                       (FT60.ch_rxfreq ch1)) (FT60.ch_rxfreq ch1).
Proof.
intros Hlower.
split; apply ft60_freq_to_hz_ext; subst m' ch0 ch1; unfold FT60.setup_pms; cbv zeta;
  rewrite Hlower; ft60_layout; unfold FT60.hz_to_freq; cbv zeta; read_back; reflexivity.
Qed.

End FT60_pms.

Section VX2_pms.

Variables (m : memory) (i : Z) (mhz : double).
Hypothesis Hi : 0 <= i < 2 * VX2.NPMS.

Let m' := VX2.setup_pms m i mhz.
Let ch := VX2.OFFSET_PMS + i * VX2.sizeof_channel.

Lemma vx2_pms_flags : VX2.get_flags m' (i + VX2.NCHAN) = 3.
Proof.
subst m'. unfold VX2.setup_pms. cbv zeta. rewrite (Z.add_comm i).
rewrite vx2_get_set_flags, Z.eqb_refl; [ reflexivity | unfold VX2.NCHAN, VX2.NPMS in *; lia .. | ].
cbn. lia.
Qed.

Lemma vx2_pms_limit :
  VX2.freq_to_hz m' (VX2.ch_rxfreq ch) =
    VX2.freq_to_hz (VX2.hz_to_freq (VX2.iround (mhz * 1000000.0)%float) m (VX2.ch_rxfreq ch))
                   (VX2.ch_rxfreq ch) /\
  VX2.ch_duplex m' ch = VX2.D_SIMPLEX.
Proof.
pose proof (flags_index (1000 + i) ltac:(unfold VX2.NPMS in Hi; lia)) as Hq.
split; [ apply vx2_freq_to_hz_ext | unfold VX2.ch_duplex, load_field ];
  subst m' ch; unfold VX2.setup_pms; cbv zeta; vx2_layout; read_back; read_field;
  reflexivity.
Qed.

End VX2_pms.

(** The two limits of a pair of the programmable memory scan are read
    back as they were set, when the three bytes of a frequency can hold
    them.  On the FT-60 [setup_pms] writes both limits at once, and a
    lower limit of 0 clears the pair, which then decodes as empty; on the
    VX-2 it writes one limit, marks it valid, and the record is simplex. *)
Theorem pms_limits_roundtrip :
  (forall (tones codes : list Z) (m : memory) (i : Z) (lower upper : double),
      0 <= i < FT60.NPMS ->
      let lo := int_of_double (lower * 1000000)%float in
      let up := int_of_double (upper * 1000000)%float in
      0 <= lo < 1000000000 -> lo mod 2500 = 0 ->
      0 <= up < 1000000000 -> up mod 2500 = 0 ->
      let m' := FT60.setup_pms m i lower upper in
      let l := FT60.decode_channel tones codes m' (i * 2) FT60.OFFSET_PMS false in
      let u := FT60.decode_channel tones codes m' (i * 2 + 1) FT60.OFFSET_PMS false in
      if (lower =? 0)%float
      then FT60.rx_hz l = 0 /\ FT60.rx_hz u = 0
      else FT60.rx_hz l = lo /\ FT60.rx_hz u = up) /\
  (forall (tones codes : list Z) (m : memory) (i : Z) (mhz : double),
      0 <= i < 2 * VX2.NPMS ->
      let hz := VX2.iround (mhz * 1000000.0)%float in
      0 < hz < 1000000000 ->
      (hz mod 1000 = 0 /\ (hz / 1000) mod 10 <> 2 /\ (hz / 1000) mod 10 <> 7) \/
      (hz mod 1000 = 500 /\ ((hz / 1000) mod 10 = 2 \/ (hz / 1000) mod 10 = 7)) ->
      let c := VX2.decode_channel tones codes (VX2.setup_pms m i mhz)
                 i VX2.OFFSET_PMS false in
      VX2.rx_hz c = hz /\ VX2.tx_hz c = hz).
Proof.
split.
- intros tones codes m i lower upper Hi lo up Hlo Hlo' Hup Hup' m' l u.
  destruct (ft60_pms_used m i lower upper) as [Hused0 Hused1].
  pose proof (ft60_pms_limits m i lower upper) as Hlimits.
  fold m' in Hused0, Hused1, Hlimits.
  destruct (lower =? 0)%float.
  + subst l u. unfold FT60.decode_channel. cbv zeta.
    rewrite Hused0, Hused1. split; reflexivity.
  + destruct (Hlimits eq_refl) as [H0 H1].
    rewrite ft60_freq_roundtrip in H0, H1 by assumption.
    destruct (ft60_decode_fields tones codes m' (i * 2) FT60.OFFSET_PMS false)
      as (_ & Drx0 & _); [ rewrite Hused0; reflexivity | ].
    destruct (ft60_decode_fields tones codes m' (i * 2 + 1) FT60.OFFSET_PMS false)
      as (_ & Drx1 & _); [ rewrite Hused1; reflexivity | ].
    cbv zeta in Drx0, Drx1. subst l u.
    split; [ rewrite Drx0; exact H0 | rewrite Drx1; exact H1 ].
- intros tones codes m i mhz Hi hz Hhz Hshape c.
  pose proof (vx2_pms_flags m i mhz Hi) as Hflags.
  destruct (vx2_pms_limit m i mhz Hi) as [Hfreq Hduplex].
  rewrite vx2_freq_kept in Hfreq by assumption.
  destruct (vx2_decode_fields tones codes (VX2.setup_pms m i mhz) i VX2.OFFSET_PMS false)
    as (_ & Drx & Dtx & _).
  { rewrite Z.eqb_refl, Hflags. reflexivity. }
  cbv zeta in Drx, Dtx. subst c.
  split; [ rewrite Drx; exact Hfreq | ].
  rewrite Dtx, Hduplex, Hfreq. reflexivity.
Qed.

(** The statement at the pair 3 of the FT-60, 144 to 148 MHz, and at the
    record 5 of the VX-2, 430 MHz, in images of zeros. *)
Lemma pms_limits_roundtrip_witness :
  let ft := FT60.setup_pms (fun _ => 0) 2 144%float 148%float in
  let vx := VX2.setup_pms (fun _ => 0) 5 430%float in
  (FT60.rx_hz (FT60.decode_channel [885] [23] ft 4 FT60.OFFSET_PMS false) = 144000000 /\
   FT60.rx_hz (FT60.decode_channel [885] [23] ft 5 FT60.OFFSET_PMS false) = 148000000) /\
  (VX2.rx_hz (VX2.decode_channel [885] [23] vx 5 VX2.OFFSET_PMS false) = 430000000 /\
   VX2.tx_hz (VX2.decode_channel [885] [23] vx 5 VX2.OFFSET_PMS false) = 430000000).
Proof.
assert (Hrange : forall lo v hi, (lo <=? v) && (v <? hi) = true -> lo <= v < hi)
  by (intros lo v hi H; apply andb_true_iff in H; destruct H as [H1 H2];
      apply Z.leb_le in H1; apply Z.ltb_lt in H2; split; assumption).
intros ft vx. split.
- apply (proj1 pms_limits_roundtrip [885] [23] (fun _ => 0) 2 144%float 148%float).
  + apply Hrange. reflexivity.
  + apply Hrange. vm_compute. reflexivity.
  + vm_compute. reflexivity.
  + apply Hrange. vm_compute. reflexivity.
  + vm_compute. reflexivity.
- apply (proj2 pms_limits_roundtrip [885] [23] (fun _ => 0) 5 430%float).
  + apply Hrange. reflexivity.
  + vm_compute. split; reflexivity.
  + left. vm_compute. repeat split; discriminate.
Defined.

(** ** Home and VFO records *)

Section FT60_home.

Variables (m : memory) (band k : Z) (rx_mhz tx_mhz : double).
Variables (tmode tone dtcs power wide isam : Z).
Hypothesis Hband :
  (if band =? 250 then 1 else if band =? 350 then 2 else if band =? 430 then 3
   else if band =? 850 then 4 else 0) = k.

Let m' := FT60.setup_home m band rx_mhz tx_mhz tmode tone dtcs power wide isam.
Let ch := FT60.OFFSET_HOME + k * FT60.sizeof_channel.

Ltac open_ft60_home :=
  subst m' ch; unfold FT60.setup_home; cbv zeta; rewrite Hband; ft60_layout.

Lemma ft60_home_fields :
  FT60.ch_isnarrow m' ch = c_bool (wide =? 0) /\
  FT60.ch_isam m' ch = Z.land isam (Z.ones 1) /\
  FT60.ch_power m' ch = Z.land power (Z.ones 2).
Proof.
unfold FT60.ch_isnarrow, FT60.ch_isam, FT60.ch_power, load_field.
open_ft60_home; read_back; read_field.
split; [ destruct (wide =? 0); reflexivity | ].
split; reflexivity.
Qed.

Lemma ft60_home_rxfreq :
  FT60.freq_to_hz m' (FT60.ch_rxfreq ch) =
  FT60.freq_to_hz
    (FT60.hz_to_freq (int_of_double (rx_mhz * 1000000)%float) m (FT60.ch_rxfreq ch))
    (FT60.ch_rxfreq ch).
Proof.
apply ft60_freq_to_hz_ext; open_ft60_home;
  (destruct (_ =? 0)%float; [ | destruct (_ && _); [ | destruct (_ && _) ] ]);
  read_back; reflexivity.
Qed.

End FT60_home.

Section VX2_home.

Variables (m : memory) (band k : Z) (rx_mhz tx_mhz : double).
Variables (tmode tone dcs power amfm step : Z).
Hypothesis Hband : (if band <=? 4 then band - 1 else band) = k.

Let home := VX2.setup_home m band rx_mhz tx_mhz tmode tone dcs power amfm step.
Let vfo := VX2.setup_vfo m band rx_mhz tx_mhz tmode tone dcs power amfm step.
Let hch := VX2.OFFSET_HOME + k * VX2.sizeof_channel.
Let vch := VX2.OFFSET_VFO + k * VX2.sizeof_channel.

Ltac open_vx2_home :=
  subst home vfo hch vch; unfold VX2.setup_home, VX2.setup_vfo; cbv zeta;
  rewrite Hband; vx2_layout.

Lemma vx2_home_fields :
  (VX2.ch_isnarrow home hch = c_bool (amfm =? VX2.MOD_NFM) /\
   VX2.ch_amfm home hch = Z.land amfm (Z.ones 2) /\
   VX2.ch_step home hch = Z.land step (Z.ones 4) /\
   VX2.ch_power home hch = Z.land power (Z.ones 2)) /\
  (VX2.ch_isnarrow vfo vch = c_bool (amfm =? VX2.MOD_NFM) /\
   VX2.ch_amfm vfo vch = Z.land amfm (Z.ones 2) /\
   VX2.ch_step vfo vch = Z.land step (Z.ones 4) /\
   VX2.ch_power vfo vch = Z.land power (Z.ones 2)).
Proof.
unfold VX2.ch_isnarrow, VX2.ch_amfm, VX2.ch_step, VX2.ch_power, load_field.
open_vx2_home; read_back; read_field.
split; (split; [ destruct (amfm =? VX2.MOD_NFM); reflexivity | repeat split ]).
Qed.

Lemma vx2_home_rxfreq :
  VX2.freq_to_hz home (VX2.ch_rxfreq hch) =
    VX2.freq_to_hz
      (VX2.hz_to_freq (VX2.iround (rx_mhz * 1000000.0)%float) m (VX2.ch_rxfreq hch))
      (VX2.ch_rxfreq hch) /\
  VX2.freq_to_hz vfo (VX2.ch_rxfreq vch) =
    VX2.freq_to_hz
      (VX2.hz_to_freq (VX2.iround (rx_mhz * 1000000.0)%float) m (VX2.ch_rxfreq vch))
      (VX2.ch_rxfreq vch).
Proof.
split; apply vx2_freq_to_hz_ext; open_vx2_home;
  (destruct (_ =? 0); [ | destruct (_ && _); [ | destruct (_ && _) ] ]);
  read_back; reflexivity.
Qed.

End VX2_home.

(** A row of the Home table is written to the record that
    [print_config] prints under the band of the row, and is read back
    from it with the receive frequency, the power and the modulation that
    were given (and the dial step on the VX-2), when the arguments fit
    their fields and the three bytes can hold the frequency.  The same
    holds for the VFO table of the VX-2.  On the FT-60 the band of record
    [k] is [BAND_NAME[k]]; on the VX-2 it is [band_of_index k], and the
    record 4 has no band. *)
Theorem home_rows_roundtrip :
  (forall (tones codes : list Z) (m : memory) (k : Z) (rx_mhz tx_mhz : double)
          (tmode tone dtcs power wide isam : Z),
      0 <= k < 5 ->
      let band := atoi (nth (Z.to_nat k) FT60.BAND_NAME EmptyString) in
      let hz := int_of_double (rx_mhz * 1000000)%float in
      0 <= hz < 1000000000 -> hz mod 2500 = 0 ->
      0 <= power < 4 -> 0 <= isam < 2 ->
      let m' := FT60.setup_home m band rx_mhz tx_mhz tmode tone dtcs power wide isam in
      let c := FT60.decode_channel tones codes m' k FT60.OFFSET_HOME false in
      FT60.rx_hz c = hz /\ FT60.power c = power /\
      FT60.wide c = c_bool (negb (wide =? 0)) /\ FT60.isam c = isam) /\
  (forall (tones codes : list Z) (m : memory) (k : Z) (rx_mhz tx_mhz : double)
          (tmode tone dcs power amfm step : Z),
      0 <= k < 12 -> k <> 4 ->
      let band := VX2.band_of_index k in
      let hz := VX2.iround (rx_mhz * 1000000.0)%float in
      0 < hz < 1000000000 ->
      (hz mod 1000 = 0 /\ (hz / 1000) mod 10 <> 2 /\ (hz / 1000) mod 10 <> 7) \/
      (hz mod 1000 = 500 /\ ((hz / 1000) mod 10 = 2 \/ (hz / 1000) mod 10 = 7)) ->
      0 <= power < 4 -> 0 <= amfm <= 4 -> 0 <= step < 16 ->
      let home := VX2.setup_home m band rx_mhz tx_mhz tmode tone dcs power amfm step in
      let vfo := VX2.setup_vfo m band rx_mhz tx_mhz tmode tone dcs power amfm step in
      let h := VX2.decode_channel tones codes home k VX2.OFFSET_HOME false in
      let v := VX2.decode_channel tones codes vfo k VX2.OFFSET_VFO false in
      1 <= band <= 11 /\
      (VX2.rx_hz h = hz /\ VX2.power h = power /\ VX2.amfm h = amfm /\ VX2.step h = step) /\
      (VX2.rx_hz v = hz /\ VX2.power v = power /\ VX2.amfm v = amfm /\ VX2.step v = step)).
Proof.
split.
- intros tones codes m k rx_mhz tx_mhz tmode tone dtcs power wide isam
    Hk band hz Hhz Hstep Hpower Hisam m' c.
  assert (Hband : (if band =? 250 then 1 else if band =? 350 then 2
                   else if band =? 430 then 3 else if band =? 850 then 4 else 0) = k).
  { subst band. assert (Hcases : k = 0 \/ k = 1 \/ k = 2 \/ k = 3 \/ k = 4) by lia.
    destruct Hcases as [-> | [-> | [-> | [-> | ->]]]]; reflexivity. }
  destruct (ft60_home_fields m band k rx_mhz tx_mhz tmode tone dtcs power wide isam Hband)
    as (Hnarrow & Ham & Hpw).
  pose proof (ft60_home_rxfreq m band k rx_mhz tx_mhz tmode tone dtcs power wide isam Hband)
    as Hfreq.
  fold m' in Hnarrow, Ham, Hpw, Hfreq.
  rewrite ft60_freq_roundtrip in Hfreq by assumption.
  destruct (ft60_decode_fields tones codes m' k FT60.OFFSET_HOME false)
    as (_ & Drx & _ & Dpower & Dwide & Disam & _).
  { apply andb_false_iff. right. reflexivity. }
  cbv zeta in Drx, Dpower, Dwide, Disam. subst c.
  split; [ rewrite Drx; exact Hfreq | ].
  split; [ rewrite Dpower, Hpw; apply land_ones_small; lia | ].
  split; [ rewrite Dwide, Hnarrow; destruct (wide =? 0); reflexivity | ].
  rewrite Disam, Ham. apply land_ones_small; lia.
- intros tones codes m k rx_mhz tx_mhz tmode tone dcs power amfm step
    Hk Hk4 band hz Hhz Hshape Hpower Hamfm Hstep home vfo h v.
  assert (Hband : (if band <=? 4 then band - 1 else band) = k /\ 1 <= band <= 11).
  { subst band. unfold VX2.band_of_index.
    destruct (Z.ltb_spec k 4) as [Hlt | Hge].
    - destruct (Z.leb_spec (k + 1) 4); lia.
    - destruct (Z.leb_spec k 4); lia. }
  destruct Hband as [Hband Hrange]. split; [ exact Hrange | ].
  destruct (vx2_home_fields m band k rx_mhz tx_mhz tmode tone dcs power amfm step Hband)
    as [(Hn & Hm & Hs & Hp) (Hn' & Hm' & Hs' & Hp')].
  destruct (vx2_home_rxfreq m band k rx_mhz tx_mhz tmode tone dcs power amfm step Hband)
    as [Hfreq Hfreq'].
  fold home in Hn, Hm, Hs, Hp, Hfreq. fold vfo in Hn', Hm', Hs', Hp', Hfreq'.
  rewrite vx2_freq_kept in Hfreq, Hfreq' by assumption.
  assert (Hmod : (if negb (c_bool (amfm =? VX2.MOD_NFM) =? 0) then VX2.MOD_NFM
                  else Z.land amfm (Z.ones 2)) = amfm).
  { unfold VX2.MOD_NFM.
    assert (Hcases : amfm = 0 \/ amfm = 1 \/ amfm = 2 \/ amfm = 3 \/ amfm = 4) by lia.
    destruct Hcases as [-> | [-> | [-> | [-> | ->]]]]; reflexivity. }
  split.
  + destruct (vx2_decode_fields tones codes home k VX2.OFFSET_HOME false)
      as (_ & Drx & _ & Dpower & _ & Damfm & Dstep); [ reflexivity | ].
    cbv zeta in Drx, Dpower, Damfm, Dstep. subst h.
    split; [ rewrite Drx; exact Hfreq | ].
    split; [ rewrite Dpower, Hp; apply land_ones_small; lia | ].
    split; [ rewrite Damfm, Hn, Hm; exact Hmod | ].
    rewrite Dstep, Hs. apply land_ones_small; lia.
  + destruct (vx2_decode_fields tones codes vfo k VX2.OFFSET_VFO false)
      as (_ & Drx & _ & Dpower & _ & Damfm & Dstep); [ reflexivity | ].
    cbv zeta in Drx, Dpower, Damfm, Dstep. subst v.
    split; [ rewrite Drx; exact Hfreq' | ].
    split; [ rewrite Dpower, Hp'; apply land_ones_small; lia | ].
    split; [ rewrite Damfm, Hn', Hm'; exact Hmod | ].
    rewrite Dstep, Hs'. apply land_ones_small; lia.
Qed.

(** The statement at the Home row of band 430 of the FT-60 and at the
    rows of band 6 of the VX-2, in images of zeros. *)
Lemma home_rows_roundtrip_witness :
  let ft := FT60.setup_home (fun _ => 0) 430 433%float 433%float 0 12 0 2 1 0 in
  let vx := VX2.setup_home (fun _ => 0) 6 145%float 145%float 0 12 0 3 0 VX2.STEP_25 in
  let c := FT60.decode_channel [885] [23] ft 3 FT60.OFFSET_HOME false in
  let h := VX2.decode_channel [885] [23] vx 6 VX2.OFFSET_HOME false in
  (FT60.rx_hz c = 433000000 /\ FT60.power c = 2 /\ FT60.wide c = 1 /\ FT60.isam c = 0) /\
  (VX2.rx_hz h = 145000000 /\ VX2.power h = 3 /\ VX2.amfm h = 0 /\ VX2.step h = VX2.STEP_25).
Proof.
assert (Hrange : forall lo v hi, (lo <=? v) && (v <? hi) = true -> lo <= v < hi)
  by (intros lo v hi H; apply andb_true_iff in H; destruct H as [H1 H2];
      apply Z.leb_le in H1; apply Z.ltb_lt in H2; split; assumption).
intros ft vx c h. split.
- destruct (proj1 home_rows_roundtrip [885] [23] (fun _ => 0) 3 433%float 433%float
              0 12 0 2 1 0) as (Hrx & Hpw & Hwd & Ham).
  + apply Hrange. reflexivity.
  + apply Hrange. vm_compute. reflexivity.
  + vm_compute. reflexivity.
  + apply Hrange. reflexivity.
  + apply Hrange. reflexivity.
  + split; [ exact Hrx | ]. split; [ exact Hpw | ]. split; [ exact Hwd | exact Ham ].
- destruct (proj2 home_rows_roundtrip [885] [23] (fun _ => 0) 6 145%float 145%float
              0 12 0 3 0 VX2.STEP_25) as (_ & (Hrx & Hpw & Hmo & Hst) & _).
  + apply Hrange. reflexivity.
  + discriminate.
  + vm_compute. split; reflexivity.
  + left. vm_compute. repeat split; discriminate.
  + apply Hrange. reflexivity.
  + vm_compute. split; discriminate.
  + apply Hrange. reflexivity.
  + split; [ exact Hrx | ]. split; [ exact Hpw | ]. split; [ exact Hmo | exact Hst ].
Defined.

(** ** A complete transfer *)

Lemma is_done_true {A : Type} (r : result A) :
  is_done r = true -> exists a, r = Done a.
Proof.
destruct r as [a | st d |]; intros H; try discriminate. exists a. reflexivity.
Qed.

(** Witness of C2: a download of each radio that waits out one time-out,
    receives the whole image and finds the checksum right, and an upload
    of an image of zeros. *)
Lemma checksum_byte_invariant_witness :
  (exists w', FT60.ft60_download 2 (mk_world (fun _ => 0) (mk_port ft60_sends []) 0 false)
                = Done w' /\
              checksum_ok (radio_mem w') FT60.MEMSZ) /\
  (exists w', VX2.vx2_download 2 (mk_world (fun _ => 0) (mk_port vx2_sends []) 0 false)
                = Done w' /\
              checksum_ok (radio_mem w') VX2.MEMSZ) /\
  (exists w', FT60.ft60_upload 1 (mk_world (fun _ => 0) (mk_port ft60_answers []) 0 false)
                = Done w' /\
              checksum_ok (radio_mem w') FT60.MEMSZ) /\
  (exists w', VX2.vx2_upload 1 (mk_world (fun _ => 0) (mk_port vx2_answers []) 0 false)
                = Done w' /\
              checksum_ok (radio_mem w') VX2.MEMSZ).
Proof.
destruct checksum_byte_invariant as (Hfd & _ & Hfu & Hvd & _ & Hvu).
split; [ | split; [ | split ] ].
- destruct (is_done_true
              (FT60.ft60_download 2 (mk_world (fun _ => 0) (mk_port ft60_sends []) 0 false)))
    as [w' Hdone]; [ vm_compute; reflexivity | ].
  exists w'. split; [ exact Hdone | exact (Hfd _ _ _ Hdone) ].
- destruct (is_done_true
              (VX2.vx2_download 2 (mk_world (fun _ => 0) (mk_port vx2_sends []) 0 false)))
    as [w' Hdone]; [ vm_compute; reflexivity | ].
  exists w'. split; [ exact Hdone | exact (Hvd _ _ _ Hdone) ].
- destruct (is_done_true
              (FT60.ft60_upload 1 (mk_world (fun _ => 0) (mk_port ft60_answers []) 0 false)))
    as [w' Hdone]; [ vm_compute; reflexivity | ].
  exists w'. split; [ exact Hdone | exact (Hfu _ _ _ Hdone) ].
- destruct (is_done_true
              (VX2.vx2_upload 1 (mk_world (fun _ => 0) (mk_port vx2_answers []) 0 false)))
    as [w' Hdone]; [ vm_compute; reflexivity | ].
  exists w'. split; [ exact Hdone | exact (Hvu _ _ _ Hdone) ].
Defined.


(** The statement at the two downloads above, which start with nothing
    written to the line. *)
Lemma download_sends_acks_witness :
  (exists w', FT60.ft60_download 2 (mk_world (fun _ => 0) (mk_port ft60_sends []) 0 false)
                = Done w' /\
              exists k, outgoing (radio_port w') = repeat 6 k) /\
  (exists w', VX2.vx2_download 2 (mk_world (fun _ => 0) (mk_port vx2_sends []) 0 false)
                = Done w' /\
              exists k, outgoing (radio_port w') = repeat 6 k).
Proof.
destruct download_sends_acks as (Hft & Hvx).
split.
- destruct (is_done_true
              (FT60.ft60_download 2 (mk_world (fun _ => 0) (mk_port ft60_sends []) 0 false)))
    as [w' Hdone]; [ vm_compute; reflexivity | ].
  exists w'. split; [ exact Hdone | exact (Hft _ _ _ Hdone) ].
- destruct (is_done_true
              (VX2.vx2_download 2 (mk_world (fun _ => 0) (mk_port vx2_sends []) 0 false)))
    as [w' Hdone]; [ vm_compute; reflexivity | ].
  exists w'. split; [ exact Hdone | exact (Hvx _ _ _ Hdone) ].
Defined.
